(** * Voice todo agent: command resolution and resilient API calls

    A shallow embedding of the agent's command-resolution layer
    ([priority-mapper.ts], [date-parser.ts], [retry-utils.ts],
    [task-function-context.ts]) and the properties its specification states
    about it, followed by what the code itself shows of the API exchange,
    of the requests the four tools send, of the date and priority parsers,
    and of the greeting ([greeting.ts]) and the cleanup script
    ([cleanup.ts]).

    Conventions of the embedding.
    - A JavaScript string is a [string]: a sequence of 8-bit code units, read
      as Latin-1.  [toLowerCase], [trim], [includes], [parseInt] and the
      regular expressions of the source are written out on that type.
    - A JavaScript number that the code only counts with (list lengths,
      positions, milliseconds) is a [Z]; the priority argument, which the tool
      schema types as an arbitrary number, is a [number] (a rational, or one of
      the three non-finite values).
    - A [Date] is its time value: a [Z] of milliseconds since the epoch
      within the range of TimeClip, or NaN ([None]) for an invalid Date.
    - Exceptions are values of type [thrown]; code that may throw returns a
      [result], and asynchronous code that talks to the outside world runs in
      a state-and-exception monad over an explicit [World]. *)

From Stdlib Require Import ZArith QArith List String Ascii Bool Lia.
Import ListNotations.

Local Open Scope string_scope.
Local Open Scope Z_scope.

(* ================================================================== *)
(** * JavaScript string primitives *)

Module JS.

Definition code (c : ascii) : N := N_of_ascii c.

(** [\d] of a regular expression without the unicode flag. *)
Definition isDigit (c : ascii) : bool :=
  ((48 <=? code c) && (code c <=? 57))%N.

Definition digitValue (c : ascii) : Z := Z.of_N (code c) - 48.

(** WhiteSpace and LineTerminator code units below 256: tab, line feed,
    vertical tab, form feed, carriage return, space, no-break space. *)
Definition isWhiteSpace (c : ascii) : bool :=
  (((9 <=? code c) && (code c <=? 13)) || (code c =? 32) || (code c =? 160))%N.

(** [String.prototype.toLowerCase] on one Latin-1 code unit. *)
Definition toLowerCaseChar (c : ascii) : ascii :=
  if (((65 <=? code c) && (code c <=? 90))
      || ((192 <=? code c) && (code c <=? 222) && negb (code c =? 215)))%N
  then ascii_of_N (code c + 32)
  else c.

Fixpoint toLowerCase (s : string) : string :=
  match s with
  | EmptyString => EmptyString
  | String c s' => String (toLowerCaseChar c) (toLowerCase s')
  end.

Fixpoint trimStart (s : string) : string :=
  match s with
  | EmptyString => EmptyString
  | String c s' => if isWhiteSpace c then trimStart s' else s
  end.

Fixpoint trimEnd (s : string) : string :=
  match s with
  | EmptyString => EmptyString
  | String c s' =>
      match trimEnd s' with
      | EmptyString => if isWhiteSpace c then EmptyString else String c EmptyString
      | r => String c r
      end
  end.

Definition trim (s : string) : string := trimEnd (trimStart s).

(** [s.includes(sub)] *)
Fixpoint includes (s sub : string) : bool :=
  String.prefix sub s
  || match s with
     | EmptyString => false
     | String _ s' => includes s' sub
     end.

Fixpoint forallChars (p : ascii -> bool) (s : string) : bool :=
  match s with
  | EmptyString => true
  | String c s' => p c && forallChars p s'
  end.

(** The longest prefix of digits, and what follows it. *)
Fixpoint spanDigits (s : string) : string * string :=
  match s with
  | String c s' =>
      if isDigit c
      then let (ds, rest) := spanDigits s' in (String c ds, rest)
      else (EmptyString, s)
  | EmptyString => (EmptyString, EmptyString)
  end.

Definition startsWithDigit (s : string) : bool :=
  match s with
  | String c _ => isDigit c
  | EmptyString => false
  end.

Fixpoint digitsValueFrom (acc : Z) (ds : string) : Z :=
  match ds with
  | EmptyString => acc
  | String c ds' => digitsValueFrom (10 * acc + digitValue c) ds'
  end.

Definition digitsValue (ds : string) : Z := digitsValueFrom 0 ds.

(** [parseInt(s, 10)]: leading white space is skipped, one sign is
    accepted, the longest run of digits is read and whatever follows it is
    ignored; [None] is NaN (no digit where one is expected). *)
Definition splitSign (s : string) : bool * string :=
  match s with
  | String c r =>
      if Ascii.eqb c "-" then (true, r)
      else if Ascii.eqb c "+" then (false, r)
      else (false, s)
  | EmptyString => (false, s)
  end.

Definition parseInt (s : string) : option Z :=
  let '(negative, s2) := splitSign (trimStart s) in
  match fst (spanDigits s2) with
  | EmptyString => None
  | ds => Some (if negative then - digitsValue ds else digitsValue ds)
  end.

(** Decimal rendering of a non-negative integer ([`${n}`] for a count). *)
Definition digitChar (d : nat) : ascii := ascii_of_nat (48 + d).

Fixpoint showNatFuel (fuel n : nat) (acc : string) : string :=
  match fuel with
  | O => acc
  | S fuel' =>
      let acc' := String (digitChar (n mod 10)) acc in
      match (n / 10)%nat with
      | O => acc'
      | q => showNatFuel fuel' q acc'
      end
  end.

Definition showNat (n : nat) : string := showNatFuel (S n) n EmptyString.

Definition showInt (z : Z) : string :=
  if (z <? 0)%Z then "-" ++ showNat (Z.to_nat (- z)) else showNat (Z.to_nat z).

(** A text between double quotes, as the messages of the source embed it. *)
Definition doubleQuote : string := String (ascii_of_nat 34) EmptyString.
Definition quoted (s : string) : string := doubleQuote ++ s ++ doubleQuote.

(** [parts.join(sep)] *)
Fixpoint join (sep : string) (parts : list string) : string :=
  match parts with
  | [] => EmptyString
  | [p] => p
  | p :: rest => p ++ sep ++ join sep rest
  end.

End JS.

(* ================================================================== *)
(** * priority-mapper.ts *)

(** A JavaScript number as the priority argument can carry it. *)
Inductive number : Type :=
| Num (q : Q)
| NaN
| PosInfinity
| NegInfinity.

Definition ofInt (z : Z) : number := Num (inject_Z z).

(** [a <= b] on numbers *)
Definition number_leb (a b : number) : bool :=
  match a, b with
  | NaN, _ | _, NaN => false
  | NegInfinity, _ => true
  | _, PosInfinity => true
  | Num x, Num y => Qle_bool x y
  | _, _ => false
  end.

(** [a === b] on numbers *)
Definition number_eqb (a b : number) : bool :=
  match a, b with
  | Num x, Num y => Qeq_bool x y
  | PosInfinity, PosInfinity => true
  | NegInfinity, NegInfinity => true
  | _, _ => false
  end.

(** The number is a mathematical integer. *)
Definition isInteger (n : number) : Prop :=
  match n with
  | Num q => exists z : Z, (q == inject_Z z)%Q
  | _ => False
  end.

Record PriorityMapping : Type := {
  keywords : list string;
  value : number;
  label : string
}.

Definition PRIORITY_MAPPINGS : list PriorityMapping :=
  [ {| keywords := ["low"; "minor"; "optional"]; value := ofInt 1; label := "Low" |};
    {| keywords := ["normal"; "medium"; "standard"; "regular"]; value := ofInt 2;
       label := "Normal" |};
    {| keywords := ["high"; "important"; "elevated"]; value := ofInt 3; label := "High" |};
    {| keywords := ["urgent"; "pressing"; "time-sensitive"; "time sensitive"];
       value := ofInt 4; label := "Urgent" |};
    {| keywords := ["critical"; "severe"; "blocking"; "emergency"]; value := ofInt 5;
       label := "Critical" |} ].

(** The argument of [parsePriority]: [string | number | null | undefined]. *)
Inductive PriorityInput : Type :=
| InNull
| InUndefined
| InNumber (n : number)
| InString (s : string).

(** The [for ... of PRIORITY_MAPPINGS] loop: the first mapping one of whose
    keywords occurs in the normalized text. *)
Fixpoint matchKeywords (mappings : list PriorityMapping) (normalized : string)
  : option number :=
  match mappings with
  | [] => None
  | mapping :: rest =>
      if existsb (fun keyword => JS.includes normalized keyword) (keywords mapping)
      then Some (value mapping)
      else matchKeywords rest normalized
  end.

(** [parsePriority], over the mapping table it reads; [None] is [null]. *)
Definition parsePriorityWith (mappings : list PriorityMapping)
  (input : PriorityInput) : option number :=
  match input with
  | InNull | InUndefined => None
  | InNumber n =>
      if number_leb (ofInt 1) n && number_leb n (ofInt 5) then Some n else None
  | InString s =>
      let normalized := JS.trim (JS.toLowerCase s) in
      match JS.parseInt normalized with
      | Some numericValue =>
          if ((1 <=? numericValue) && (numericValue <=? 5))%Z
          then Some (ofInt numericValue)
          else matchKeywords mappings normalized
      | None => matchKeywords mappings normalized
      end
  end.

Definition parsePriority : PriorityInput -> option number :=
  parsePriorityWith PRIORITY_MAPPINGS.

Section FormatPriority.

(** The platform's rendering of a number in a template literal. *)
Variable Number_toString : number -> string.

(** [formatPriority]; [None] is [null] or [undefined]. *)
Definition formatPriority (v : option number) : string :=
  match v with
  | None => EmptyString
  | Some n =>
      match find (fun m => number_eqb (value m) n) PRIORITY_MAPPINGS with
      | Some mapping =>
          match label mapping with
          | EmptyString => "Priority " ++ Number_toString n
          | l => l
          end
      | None => "Priority " ++ Number_toString n
      end
  end.

End FormatPriority.

(* ================================================================== *)
(** * Exceptions *)

(** What a [throw] carries: an [Error] object with its message, or any other
    value (of which only its [String(...)] rendering is kept). *)
Inductive thrown : Type :=
| Error (message : string)
| NonError (rendering : string).

Inductive result (A : Type) : Type :=
| Ok (a : A)
| Throw (e : thrown).

Arguments Ok {A} a.
Arguments Throw {A} e.

Definition result_map {A B : Type} (f : A -> B) (r : result A) : result B :=
  match r with
  | Ok a => Ok (f a)
  | Throw e => Throw e
  end.

(* ================================================================== *)
(** * The Date object, on time values *)

Module JSDate.

Definition msPerDay : Z := 86400000.

Definition Day (t : Z) : Z := t / msPerDay.
Definition TimeWithinDay (t : Z) : Z := t mod msPerDay.

Definition DaysInYear (y : Z) : Z :=
  if (y mod 4 =? 0) && (negb (y mod 100 =? 0) || (y mod 400 =? 0))
  then 366 else 365.

Definition DayFromYear (y : Z) : Z :=
  365 * (y - 1970) + (y - 1969) / 4 - (y - 1901) / 100 + (y - 1601) / 400.

(** The year a day number falls in: an estimate from the mean year length,
    moved by one where it is off. *)
Definition YearFromDay (d : Z) : Z :=
  let y0 := 1970 + d * 400 / 146097 in
  if DayFromYear (y0 + 1) <=? d then y0 + 1
  else if d <? DayFromYear y0 then y0 - 1
  else y0.

Definition YearFromTime (t : Z) : Z := YearFromDay (Day t).
Definition InLeapYear (t : Z) : Z := DaysInYear (YearFromTime t) - 365.
Definition DayWithinYear (t : Z) : Z := Day t - DayFromYear (YearFromTime t).

(** Day within the year on which month [m] (0 to 11) starts. *)
Definition monthStart (m leap : Z) : Z :=
  match m with
  | 0 => 0
  | 1 => 31
  | 2 => 59 + leap
  | 3 => 90 + leap
  | 4 => 120 + leap
  | 5 => 151 + leap
  | 6 => 181 + leap
  | 7 => 212 + leap
  | 8 => 243 + leap
  | 9 => 273 + leap
  | 10 => 304 + leap
  | _ => 334 + leap
  end.

Definition MonthFromTime (t : Z) : Z :=
  let d := DayWithinYear t in
  let leap := InLeapYear t in
  if d <? 31 then 0
  else if d <? 59 + leap then 1
  else if d <? 90 + leap then 2
  else if d <? 120 + leap then 3
  else if d <? 151 + leap then 4
  else if d <? 181 + leap then 5
  else if d <? 212 + leap then 6
  else if d <? 243 + leap then 7
  else if d <? 273 + leap then 8
  else if d <? 304 + leap then 9
  else if d <? 334 + leap then 10
  else 11.

Definition DateFromTime (t : Z) : Z :=
  DayWithinYear t - monthStart (MonthFromTime t) (InLeapYear t) + 1.

Definition WeekDay (t : Z) : Z := (Day t + 4) mod 7.

Definition HourFromTime (t : Z) : Z := (t / 3600000) mod 24.
Definition MinFromTime (t : Z) : Z := (t / 60000) mod 60.
Definition SecFromTime (t : Z) : Z := (t / 1000) mod 60.
Definition msFromTime (t : Z) : Z := t mod 1000.

Definition MakeTime (h m s ms : Z) : Z :=
  h * 3600000 + m * 60000 + s * 1000 + ms.

Definition MakeDay (year month date : Z) : Z :=
  let ym := year + month / 12 in
  let mn := month mod 12 in
  DayFromYear ym + monthStart mn (DaysInYear ym - 365) + date - 1.

Definition MakeDate (day time : Z) : Z := day * msPerDay + time.

(** ** Date objects

    The time value of a Date is a whole number of milliseconds of absolute
    value at most [maxTime], or NaN, the invalid Date: [None]. *)

Definition maxTime : Z := 8640000000000000.

(** [TimeClip]: every method that sets a time value ends with it. *)
Definition TimeClip (t : Z) : option Z :=
  if Z.abs t <=? maxTime then Some t else None.

(** The time values of the valid Dates. *)
Definition isTimeValue (t : Z) : Prop := - maxTime <= t <= maxTime.

Definition Date : Type := option Z.

(** The getters give NaN on an invalid Date. *)
Definition getUTCDate (d : Date) : option Z := option_map DateFromTime d.
Definition getUTCMonth (d : Date) : option Z := option_map MonthFromTime d.

(** [x + k], where [x] may be NaN. *)
Definition plus (x : option Z) (k : Z) : option Z :=
  option_map (fun v => v + k) x.

(** The setters leave an invalid Date invalid, and make a Date invalid when
    the new time value is beyond [maxTime]. *)
Definition setUTCHours (d : Date) (h m s ms : Z) : Date :=
  match d with
  | Some t => TimeClip (MakeDate (Day t) (MakeTime h m s ms))
  | None => None
  end.

Definition setUTCDate (d : Date) (date : option Z) : Date :=
  match d, date with
  | Some t, Some dt =>
      TimeClip (MakeDate (MakeDay (YearFromTime t) (MonthFromTime t) dt)
                  (TimeWithinDay t))
  | _, _ => None
  end.

Definition setUTCMonth (d : Date) (month : option Z) : Date :=
  match d, month with
  | Some t, Some mn =>
      TimeClip (MakeDate (MakeDay (YearFromTime t) mn (DateFromTime t))
                  (TimeWithinDay t))
  | _, _ => None
  end.

(** [n] rendered on at least [width] digits. *)
Definition pad (width : nat) (n : Z) : string :=
  let s := JS.showNat (Z.to_nat n) in
  string_of_list_ascii (repeat "0"%char (width - String.length s)) ++ s.

(** The rendering [toISOString] gives for a valid Date, from its time
    value. *)
Definition toISOString (d : Z) : string :=
  let y := YearFromTime d in
  let year :=
    if (0 <=? y) && (y <=? 9999) then pad 4 y
    else if y <? 0 then "-" ++ pad 6 (- y)
    else "+" ++ pad 6 y in
  year ++ "-" ++ pad 2 (MonthFromTime d + 1) ++ "-" ++ pad 2 (DateFromTime d)
       ++ "T" ++ pad 2 (HourFromTime d) ++ ":" ++ pad 2 (MinFromTime d)
       ++ ":" ++ pad 2 (SecFromTime d) ++ "." ++ pad 3 (msFromTime d) ++ "Z".

End JSDate.

(* ================================================================== *)
(** * date-parser.ts *)

(** ** The regular expressions of the parser, as matchers *)

Module Regex.

(** [\d{n}] at the head of [s]: what follows it. *)
Fixpoint eatDigits (n : nat) (s : string) : option string :=
  match n with
  | O => Some s
  | S n' =>
      match s with
      | String c s' => if JS.isDigit c then eatDigits n' s' else None
      | EmptyString => None
      end
  end.

(** A literal at the head of [s]: what follows it. *)
Definition eatLiteral (lit s : string) : option string :=
  if String.prefix lit s
  then Some (String.substring (String.length lit)
               (String.length s - String.length lit) s)
  else None.

Definition andThen {A B : Type} (o : option A) (f : A -> option B) : option B :=
  match o with
  | Some a => f a
  | None => None
  end.

Definition atEnd (s : string) : bool :=
  match s with
  | EmptyString => true
  | _ => false
  end.

(** [Z?$] *)
Definition optionalZThenEnd (s : string) : bool :=
  atEnd s || match eatLiteral "Z" s with Some r => atEnd r | None => false end.

(** [/^\d{4}-\d{2}-\d{2}(T\d{2}:\d{2}:\d{2}(\.\d{3})?Z?)?$/] *)
Definition iso8601Pattern (s : string) : bool :=
  match andThen (andThen (andThen (andThen (eatDigits 4 s) (eatLiteral "-"))
                   (eatDigits 2)) (eatLiteral "-")) (eatDigits 2) with
  | None => false
  | Some afterDate =>
      match andThen (andThen (andThen (andThen (andThen (eatLiteral "T" afterDate)
                       (eatDigits 2)) (eatLiteral ":")) (eatDigits 2))
                       (eatLiteral ":")) (eatDigits 2) with
      | Some afterTime =>
          match andThen (eatLiteral "." afterTime) (eatDigits 3) with
          | Some afterMillis =>
              optionalZThenEnd afterMillis || optionalZThenEnd afterTime
              || atEnd afterDate
          | None => optionalZThenEnd afterTime || atEnd afterDate
          end
      | None => atEnd afterDate
      end
  end.

(** The first of [alternatives] that is all of [s]: [(a|b|...)$]. *)
Definition exactlyOneOf (alternatives : list string) (s : string) : option string :=
  find (fun a => String.eqb a s) alternatives.

Definition units : list string :=
  ["day"; "days"; "week"; "weeks"; "month"; "months"].

Definition weekdayAlternatives : list string :=
  ["monday"; "tuesday"; "wednesday"; "thursday"; "friday"; "saturday"; "sunday"].

(** [/^in (\d+) (day|days|week|weeks|month|months)$/]: the two groups. *)
Definition relativePattern (s : string) : option (string * string) :=
  match eatLiteral "in " s with
  | None => None
  | Some r =>
      let (digits, afterDigits) := JS.spanDigits r in
      match digits with
      | EmptyString => None
      | _ =>
          match andThen (eatLiteral " " afterDigits) (exactlyOneOf units) with
          | Some unit => Some (digits, unit)
          | None => None
          end
      end
  end.

(** [/^<prefix>(monday|...|sunday)$/] *)
Definition prefixedWeekdayPattern (prefix s : string) : bool :=
  match andThen (eatLiteral prefix s) (exactlyOneOf weekdayAlternatives) with
  | Some _ => true
  | None => false
  end.

End Regex.

(** [s.replace(pattern, replacement)] with a string pattern: the first
    occurrence only. *)
Fixpoint replaceFirst (pattern replacement s : string) : string :=
  match Regex.eatLiteral pattern s with
  | Some rest => replacement ++ rest
  | None =>
      match s with
      | EmptyString => EmptyString
      | String c s' => String c (replaceFirst pattern replacement s')
      end
  end.

(** [array.indexOf(x)] on strings, [None] for -1. *)
Fixpoint indexOf (x : string) (l : list string) : option Z :=
  match l with
  | [] => None
  | y :: l' =>
      if String.eqb y x then Some 0
      else match indexOf x l' with
           | Some i => Some (i + 1)
           | None => None
           end
  end.

Definition pastDateMessage : string :=
  "Cannot schedule tasks in the past. Please choose a future date.".

Definition isISO8601 (str : string) : bool := Regex.iso8601Pattern str.

Definition isWeekdayName (str : string) : bool :=
  existsb (String.eqb (JS.toLowerCase str))
    ["monday"; "tuesday"; "wednesday"; "thursday"; "friday"; "saturday"; "sunday"].

Definition parseRelativeDate (input : string) (referenceDate : Z)
  : result JSDate.Date :=
  match Regex.relativePattern input with
  | None => Throw (Error ("Invalid relative date format: " ++ input))
  | Some (digits, unit) =>
      match JS.parseInt digits with
      | None => Throw (Error ("Invalid relative date format: " ++ input))
      | Some amount =>
          let targetDate := JSDate.setUTCHours (Some referenceDate) 12 0 0 0 in
          if String.eqb unit "day" || String.eqb unit "days" then
            Ok (JSDate.setUTCDate targetDate
                  (JSDate.plus (JSDate.getUTCDate targetDate) amount))
          else if String.eqb unit "week" || String.eqb unit "weeks" then
            Ok (JSDate.setUTCDate targetDate
                  (JSDate.plus (JSDate.getUTCDate targetDate) (amount * 7)))
          else if String.eqb unit "month" || String.eqb unit "months" then
            Ok (JSDate.setUTCMonth targetDate
                  (JSDate.plus (JSDate.getUTCMonth targetDate) amount))
          else Ok targetDate
      end
  end.

(** [referenceDate] is the time value of the reference Date, a valid Date:
    its [getUTCDay()] is [WeekDay] of the time value, and
    [new Date(referenceDate)] is the copy the setters then act on. *)
Definition getNextWeekday (weekday : string) (referenceDate : Z) (forceNext : bool)
  : result JSDate.Date :=
  let weekdays :=
    ["sunday"; "monday"; "tuesday"; "wednesday"; "thursday"; "friday"; "saturday"] in
  match indexOf (JS.toLowerCase weekday) weekdays with
  | None => Throw (Error ("Invalid weekday: " ++ weekday))
  | Some targetDayIndex =>
      let currentDayIndex := JSDate.WeekDay referenceDate in
      let targetDate := JSDate.setUTCHours (Some referenceDate) 12 0 0 0 in
      let daysUntilTarget := targetDayIndex - currentDayIndex in
      let daysUntilTarget :=
        if (daysUntilTarget <=? 0) || forceNext
        then daysUntilTarget + 7 else daysUntilTarget in
      Ok (JSDate.setUTCDate targetDate
            (JSDate.plus (JSDate.getUTCDate targetDate) daysUntilTarget))
  end.

(** The message of the RangeError that [toISOString] throws for an invalid
    Date. *)
Definition invalidTimeMessage : string := "Invalid time value".

Section ParseNaturalDate.

(** [new Date(text).getTime()] for a text that passed [isISO8601]: the
    platform's parser (a date-time without zone is read in the host's local
    time); [None] is NaN. *)
Variable Date_parse : string -> option Z.

(** The instant [parseNaturalDate] settles on, before it is rendered;
    [referenceDate] is the time value of the reference Date, a valid Date.
    A target that left the range of Date is an invalid Date: the past-date
    comparison is false on it, and [toISOString] throws the RangeError. *)
Definition parseNaturalDateTarget (input : string) (referenceDate : Z) : result Z :=
  let normalized := JS.trim (JS.toLowerCase input) in
  if isISO8601 input then
    match Date_parse input with
    | None => Throw (Error "Invalid date format")
    | Some date =>
        if date <? referenceDate then Throw (Error pastDateMessage) else Ok date
    end
  else
    let target : result JSDate.Date :=
      if String.eqb normalized "today" || String.eqb normalized "tonight" then
        if String.eqb normalized "tonight"
        then Ok (JSDate.setUTCHours (Some referenceDate) 20 0 0 0)
        else Ok (JSDate.setUTCHours (Some referenceDate) 12 0 0 0)
      else if String.eqb normalized "tomorrow" then
        let targetDate :=
          JSDate.setUTCDate (Some referenceDate)
            (JSDate.plus (JSDate.getUTCDate (Some referenceDate)) 1) in
        Ok (JSDate.setUTCHours targetDate 12 0 0 0)
      else if String.eqb normalized "next week" then
        let targetDate :=
          JSDate.setUTCDate (Some referenceDate)
            (JSDate.plus (JSDate.getUTCDate (Some referenceDate)) 7) in
        Ok (JSDate.setUTCHours targetDate 12 0 0 0)
      else if String.eqb normalized "next month" then
        let targetDate :=
          JSDate.setUTCMonth (Some referenceDate)
            (JSDate.plus (JSDate.getUTCMonth (Some referenceDate)) 1) in
        Ok (JSDate.setUTCHours targetDate 12 0 0 0)
      else if match Regex.relativePattern normalized with Some _ => true | None => false end then
        parseRelativeDate normalized referenceDate
      else if Regex.prefixedWeekdayPattern "next " normalized then
        getNextWeekday (replaceFirst "next " "" normalized) referenceDate true
      else if isWeekdayName normalized then
        getNextWeekday normalized referenceDate false
      else if Regex.prefixedWeekdayPattern "this " normalized then
        getNextWeekday (replaceFirst "this " "" normalized) referenceDate false
      else
        Throw (Error ("I couldn't understand the date " ++ JS.quoted input
                      ++ ". Try phrases like " ++ JS.quoted "tomorrow" ++ ", "
                      ++ JS.quoted "next Monday" ++ ", " ++ JS.quoted "in 3 days"
                      ++ ", or a specific date."))
    in
    match target with
    | Throw e => Throw e
    | Ok (Some targetDate) =>
        if targetDate <? referenceDate then Throw (Error pastDateMessage)
        else Ok targetDate
    | Ok None => Throw (Error invalidTimeMessage)
    end.

Definition parseNaturalDate (input : string) (referenceDate : Z) : result string :=
  result_map JSDate.toISOString (parseNaturalDateTarget input referenceDate).

End ParseNaturalDate.

(* ================================================================== *)
(** * retry-utils.ts *)

(** [Required<RetryOptions>]; an [Error] is passed to [shouldRetry] by its
    message. *)
Record RetryOptions : Type := {
  maxRetries : Z;
  initialDelayMs : Z;
  maxDelayMs : Z;
  timeoutMs : Z;
  backoffMultiplier : Z;
  shouldRetry : string -> bool
}.

(** The optional fields a caller may pass. *)
Record PartialRetryOptions : Type := {
  maxRetries_opt : option Z;
  initialDelayMs_opt : option Z;
  maxDelayMs_opt : option Z;
  timeoutMs_opt : option Z;
  backoffMultiplier_opt : option Z;
  shouldRetry_opt : option (string -> bool)
}.

Definition noOptions : PartialRetryOptions :=
  {| maxRetries_opt := None; initialDelayMs_opt := None; maxDelayMs_opt := None;
     timeoutMs_opt := None; backoffMultiplier_opt := None; shouldRetry_opt := None |}.

Definition defaultShouldRetry (errorMessage : string) : bool :=
  let message := JS.toLowerCase errorMessage in
  JS.includes message "network"
  || JS.includes message "timeout"
  || JS.includes message "fetch"
  || JS.includes message "econnrefused"
  || JS.includes message "status 5".

Definition DEFAULT_RETRY_OPTIONS : RetryOptions :=
  {| maxRetries := 2;
     initialDelayMs := 500;
     maxDelayMs := 5000;
     timeoutMs := 10000;
     backoffMultiplier := 2;
     shouldRetry := defaultShouldRetry |}.

Definition orDefault {A : Type} (o : option A) (d : A) : A :=
  match o with
  | Some a => a
  | None => d
  end.

(** [{ ...DEFAULT_RETRY_OPTIONS, ...options }], for the options the callers
    pass, object literals whose keys carry values: [None] is a key that is
    absent, and the default then stands. *)
Definition mergeOptions (options : PartialRetryOptions) : RetryOptions :=
  {| maxRetries := orDefault (maxRetries_opt options) (maxRetries DEFAULT_RETRY_OPTIONS);
     initialDelayMs :=
       orDefault (initialDelayMs_opt options) (initialDelayMs DEFAULT_RETRY_OPTIONS);
     maxDelayMs := orDefault (maxDelayMs_opt options) (maxDelayMs DEFAULT_RETRY_OPTIONS);
     timeoutMs := orDefault (timeoutMs_opt options) (timeoutMs DEFAULT_RETRY_OPTIONS);
     backoffMultiplier :=
       orDefault (backoffMultiplier_opt options) (backoffMultiplier DEFAULT_RETRY_OPTIONS);
     shouldRetry := orDefault (shouldRetry_opt options) (shouldRetry DEFAULT_RETRY_OPTIONS) |}.

(** [Math.min(initialDelay * Math.pow(multiplier, attempt), maxDelay)], on
    whole numbers that the doubles of the code hold exactly; [attempt] is
    the count of the attempts made so far, never negative. *)
Definition calculateDelay (attempt initialDelay maxDelay multiplier : Z) : Z :=
  let delay := initialDelay * multiplier ^ attempt in
  Z.min delay maxDelay.

(** [error instanceof Error ? error : new Error(String(error))], as the
    message of the resulting [Error]. *)
Definition toError (error : thrown) : string :=
  match error with
  | Error message => message
  | NonError rendering => rendering
  end.

Definition timeoutMessage (timeoutMs : Z) : string :=
  "Operation timed out after " ++ JS.showInt timeoutMs ++ "ms".

Section WithRetry.

(** The state the awaited operations act on. *)
Context {State A : Type}.

(** [await sleep(ms)] *)
Variable sleep : Z -> State -> State.

(** Whether, for an operation started in this state, the timer of
    [withTimeout] settles the race. *)
Variable timerFires : Z -> State -> bool.

Definition Async : Type := State -> result A * State.

(** [Promise.race] of the operation and the timer; what the abandoned
    operation did stays done. *)
Definition withTimeout (promise : Async) (timeoutMs : Z) : Async :=
  fun st =>
    if timerFires timeoutMs st
    then (Throw (Error (timeoutMessage timeoutMs)), snd (promise st))
    else promise st.

(** The [while] loop of [withRetry], one iteration per unit of fuel;
    [None] when the fuel runs out before the loop ends. *)
Fixpoint retryLoop (fuel : nat) (fn : Async) (opts : RetryOptions)
  (attempt : Z) (lastError : option string) (st : State)
  : option (result A * State) :=
  match fuel with
  | O => None
  | S fuel' =>
      if attempt <=? maxRetries opts then
        match withTimeout fn (timeoutMs opts) st with
        | (Ok result, st1) => Some (Ok result, st1)
        | (Throw error, st1) =>
            let lastError := toError error in
            if attempt >=? maxRetries opts then
              Some (Throw (Error lastError), st1)
            else if negb (shouldRetry opts lastError) then
              Some (Throw (Error lastError), st1)
            else
              let delay :=
                calculateDelay attempt (initialDelayMs opts) (maxDelayMs opts)
                  (backoffMultiplier opts) in
              retryLoop fuel' fn opts (attempt + 1) (Some lastError) (sleep delay st1)
        end
      else
        match lastError with
        | Some message => Some (Throw (Error message), st)
        | None => Some (Throw (NonError "undefined"), st)
        end
  end.

Definition withRetryOpts (fn : Async) (opts : RetryOptions) (st : State)
  : option (result A * State) :=
  retryLoop (S (Z.to_nat (maxRetries opts + 1))) fn opts 0 None st.

Definition withRetry (fn : Async) (options : PartialRetryOptions)
  : State -> option (result A * State) :=
  withRetryOpts fn (mergeOptions options).

End WithRetry.

Definition formatErrorForTTS (errorMessage operation : string) : string :=
  let message := JS.toLowerCase errorMessage in
  if JS.includes message "network" || JS.includes message "fetch"
     || JS.includes message "econnrefused" then
    "I couldn't " ++ operation
      ++ " due to a network error. Please check your connection and try again."
  else if JS.includes message "timeout" then
    "The request to " ++ operation ++ " timed out. Please try again."
  else if JS.includes message "status 5" then
    "The server encountered an error while trying to " ++ operation
      ++ ". Please try again in a moment."
  else if JS.includes message "status 4" then
    if JS.includes message "404" || JS.includes message "not found" then
      "I couldn't find that task. Please try a different description."
    else if JS.includes message "400" || JS.includes message "invalid" then
      "The request to " ++ operation
        ++ " was invalid. Please try rephrasing your command."
    else
      "There was a problem with the request to " ++ operation ++ ". Please try again."
  else
    "I couldn't " ++ operation ++ ". Please try again.".

(* ================================================================== *)
(** * task-function-context.ts: data and the outside world *)

(** A value that may be [undefined] or [null] ([.nullish()] in the schema). *)
Inductive Nullish (A : Type) : Type :=
| Undefined
| Null
| Value (a : A).

Arguments Undefined {A}.
Arguments Null {A}.
Arguments Value {A} a.

Record Task : Type := {
  id : string;
  title : string;
  completed : bool;
  scheduled_time : option string;
  priority_index : option number;
  tags : option (list string);
  created_at : string;
  updated_at : string
}.

Inductive Method : Type := GET | POST | PATCH | DELETE.

(** The object sent as the JSON body of a request: the keys that were set. *)
Record RequestBody : Type := {
  body_title : option string;
  body_scheduled_time : option string;
  body_priority_index : option number;
  body_tags : option (list string);
  body_completed : option bool
}.

Definition emptyBody : RequestBody :=
  {| body_title := None; body_scheduled_time := None; body_priority_index := None;
     body_tags := None; body_completed := None |}.

(** [Object.keys(body).length] *)
Definition keyCount {A : Type} (field : option A) : nat :=
  match field with
  | Some _ => 1
  | None => 0
  end.

Definition bodyKeys (b : RequestBody) : nat :=
  (keyCount (body_title b) + keyCount (body_scheduled_time b)
   + keyCount (body_priority_index b) + keyCount (body_tags b)
   + keyCount (body_completed b))%nat.

(** A call of [fetch]: the path with its search parameters, the method and
    the body (the [Content-Type] header is the same on every call). *)
Record Request : Type := {
  url : string;
  params : list (string * string);
  method : Method;
  body : option RequestBody
}.

(** A [Response]; [json()] is read at the type its caller declares. *)
Record Response : Type := {
  status : Z;
  ok : bool;
  text : result string;
  jsonTask : result Task;
  jsonTasks : result (list Task)
}.

Inductive FetchOutcome : Type :=
| FetchRejects (e : thrown)
| FetchResolves (r : Response).

(** The [payload] of an [APPLY_FILTERS] message. *)
Record Filters : Type := {
  filter_query : Nullish string;
  filter_priority : option number;
  filter_scheduled : Nullish string
}.

Record FrontendMessage : Type := {
  type : string;
  payload : option Filters
}.

(** The world a tool call runs in: the clock (the time value that the
    [new Date()] of the call reads), how the network and the timers answer,
    and the record of what the call did: the requests it sent, the back-off
    delays it slept and the messages it handed to the room. *)
Record World : Type := {
  now : Z;
  network : nat -> Request -> FetchOutcome;
  timers : nat -> bool;
  fetchCount : nat;
  requests : list Request;
  sleeps : list Z;
  published : list FrontendMessage
}.

(** Asynchronous code: a state-and-exception computation on the world;
    [None] is a loop that ran out of fuel. *)
Definition M (A : Type) : Type := World -> option (result A * World).

Definition ret {A : Type} (a : A) : M A := fun w => Some (Ok a, w).

Definition bind {A B : Type} (m : M A) (k : A -> M B) : M B :=
  fun w =>
    match m w with
    | None => None
    | Some (Ok a, w') => k a w'
    | Some (Throw e, w') => Some (Throw e, w')
    end.

(** [try { body } catch (error) { handler }] *)
Definition tryCatch {A : Type} (body : M A) (handler : thrown -> M A) : M A :=
  fun w =>
    match body w with
    | None => None
    | Some (Ok a, w') => Some (Ok a, w')
    | Some (Throw e, w') => handler e w'
    end.

Definition liftResult {A : Type} (r : result A) : M A := fun w => Some (r, w).

Declare Scope async_scope.
Delimit Scope async_scope with async.
Notation "x <- m ;; k" := (bind m (fun x => k))
  (at level 61, m at next level, right associativity) : async_scope.
Local Open Scope async_scope.

(** [new Date()] *)
Definition currentDate : M Z := fun w => Some (Ok (now w), w).

Definition sleepWorld (ms : Z) (w : World) : World :=
  {| now := now w; network := network w; timers := timers w; fetchCount := fetchCount w;
     requests := requests w; sleeps := ms :: sleeps w;
     published := published w |}.

Definition timerFiresWorld (timeoutMs : Z) (w : World) : bool :=
  timers w (fetchCount w).

(** The operation [fetchWithErrorHandling] retries: one [fetch], and the
    check of [response.ok]. *)
Definition fetchOnce (request : Request) : World -> result Response * World :=
  fun w =>
    let w1 :=
      {| now := now w; network := network w; timers := timers w; fetchCount := S (fetchCount w);
         requests := request :: requests w; sleeps := sleeps w;
         published := published w |} in
    match network w (fetchCount w) request with
    | FetchRejects e => (Throw e, w1)
    | FetchResolves response =>
        if ok response then (Ok response, w1)
        else
          match text response with
          | Throw e => (Throw e, w1)
          | Ok errorBody =>
              (Throw (Error ("API request failed with status "
                             ++ JS.showInt (status response))), w1)
          end
    end.

Definition apiRetryOptions : PartialRetryOptions :=
  {| maxRetries_opt := Some 2; initialDelayMs_opt := Some 500;
     maxDelayMs_opt := None; timeoutMs_opt := Some 8000;
     backoffMultiplier_opt := None; shouldRetry_opt := None |}.

Definition fetchWithErrorHandling (request : Request) : M Response :=
  withRetry sleepWorld timerFiresWorld (fetchOnce request) apiRetryOptions.

(** The agent object: its API base URL, and whether it was given a room. *)
Record TaskFunctionContext : Type := {
  apiBaseUrl : string;
  room : bool
}.

(** [sendDataToFrontend]: without a room nothing happens; with one the
    message is handed to [publishData], whose failure is caught and logged
    inside the helper, so that the helper itself never throws. *)
Definition sendDataToFrontend (this : TaskFunctionContext) (data : FrontendMessage)
  : M unit :=
  if room this then
    fun w =>
      Some (Ok tt,
            {| now := now w; network := network w; timers := timers w; fetchCount := fetchCount w;
               requests := requests w; sleeps := sleeps w;
               published := data :: published w |})
  else ret tt.

Definition getAllTasks (this : TaskFunctionContext) : M (list Task) :=
  response <- fetchWithErrorHandling
                {| url := apiBaseUrl this ++ "/api/tasks"; params := [];
                   method := GET; body := None |} ;;
  liftResult (jsonTasks response).

(* ================================================================== *)
(** * task-function-context.ts: the identifier resolver *)

(** [/^\d+$/] *)
Definition plainNumberPattern (s : string) : bool :=
  match s with
  | EmptyString => false
  | _ => JS.forallChars JS.isDigit s
  end.

(** [(st|nd|rd|th)] at the head of [s], ignoring case. *)
Definition ordinalSuffixAt (s : string) : bool :=
  match s with
  | String a (String b _) =>
      let two := JS.toLowerCase (String a (String b EmptyString)) in
      String.eqb two "st" || String.eqb two "nd"
      || String.eqb two "rd" || String.eqb two "th"
  | _ => false
  end.

(** [(\d+)(st|nd|rd|th)] at the head of [s]: the digits group.  The group is
    greedy: the longer run of digits is tried before the shorter one. *)
Fixpoint ordinalAt (s : string) : option string :=
  match s with
  | String c s' =>
      if JS.isDigit c then
        match ordinalAt s' with
        | Some digits => Some (String c digits)
        | None => if ordinalSuffixAt s' then Some (String c EmptyString) else None
        end
      else None
  | EmptyString => None
  end.

(** [identifier.match(/(\d+)(st|nd|rd|th)/i)]: group 1 of the leftmost match. *)
Fixpoint ordinalPattern (s : string) : option string :=
  match ordinalAt s with
  | Some digits => Some digits
  | None =>
      match s with
      | String _ s' => ordinalPattern s'
      | EmptyString => None
      end
  end.

Definition plural (n : nat) : string := if Nat.eqb n 1 then "" else "s".

(** [`${index + 1}`] where [index] is [parseInt(...) - 1], NaN included. *)
Definition showPosition (index : option Z) : string :=
  match index with
  | Some i => JS.showInt (i + 1)
  | None => "NaN"
  end.

(** The positional look-up both numeric branches perform on the fetched
    list; [index] is [None] when [parseInt] gave NaN. *)
Definition resolvePosition (index : option Z) (tasks : list Task) : result string :=
  let outOfRange :=
    match index with
    | Some i => (i <? 0) || (i >=? Z.of_nat (List.length tasks))
    | None => false
    end in
  if outOfRange then
    Throw (Error ("Task number " ++ showPosition index ++ " doesn't exist. You have "
                  ++ JS.showNat (List.length tasks) ++ " task"
                  ++ plural (List.length tasks) ++ "."))
  else
    match match index with
          | Some i => nth_error tasks (Z.to_nat i)
          | None => None
          end with
    | None => Throw (Error ("Task number " ++ showPosition index ++ " doesn't exist."))
    | Some task => Ok (id task)
    end.

(** [matches.map((task, idx) => `${idx + 1}. ${task.title}`)] *)
Fixpoint numberedTitles (idx : nat) (matches : list Task) : list string :=
  match matches with
  | [] => []
  | task :: rest =>
      (JS.showNat (idx + 1) ++ ". " ++ title task) :: numberedTitles (S idx) rest
  end.

Definition titleMatches (lowerIdentifier : string) (task : Task) : bool :=
  JS.includes (JS.toLowerCase (title task)) lowerIdentifier.

(** The title-substring branch, on the fetched list. *)
Definition resolveByTitle (identifier : string) (tasks : list Task) : result string :=
  let lowerIdentifier := JS.toLowerCase identifier in
  let matches := filter (titleMatches lowerIdentifier) tasks in
  if Nat.eqb (List.length matches) 0 then
    Throw (Error ("No task found matching " ++ JS.quoted identifier
                  ++ ". Please try a different description."))
  else if Nat.ltb 1 (List.length matches) then
    let matchList := JS.join ", " (numberedTitles 0 matches) in
    Throw (Error ("Multiple tasks match " ++ JS.quoted identifier ++ ": " ++ matchList
                  ++ ". Please be more specific or use a task number."))
  else
    match matches with
    | task :: _ => Ok (id task)
    | [] => Throw (Error ("No task found matching " ++ JS.quoted identifier ++ "."))
    end.

Definition resolveTaskIdentifier (this : TaskFunctionContext) (identifier : string)
  : M string :=
  if plainNumberPattern identifier then
    let index := option_map (fun n => n - 1) (JS.parseInt identifier) in
    tasks <- getAllTasks this ;;
    liftResult (resolvePosition index tasks)
  else
    match ordinalPattern identifier with
    | Some digits =>
        let index := option_map (fun n => n - 1) (JS.parseInt digits) in
        tasks <- getAllTasks this ;;
        liftResult (resolvePosition index tasks)
    | None =>
        tasks <- getAllTasks this ;;
        liftResult (resolveByTitle identifier tasks)
    end.

(* ================================================================== *)
(** * task-function-context.ts: the four tools *)

(** Truthiness of an optional string argument. *)
Definition truthyString (s : Nullish string) : bool :=
  match s with
  | Value (String _ _) => true
  | _ => false
  end.

(** Truthiness of the priority argument. *)
Definition truthyPriority (p : PriorityInput) : bool :=
  match p with
  | InString (String _ _) => true
  | InNumber (Num q) => negb (Qeq_bool q 0)
  | InNumber PosInfinity | InNumber NegInfinity => true
  | _ => false
  end.

(** [/^\d{4}-\d{2}-\d{2}/] *)
Definition isoDateRegex (s : string) : bool :=
  match Regex.andThen (Regex.andThen (Regex.andThen (Regex.andThen
          (Regex.eatDigits 4 s) (Regex.eatLiteral "-")) (Regex.eatDigits 2))
          (Regex.eatLiteral "-")) (Regex.eatDigits 2) with
  | Some _ => true
  | None => false
  end.

(** [error.message.includes(...)] for the three phrases of the resolver. *)
Definition isClarification (message : string) : bool :=
  JS.includes message "Multiple tasks match"
  || JS.includes message "No task found"
  || JS.includes message "doesn't exist".

(** [task.completed], where a parameter of the tool has the field's name. *)
Definition taskCompleted (task : Task) : bool := completed task.

Section Tools.

Variable Date_parse : string -> option Z.
Variable Number_toString : number -> string.
Variable this : TaskFunctionContext.

(** [`${priority}`] *)
Definition showPriority (priority : PriorityInput) : string :=
  match priority with
  | InNull => "null"
  | InUndefined => "undefined"
  | InNumber n => Number_toString n
  | InString s => s
  end.

Definition priorityNotUnderstood (priority : PriorityInput) : string :=
  "I couldn't understand the priority " ++ JS.quoted (showPriority priority)
    ++ ". Please use low, normal, high, urgent, critical, or a number from 1 to 5.".

Definition dateNotUnderstood (scheduled_time : string) : string :=
  "I couldn't understand the date " ++ JS.quoted scheduled_time
    ++ ". Please try a different format.".

Definition create_task (title : string) (scheduled_time : Nullish string)
  (priority : PriorityInput) (tags : Nullish (list string)) : M string :=
  tryCatch
    (let body := {| body_title := Some title; body_scheduled_time := None;
                    body_priority_index := None; body_tags := None;
                    body_completed := None |} in
     let afterPriority (body : RequestBody) : M string :=
       let send (priority_index : number) : M string :=
         let body :=
           {| body_title := body_title body;
              body_scheduled_time := body_scheduled_time body;
              body_priority_index := Some priority_index;
              body_tags := match tags with
                           | Value (t :: ts) => Some (t :: ts)
                           | _ => None
                           end;
              body_completed := body_completed body |} in
         response <- fetchWithErrorHandling
                       {| url := apiBaseUrl this ++ "/api/tasks"; params := [];
                          method := POST; body := Some body |} ;;
         task <- liftResult (jsonTask response) ;;
         _ <- sendDataToFrontend this {| type := "TASK_CREATED"; payload := None |} ;;
         ret "Task created" in
       match parsePriority priority with
       | Some priorityValue => send priorityValue
       | None =>
           match priority with
           | InUndefined | InNull => send (ofInt 1)
           | _ => ret (priorityNotUnderstood priority)
           end
       end in
     match scheduled_time with
     | Value (String c s) =>
         referenceDate <- currentDate ;;
         match parseNaturalDate Date_parse (String c s) referenceDate with
         | Ok parsedDate =>
             afterPriority
               {| body_title := body_title body;
                  body_scheduled_time := Some parsedDate;
                  body_priority_index := None; body_tags := None;
                  body_completed := None |}
         | Throw (Error message) => ret message
         | Throw (NonError _) => ret (dateNotUnderstood (String c s))
         end
     | _ => afterPriority body
     end)
    (fun error =>
       match error with
       | Error message => ret (formatErrorForTTS message "create that task")
       | NonError _ => ret "Couldn't create task"
       end).

Definition get_tasks (query : Nullish string) (priority : PriorityInput)
  (scheduled : Nullish string) : M string :=
  tryCatch
    (let params := if truthyString query
                   then match query with
                        | Value q => [("query", q)]
                        | _ => []
                        end
                   else [] in
     let afterPriority (params : list (string * string))
           (priorityValue : option number) : M string :=
       let params :=
         match scheduled with
         | Value s =>
             if truthyString scheduled && negb (String.eqb s "all")
                && negb (String.eqb (JS.trim s) "")
             then if isoDateRegex s then (params ++ [("scheduled", s)])%list else params
             else params
         | _ => params
         end in
       response <- fetchWithErrorHandling
                     {| url := apiBaseUrl this ++ "/api/tasks"; params := params;
                        method := GET; body := None |} ;;
       tasks <- liftResult (jsonTasks response) ;;
       _ <- sendDataToFrontend this
              {| type := "APPLY_FILTERS";
                 payload := Some {| filter_query := query;
                                    filter_priority := priorityValue;
                                    filter_scheduled := scheduled |} |} ;;
       if Nat.eqb (List.length tasks) 0 then
         if truthyString query || truthyPriority priority || truthyString scheduled
         then ret "No tasks found"
         else ret "No tasks"
       else
         ret ("Found " ++ JS.showNat (List.length tasks) ++ " task"
              ++ plural (List.length tasks)) in
     match parsePriority priority with
     | Some priorityValue =>
         afterPriority (params ++ [("priority", Number_toString priorityValue)])%list
           (Some priorityValue)
     | None =>
         match priority with
         | InUndefined | InNull => afterPriority params None
         | _ => ret (priorityNotUnderstood priority)
         end
     end)
    (fun error =>
       match error with
       | Error message => ret (formatErrorForTTS message "retrieve your tasks")
       | NonError _ => ret "Couldn't get tasks"
       end).

Definition update_task (identifier : string) (title : Nullish string)
  (scheduled_time : Nullish string) (priority : PriorityInput)
  (completed : Nullish bool) : M string :=
  tryCatch
    (taskId <- resolveTaskIdentifier this identifier ;;
     let body := {| body_title := match title with
                                  | Value t => Some t
                                  | _ => None
                                  end;
                    body_scheduled_time := None; body_priority_index := None;
                    body_tags := None; body_completed := None |} in
     let afterPriority (body : RequestBody) : M string :=
       let body :=
         {| body_title := body_title body;
            body_scheduled_time := body_scheduled_time body;
            body_priority_index := body_priority_index body;
            body_tags := body_tags body;
            body_completed := match completed with
                              | Value c => Some c
                              | _ => None
                              end |} in
       if Nat.eqb (bodyKeys body) 0 then
         ret "No changes specified. Please tell me what you'd like to update."
       else
         response <- fetchWithErrorHandling
                       {| url := apiBaseUrl this ++ "/api/tasks/" ++ taskId;
                          params := []; method := PATCH; body := Some body |} ;;
         task <- liftResult (jsonTask response) ;;
         _ <- sendDataToFrontend this {| type := "TASK_UPDATED"; payload := None |} ;;
         match completed with
         | Undefined => ret "Updated"
         | _ => if taskCompleted task
                then ret "Marked complete" else ret "Marked incomplete"
         end in
     let afterDate (body : RequestBody) : M string :=
       match priority with
       | InUndefined | InNull => afterPriority body
       | _ =>
           match parsePriority priority with
           | Some priorityValue =>
               afterPriority
                 {| body_title := body_title body;
                    body_scheduled_time := body_scheduled_time body;
                    body_priority_index := Some priorityValue;
                    body_tags := body_tags body;
                    body_completed := body_completed body |}
           | None => ret (priorityNotUnderstood priority)
           end
       end in
     match scheduled_time with
     | Value s =>
         referenceDate <- currentDate ;;
         match parseNaturalDate Date_parse s referenceDate with
         | Ok parsedDate =>
             afterDate
               {| body_title := body_title body;
                  body_scheduled_time := Some parsedDate;
                  body_priority_index := None; body_tags := None;
                  body_completed := None |}
         | Throw (Error message) => ret message
         | Throw (NonError _) => ret (dateNotUnderstood s)
         end
     | _ => afterDate body
     end)
    (fun error =>
       match error with
       | Error message =>
           if isClarification message then ret message
           else ret (formatErrorForTTS message "update that task")
       | NonError _ => ret "Couldn't update task"
       end).

Definition delete_task (identifier : string) : M string :=
  tryCatch
    (taskId <- resolveTaskIdentifier this identifier ;;
     response <- fetchWithErrorHandling
                   {| url := apiBaseUrl this ++ "/api/tasks/" ++ taskId;
                      params := []; method := DELETE; body := None |} ;;
     task <- liftResult (jsonTask response) ;;
     _ <- sendDataToFrontend this {| type := "TASK_DELETED"; payload := None |} ;;
     ret "Deleted")
    (fun error =>
       match error with
       | Error message =>
           if isClarification message then ret message
           else ret (formatErrorForTTS message "delete that task")
       | NonError _ => ret "Couldn't delete task"
       end).

End Tools.

(* ================================================================== *)
(** * Observing a run of [withRetry] *)

(** To count what [withRetry] does, the state is paired with a record of
    the run: the outcome of every attempt (the operation raced against its
    timer) and every delay slept, both in the order they happened. *)
Section Traced.

Context {State A : Type}.
Variable sleep : Z -> State -> State.
Variable timerFires : Z -> State -> bool.
Variable fn : State -> result A * State.
Variable timeout : Z.

Definition Traced : Type := (State * list (result A) * list Z)%type.

Definition tracedAttempt (t : Traced) : result A * Traced :=
  let '(st, outcomes, delays) := t in
  let (r, st') := withTimeout timerFires fn timeout st in
  (r, (st', (outcomes ++ [r])%list, delays)).

Definition tracedSleep (ms : Z) (t : Traced) : Traced :=
  let '(st, outcomes, delays) := t in
  (sleep ms st, outcomes, (delays ++ [ms])%list).

(** The timer is already part of [tracedAttempt]. *)
Definition noTimer (timeoutMs : Z) (t : Traced) : bool := false.

Definition withRetryTraced (opts : RetryOptions) (st : State)
  : option (result A * Traced) :=
  withRetryOpts tracedSleep noTimer tracedAttempt opts (st, [], []).

Definition erase (r : result A * Traced) : result A * State :=
  let '(x, (st, _, _)) := r in (x, st).

End Traced.


(* ================================================================== *)
(** * Vocabulary of the statements *)

(** Noon, as [setUTCHours(12, 0, 0, 0)] sets it. *)
Definition noonUTC : Z := JSDate.MakeTime 12 0 0 0.

(** The end of [parseNaturalDate], on the target Date a branch settled on:
    the past-date check, then the rendering, which an invalid Date fails. *)
Definition checkTarget (target : result JSDate.Date) (referenceDate : Z) : result Z :=
  match target with
  | Throw e => Throw e
  | Ok (Some targetDate) =>
      if targetDate <? referenceDate then Throw (Error pastDateMessage)
      else Ok targetDate
  | Ok None => Throw (Error invalidTimeMessage)
  end.

(** What the parser makes of a target instant that is not before the
    reference: the instant itself when it is the time value of a Date, the
    RangeError of [toISOString] when it lies beyond. *)
Definition targetOrRangeError (T : Z) : result Z :=
  match JSDate.TimeClip T with
  | Some t => Ok t
  | None => Throw (Error invalidTimeMessage)
  end.

(** The computation ends, normally or by throwing, from every world. *)
Definition terminates {A : Type} (m : M A) : Prop :=
  forall w, exists r w', m w = Some (r, w').

(** The computation ends by returning a value from every world. *)
Definition returns {A : Type} (m : M A) : Prop :=
  forall w, exists a w', m w = Some (Ok a, w').


(** The words a tool answers a completed command with. *)
Definition confirmations : list string :=
  ["Task created"; "Updated"; "Deleted"; "Marked complete"; "Marked incomplete"].

(** What [get_tasks] answers for a list of tasks: their number, and nothing
    else of them. *)
Definition countReport (tasks : list Task) (filtered : bool) : string :=
  if Nat.eqb (List.length tasks) 0
  then if filtered then "No tasks found" else "No tasks"
  else "Found " ++ JS.showNat (List.length tasks) ++ " task"
       ++ plural (List.length tasks).

(** The world a computation leaves behind. *)
Definition worldAfter {A : Type} (m : M A) (w : World) : World :=
  match m w with
  | Some (_, w') => w'
  | None => w
  end.

(* ================================================================== *)
(** * Sample data, for the concrete instances *)

Definition sampleTask (taskId taskTitle : string) (done : bool) : Task :=
  {| id := taskId; title := taskTitle; completed := done; scheduled_time := None;
     priority_index := None; tags := None;
     created_at := "2024-01-01T00:00:00.000Z";
     updated_at := "2024-01-01T00:00:00.000Z" |}.

Definition sampleTasks : list Task :=
  [ sampleTask "a" "Buy milk" false;
    sampleTask "b" "4" false;
    sampleTask "c" "buy eggs" true ].

Definition sampleResponse : Response :=
  {| status := 200; ok := true; text := Ok "";
     jsonTask := Ok (sampleTask "b" "4" true);
     jsonTasks := Ok sampleTasks |}.

(** [new Date('2024-01-15T10:00:00Z')], a Monday: the reference date of the
    unit tests of the parser. *)
Definition testReferenceDate : Z := 1705312800000.

(** A world at that instant, in which the API answers every request. *)
Definition sampleWorld : World :=
  {| now := testReferenceDate;
     network := fun _ _ => FetchResolves sampleResponse;
     timers := fun _ => false;
     fetchCount := 0; requests := []; sleeps := []; published := [] |}.

Definition sampleContext : TaskFunctionContext :=
  {| apiBaseUrl := "http://localhost:3000"; room := true |}.

(** A host's date parser, on the two texts the unit tests of the parser use,
    and a rendering of numbers that is exact on the integers. *)
Definition sampleDateParse (text : string) : option Z :=
  if String.eqb text "2024-12-25T10:00:00Z" then Some 1735120800000
  else if String.eqb text "2024-01-10T10:00:00Z" then Some 1704880800000
  else None.

Definition sampleNumberToString (n : number) : string :=
  match n with
  | Num q => JS.showInt (Qnum q / Z.pos (Qden q))
  | NaN => "NaN"
  | PosInfinity => "Infinity"
  | NegInfinity => "-Infinity"
  end.

(** An operation given by the outcome of each of its calls, on a state that
    counts the calls. *)
Definition scripted {A : Type} (script : nat -> result A) (calls : nat)
  : result A * nat :=
  (script calls, S calls).

Definition failsTwice (call : nat) : result string :=
  match call with
  | 0%nat | 1%nat => Throw (Error "API request failed with status 503")
  | _ => Ok "done"
  end.

Definition notFound (call : nat) : result string :=
  Throw (Error "API request failed with status 404").

Definition sleepScripted (ms : Z) (calls : nat) : nat := calls.

Definition neverFires (timeoutMs : Z) (calls : nat) : bool := false.

(* ================================================================== *)
(** * What one API exchange does to the world *)

(** The message of the error [fetchWithErrorHandling] throws for a response
    that is not [ok]. *)
Definition httpErrorMessage (status : Z) : string :=
  "API request failed with status " ++ JS.showInt status.

(** The outcome of the attempt that is the [index]-th call of [fetch]: the
    timer of the 8 second race, then what the network answers, then the
    check of [response.ok]. *)
Definition attemptOutcome (w : World) (index : nat) (request : Request)
  : result Response :=
  if timers w index then Throw (Error (timeoutMessage 8000))
  else
    match network w index request with
    | FetchRejects e => Throw e
    | FetchResolves response =>
        if ok response then Ok response
        else
          match text response with
          | Throw e => Throw e
          | Ok _ => Throw (Error (httpErrorMessage (status response)))
          end
    end.

(** The world after [attempts] calls of [fetch] with the same request, the
    back-off delays slept between them included (latest first). *)
Definition worldAfterAttempts (w : World) (request : Request) (attempts : nat)
  : World :=
  {| now := now w; network := network w; timers := timers w;
     fetchCount := fetchCount w + attempts;
     requests := (repeat request attempts ++ requests w)%list;
     sleeps :=
       (match attempts with
        | 0%nat | 1%nat => []
        | 2%nat => [500]
        | _ => [1000; 500]
        end ++ sleeps w)%list;
     published := published w |}.

(** Whether the default predicate retries after this outcome. *)
Definition retried (r : result Response) : bool :=
  match r with
  | Ok _ => false
  | Throw e => defaultShouldRetry (toError e)
  end.

(** What [withRetry] hands back for the outcome of its last attempt. *)
Definition settled (r : result Response) : result Response :=
  match r with
  | Ok response => Ok response
  | Throw e => Throw (Error (toError e))
  end.

(** How many attempts an exchange takes, read off the answers of the world. *)
Definition attemptsNeeded (w : World) (request : Request) : nat :=
  if retried (attemptOutcome w (fetchCount w) request) then
    if retried (attemptOutcome w (S (fetchCount w)) request) then 3 else 2
  else 1.

(** The characters of a rendered integer: digits and the minus sign. *)
Definition isNumeral (c : ascii) : bool := JS.isDigit c || Ascii.eqb c "-".

(** The call of [fetch] number [index] is answered, in time, by a response
    that is not [ok], has a readable body and carries the status [code]. *)
Definition answersWithStatus (w : World) (index : nat) (request : Request)
  (code : Z) : Prop :=
  timers w index = false
  /\ exists response errorBody,
       network w index request = FetchResolves response
       /\ ok response = false /\ text response = Ok errorBody
       /\ status response = code.

(** Whether a call settled without throwing. *)
Definition succeeded {A : Type} (r : result A) : bool :=
  match r with
  | Ok _ => true
  | Throw _ => false
  end.

(* ================================================================== *)
(** * What the tools send, from their arguments *)

(** The four kinds of request. *)
Definition listRequest (this : TaskFunctionContext) : Request :=
  {| url := apiBaseUrl this ++ "/api/tasks"; params := []; method := GET;
     body := None |}.

Definition createRequest (this : TaskFunctionContext) (fields : RequestBody) : Request :=
  {| url := apiBaseUrl this ++ "/api/tasks"; params := []; method := POST;
     body := Some fields |}.

Definition patchRequest (this : TaskFunctionContext) (taskId : string)
  (fields : RequestBody) : Request :=
  {| url := apiBaseUrl this ++ "/api/tasks/" ++ taskId; params := []; method := PATCH;
     body := Some fields |}.

Definition deleteRequest (this : TaskFunctionContext) (taskId : string) : Request :=
  {| url := apiBaseUrl this ++ "/api/tasks/" ++ taskId; params := []; method := DELETE;
     body := None |}.

(** The fields [update_task] puts in the body of its PATCH, from its
    arguments: the ones that were given, the date and the priority in the
    form the parsers gave them. *)
Definition updateFields (Date_parse : string -> option Z) (title : Nullish string)
  (scheduled_time : Nullish string) (priority : PriorityInput)
  (completed : Nullish bool) (referenceDate : Z) : RequestBody :=
  {| body_title := match title with
                   | Value t => Some t
                   | _ => None
                   end;
     body_scheduled_time :=
       match scheduled_time with
       | Value s =>
           match parseNaturalDate Date_parse s referenceDate with
           | Ok parsedDate => Some parsedDate
           | Throw _ => None
           end
       | _ => None
       end;
     body_priority_index := match priority with
                            | InUndefined | InNull => None
                            | _ => parsePriority priority
                            end;
     body_tags := None;
     body_completed := match completed with
                       | Value c => Some c
                       | _ => None
                       end |}.

(** The arguments of [update_task] lead to a PATCH: a date that was given
    was understood, a priority that was given was understood, and at least
    one field is to change. *)
Definition updateAccepted (Date_parse : string -> option Z) (title : Nullish string)
  (scheduled_time : Nullish string) (priority : PriorityInput)
  (completed : Nullish bool) (referenceDate : Z) : bool :=
  match scheduled_time with
  | Value s =>
      match parseNaturalDate Date_parse s referenceDate with
      | Ok _ => true
      | Throw _ => false
      end
  | _ => true
  end
  && match priority with
     | InUndefined | InNull => true
     | _ => match parsePriority priority with
            | Some _ => true
            | None => false
            end
     end
  && negb (Nat.eqb (bodyKeys (updateFields Date_parse title scheduled_time priority
                                completed referenceDate)) 0).

(** The fields [create_task] puts in the body of its POST. *)
Definition createFields (Date_parse : string -> option Z) (title : string)
  (scheduled_time : Nullish string) (priority : PriorityInput)
  (tags : Nullish (list string)) (referenceDate : Z) : RequestBody :=
  {| body_title := Some title;
     body_scheduled_time :=
       match scheduled_time with
       | Value (String c s) =>
           match parseNaturalDate Date_parse (String c s) referenceDate with
           | Ok parsedDate => Some parsedDate
           | Throw _ => None
           end
       | _ => None
       end;
     body_priority_index := Some match parsePriority priority with
                                 | Some priorityValue => priorityValue
                                 | None => ofInt 1
                                 end;
     body_tags := match tags with
                  | Value (t :: ts) => Some (t :: ts)
                  | _ => None
                  end;
     body_completed := None |}.

(** The arguments of [create_task] lead to a POST: a date that was given was
    understood, and so was a priority that was given. *)
Definition createAccepted (Date_parse : string -> option Z)
  (scheduled_time : Nullish string) (priority : PriorityInput) (referenceDate : Z)
  : bool :=
  match scheduled_time with
  | Value (String c s) =>
      match parseNaturalDate Date_parse (String c s) referenceDate with
      | Ok _ => true
      | Throw _ => false
      end
  | _ => true
  end
  && match parsePriority priority with
     | Some _ => true
     | None => match priority with
               | InUndefined | InNull => true
               | _ => false
               end
     end.

(** The search parameters [get_tasks] puts on its GET. *)
Definition listParams (Number_toString : number -> string) (query : Nullish string)
  (priority : PriorityInput) (scheduled : Nullish string) : list (string * string) :=
  (match query with
   | Value (String c q) => [("query", String c q)]
   | _ => []
   end
   ++ match parsePriority priority with
      | Some priorityValue => [("priority", Number_toString priorityValue)]
      | None => []
      end
   ++ match scheduled with
      | Value s =>
          if truthyString scheduled && negb (String.eqb s "all")
             && negb (String.eqb (JS.trim s) "") && isoDateRegex s
          then [("scheduled", s)] else []
      | _ => []
      end)%list.

(** The arguments of [get_tasks] lead to a GET: a priority that was given
    was understood. *)
Definition listAccepted (priority : PriorityInput) : bool :=
  match parsePriority priority, priority with
  | None, InNumber _ | None, InString _ => false
  | _, _ => true
  end.

(* ================================================================== *)
(** * cleanup.ts *)

(** [process.env], for the variables the script reads. *)
Record Env : Type := {
  LIVEKIT_API_KEY : option string;
  LIVEKIT_API_SECRET : option string;
  LIVEKIT_URL : option string;
  NEXT_PUBLIC_LIVEKIT_URL : option string
}.

(** Truthiness of an environment variable: set, and not empty. *)
Definition truthyEnv (v : option string) : bool :=
  match v with
  | Some (String _ _) => true
  | _ => false
  end.

(** [a || b] *)
Definition orElse (a b : option string) : option string :=
  if truthyEnv a then a else b.

(** [wsUrl.replace('wss://', 'https://').replace('ws://', 'http://')], the
    expression of [cleanup] and of [cleanupOnExit]. *)
Definition livekitHost (wsUrl : string) : string :=
  replaceFirst "ws://" "http://" (replaceFirst "wss://" "https://" wsUrl).

Record AgentDispatch : Type := {
  dispatch_id : string
}.

(** The dispatch service behind [AgentDispatchClient]: what [listDispatch]
    answers to a client made for a host, a key and a secret, and what the
    call number [n] of [deleteDispatch] does for a dispatch id. *)
Record DispatchService : Type := {
  listDispatch : string -> string -> string -> string -> result (list AgentDispatch);
  deleteDispatch : nat -> string -> string -> result unit
}.

(** How a run of the script ends: the exit code, the ids [deleteDispatch]
    was called with, in order, and the count the last message reports. *)
Record CleanupRun : Type := {
  exitCode : Z;
  deleteCalls : list string;
  deletedCount : nat
}.

(** The [for ... of dispatches] loop, with its [try]/[catch] inside. *)
Fixpoint deleteEach (service : DispatchService) (roomName : string)
  (dispatches : list AgentDispatch) (calls : list string) (count : nat)
  : list string * nat :=
  match dispatches with
  | [] => (calls, count)
  | dispatch :: rest =>
      let calls' := (calls ++ [dispatch_id dispatch])%list in
      match deleteDispatch service (List.length calls) (dispatch_id dispatch) roomName with
      | Ok _ => deleteEach service roomName rest calls' (S count)
      | Throw _ => deleteEach service roomName rest calls' count
      end
  end.

Definition cleanup (env : Env) (service : DispatchService) : CleanupRun :=
  let apiKey := LIVEKIT_API_KEY env in
  let apiSecret := LIVEKIT_API_SECRET env in
  let wsUrl := orElse (LIVEKIT_URL env) (NEXT_PUBLIC_LIVEKIT_URL env) in
  match apiKey, apiSecret, wsUrl with
  | Some (String k0 k), Some (String s0 s), Some (String u0 u) =>
      let roomName := "voice-todo-room" in
      match listDispatch service (livekitHost (String u0 u)) (String k0 k)
              (String s0 s) roomName with
      | Ok dispatches =>
          let (calls, count) := deleteEach service roomName dispatches [] 0 in
          {| exitCode := 0; deleteCalls := calls; deletedCount := count |}
      | Throw _ => {| exitCode := 1; deleteCalls := []; deletedCount := 0 |}
      end
  | _, _, _ => {| exitCode := 1; deleteCalls := []; deletedCount := 0 |}
  end.

(* ================================================================== *)
(** * greeting.ts *)

Record GreetingConfig : Type := {
  greetingMessage : string;
  playOnce : bool
}.

Definition GREETING_CONFIG : GreetingConfig :=
  {| greetingMessage := "Hi, I'm Sid, how can I assist you today?";
     playOnce := true |}.

(** What [playGreeting] reads of its job context: [ctx.room.name] and
    [ctx.room.metadata]. *)
Record GreetingRoom : Type := {
  room_name : option string;
  room_metadata : option string
}.

(** What [playGreeting] acts on: the module-level set
    [greetingPlayedRooms], in insertion order, and the calls of
    [session.say] made so far. *)
Record Stage : Type := {
  greetingPlayedRooms : list string;
  sayCalls : list string
}.

(** [set.has(x)] and [set.add(x)] *)
Definition setHas (x : string) (s : list string) : bool := existsb (String.eqb x) s.

Definition setAdd (x : string) (s : list string) : list string :=
  if setHas x s then s else (s ++ [x])%list.

Section Greeting.

(** [JSON.parse(text).greetingPlayed === true], or what it throws. *)
Variable greetingPlayedIn : string -> result bool.

(** Whether the call number [n] of [session.say] resolves. *)
Variable sayOutcome : nat -> result unit.

(** [playGreeting]: everything is inside one [try], whose [catch] only
    logs, so the function always returns. *)
Definition playGreeting (ctx : GreetingRoom) (stage : Stage) : Stage :=
  let greetingPlayed :=
    match room_metadata ctx with
    | Some (String c m) =>
        match greetingPlayedIn (String c m) with
        | Ok played => played
        | Throw _ => false
        end
    | _ => false
    end in
  if greetingPlayed then stage
  else
    let said :=
      {| greetingPlayedRooms := greetingPlayedRooms stage;
         sayCalls := (sayCalls stage ++ [greetingMessage GREETING_CONFIG])%list |} in
    match sayOutcome (List.length (sayCalls stage)) with
    | Throw _ => said
    | Ok _ =>
        match room_name ctx with
        | Some (String c n) =>
            {| greetingPlayedRooms := setAdd (String c n) (greetingPlayedRooms said);
               sayCalls := sayCalls said |}
        | _ => said
        end
    end.

Definition hasGreetingBeenPlayed (roomName : string) (stage : Stage) : bool :=
  setHas roomName (greetingPlayedRooms stage).

End Greeting.

(* ================================================================== *)
(** * More sample data *)

(** A response that refuses the request with the status [code]. *)
Definition refusedResponse (code : Z) : Response :=
  {| status := code; ok := false; text := Ok "refused";
     jsonTask := Throw (Error "Unexpected end of JSON input");
     jsonTasks := Throw (Error "Unexpected end of JSON input") |}.

(** A world in which the list of tasks is served and every other request
    is refused with the status [code]. *)
Definition refusingWorld (code : Z) : World :=
  {| now := testReferenceDate;
     network := fun _ request =>
                  match method request with
                  | GET => FetchResolves sampleResponse
                  | _ => FetchResolves (refusedResponse code)
                  end;
     timers := fun _ => false;
     fetchCount := 0; requests := []; sleeps := []; published := [] |}.

(** A world in which no answer comes within the time limit. *)
Definition stalledWorld : World :=
  {| now := testReferenceDate;
     network := fun _ _ => FetchResolves sampleResponse;
     timers := fun _ => true;
     fetchCount := 0; requests := []; sleeps := []; published := [] |}.

Definition alwaysFires (timeoutMs : Z) (calls : nat) : bool := true.

Definition noAttemptOptions : PartialRetryOptions :=
  {| maxRetries_opt := Some (-1); initialDelayMs_opt := None; maxDelayMs_opt := None;
     timeoutMs_opt := None; backoffMultiplier_opt := None; shouldRetry_opt := None |}.

Definition sampleEnv : Env :=
  {| LIVEKIT_API_KEY := Some "key"; LIVEKIT_API_SECRET := Some "secret";
     LIVEKIT_URL := None; NEXT_PUBLIC_LIVEKIT_URL := Some "wss://todo.livekit.cloud" |}.

Definition sampleDispatches : list AgentDispatch :=
  [ {| dispatch_id := "AD_1" |}; {| dispatch_id := "AD_2" |}; {| dispatch_id := "AD_3" |} ].

(** A service that lists three dispatches and fails to delete the second. *)
Definition sampleService : DispatchService :=
  {| listDispatch := fun host key secret roomName =>
                       if String.eqb host "https://todo.livekit.cloud"
                       then Ok sampleDispatches
                       else Throw (Error "connect ECONNREFUSED");
     deleteDispatch := fun n dispatchId roomName =>
                         match n with
                         | 1%nat => Throw (Error "dispatch not found")
                         | _ => Ok tt
                         end |}.

Definition sampleRoom : GreetingRoom :=
  {| room_name := Some "voice-todo-room"; room_metadata := Some "{}" |}.

Definition sampleGreetingPlayedIn (text : string) : result bool :=
  if String.eqb text "{}" then Ok false else Throw (Error "Unexpected token").

Definition sampleSay (n : nat) : result unit := Ok tt.

Definition emptyStage : Stage :=
  {| greetingPlayedRooms := []; sayCalls := [] |}.

(* ================================================================== *)
(** * Facts about the string primitives *)

Ltac each_char c := destruct c as [[] [] [] [] [] [] [] []].

Lemma toLowerCaseChar_whitespace c :
  JS.isWhiteSpace c = true -> JS.toLowerCaseChar c = c.
Proof. each_char c; intros H; try reflexivity; discriminate H. Qed.

Lemma toLowerCaseChar_digit c :
  JS.isDigit c = true -> JS.toLowerCaseChar c = c.
Proof. each_char c; intros H; try reflexivity; discriminate H. Qed.

Lemma isDigit_toLowerCaseChar c :
  JS.isDigit (JS.toLowerCaseChar c) = JS.isDigit c.
Proof. each_char c; reflexivity. Qed.

Lemma digit_not_whitespace c :
  JS.isDigit c = true -> JS.isWhiteSpace c = false.
Proof. each_char c; intros H; try reflexivity; discriminate H. Qed.

Lemma splitSign_digit c s :
  JS.isDigit c = true -> JS.splitSign (String c s) = (false, String c s).
Proof. each_char c; intros H; try discriminate H; reflexivity. Qed.

Lemma append_assoc a b c : (a ++ b) ++ c = a ++ (b ++ c).
Proof. induction a as [|x a IH]; simpl; [reflexivity | now rewrite IH]. Qed.

Lemma append_empty_r a : a ++ "" = a.
Proof. induction a as [|x a IH]; simpl; [reflexivity | now rewrite IH]. Qed.

Lemma toLowerCase_app a b :
  JS.toLowerCase (a ++ b) = JS.toLowerCase a ++ JS.toLowerCase b.
Proof. induction a as [|c a IH]; simpl; [reflexivity | now rewrite IH]. Qed.

Lemma toLowerCase_fixed p s :
  (forall c, p c = true -> JS.toLowerCaseChar c = c) ->
  JS.forallChars p s = true -> JS.toLowerCase s = s.
Proof.
  intros Hp. induction s as [|c s IH]; simpl; [reflexivity|].
  intros H. apply andb_true_iff in H as [Hc Hs].
  now rewrite (Hp c Hc), IH.
Qed.

Lemma startsWithDigit_toLowerCase s :
  JS.startsWithDigit (JS.toLowerCase s) = JS.startsWithDigit s.
Proof. destruct s; simpl; [reflexivity | apply isDigit_toLowerCaseChar]. Qed.

Lemma trimStart_whitespace_app ws s :
  JS.forallChars JS.isWhiteSpace ws = true -> JS.trimStart (ws ++ s) = JS.trimStart s.
Proof.
  induction ws as [|c ws IH]; simpl; [reflexivity|].
  intros H. apply andb_true_iff in H as [Hc Hs]. now rewrite Hc, IH.
Qed.

Lemma trimEnd_cons_not_whitespace c s :
  JS.isWhiteSpace c = false -> JS.trimEnd (String c s) = String c (JS.trimEnd s).
Proof. intros H. simpl. rewrite H. now destruct (JS.trimEnd s). Qed.

Lemma trimEnd_digits_app ds s :
  JS.forallChars JS.isDigit ds = true -> JS.trimEnd (ds ++ s) = ds ++ JS.trimEnd s.
Proof.
  induction ds as [|c ds IH]; [reflexivity|].
  intros H. simpl in H. apply andb_true_iff in H as [Hc Hs].
  change (String c ds ++ s) with (String c (ds ++ s)).
  rewrite trimEnd_cons_not_whitespace by now apply digit_not_whitespace.
  now rewrite IH.
Qed.

Lemma startsWithDigit_trimEnd s :
  JS.startsWithDigit s = false -> JS.startsWithDigit (JS.trimEnd s) = false.
Proof.
  destruct s as [|c s]; [reflexivity|]. simpl. intros H.
  destruct (JS.trimEnd s); [destruct (JS.isWhiteSpace c)|]; simpl; auto.
Qed.

Lemma spanDigits_app ds s :
  JS.forallChars JS.isDigit ds = true -> JS.startsWithDigit s = false ->
  JS.spanDigits (ds ++ s) = (ds, s).
Proof.
  induction ds as [|c ds IH]; simpl.
  - intros _ H. destruct s as [|c s]; [reflexivity|]. simpl in *. now rewrite H.
  - intros H Hs. apply andb_true_iff in H as [Hc Hd]. now rewrite Hc, IH.
Qed.

(** [parseInt] reads a leading run of digits and ignores what follows it. *)
Lemma parseInt_digits_app ds s :
  ds <> EmptyString -> JS.forallChars JS.isDigit ds = true ->
  JS.startsWithDigit s = false ->
  JS.parseInt (ds ++ s) = Some (JS.digitsValue ds).
Proof.
  intros Hne Hd Hs. destruct ds as [|c ds]; [contradiction|].
  pose proof Hd as Hd'. simpl in Hd'. apply andb_true_iff in Hd' as [Hc _].
  unfold JS.parseInt.
  change (String c ds ++ s) with (String c (ds ++ s)).
  cbn [JS.trimStart]. rewrite (digit_not_whitespace c Hc).
  rewrite (splitSign_digit c _ Hc).
  change (String c (ds ++ s)) with (String c ds ++ s).
  rewrite (spanDigits_app _ _ Hd Hs). reflexivity.
Qed.

(** Lower-casing and trimming keep a leading run of digits in front. *)
Lemma normalize_numeric_prefix ws ds rest :
  JS.forallChars JS.isWhiteSpace ws = true ->
  ds <> EmptyString -> JS.forallChars JS.isDigit ds = true ->
  JS.startsWithDigit rest = false ->
  exists rest',
    JS.trim (JS.toLowerCase (ws ++ ds ++ rest)) = ds ++ rest'
    /\ JS.startsWithDigit rest' = false.
Proof.
  intros Hws Hne Hd Hr.
  exists (JS.trimEnd (JS.toLowerCase rest)). split.
  - rewrite !toLowerCase_app.
    rewrite (toLowerCase_fixed _ ws toLowerCaseChar_whitespace Hws).
    rewrite (toLowerCase_fixed _ ds toLowerCaseChar_digit Hd).
    unfold JS.trim. rewrite (trimStart_whitespace_app _ _ Hws).
    destruct ds as [|c ds]; [contradiction|].
    pose proof Hd as Hd'. simpl in Hd'. apply andb_true_iff in Hd' as [Hc _].
    change (String c ds ++ JS.toLowerCase rest)
      with (String c (ds ++ JS.toLowerCase rest)).
    cbn [JS.trimStart]. rewrite (digit_not_whitespace c Hc).
    change (String c (ds ++ JS.toLowerCase rest))
      with (String c ds ++ JS.toLowerCase rest).
    now apply trimEnd_digits_app.
  - apply startsWithDigit_trimEnd. now rewrite startsWithDigit_toLowerCase.
Qed.

Lemma prefix_app s t : String.prefix s (s ++ t) = true.
Proof.
  induction s as [|c s IH]; simpl; [now destruct t|].
  destruct (ascii_dec c c); [exact IH | contradiction].
Qed.




Lemma includes_app_r p s sub :
  JS.includes s sub = true -> JS.includes (p ++ s) sub = true.
Proof.
  intros H. induction p as [|c p IH]; [exact H|].
  change (String c p ++ s) with (String c (p ++ s)).
  cbn [JS.includes]. rewrite IH. apply orb_true_r.
Qed.




(** The rendering of a count never runs short of fuel: any fuel above the
    number gives the same digits. *)
Lemma showNatFuel_enough fuel :
  forall fuel' n acc,
    (n < fuel)%nat -> (n < fuel')%nat ->
    JS.showNatFuel fuel n acc = JS.showNatFuel fuel' n acc.
Proof.
  induction fuel as [|fuel IH]; intros fuel' n acc H H'; [lia|].
  destruct fuel' as [|fuel']; [lia|]. cbn [JS.showNatFuel].
  destruct (n / 10)%nat eqn:E; [reflexivity|].
  assert (n / 10 < n)%nat
    by (apply Nat.div_lt; [destruct n; [discriminate E|lia] | lia]).
  apply IH; lia.
Qed.

(* ================================================================== *)
(** * The priority mapper *)

Lemma matchKeywords_table normalized :
  matchKeywords PRIORITY_MAPPINGS normalized = None
  \/ exists z, 1 <= z <= 5
               /\ matchKeywords PRIORITY_MAPPINGS normalized = Some (ofInt z).
Proof.
  unfold PRIORITY_MAPPINGS. cbn [matchKeywords keywords value].
  repeat match goal with
    | |- context [if existsb ?f ?l then _ else _] => destruct (existsb f l)
    end;
    first [ now left | right; eexists; split; [|reflexivity]; lia ].
Qed.

Lemma matchKeywords_none mappings normalized :
  (forall mapping keyword,
      In mapping mappings -> In keyword (keywords mapping) ->
      JS.includes normalized keyword = false) ->
  matchKeywords mappings normalized = None.
Proof.
  induction mappings as [|mapping rest IH]; intros H; [reflexivity|].
  cbn [matchKeywords].
  destruct (existsb (fun keyword => JS.includes normalized keyword) (keywords mapping))
    eqn:E.
  - apply existsb_exists in E as (keyword & Hin & Hinc).
    rewrite (H mapping keyword (or_introl eq_refl) Hin) in Hinc. discriminate.
  - apply IH. intros m k Hm Hk. apply (H m k); [now right | assumption].
Qed.

Lemma ofInt_in_range z :
  1 <= z <= 5 ->
  number_leb (ofInt 1) (ofInt z) = true /\ number_leb (ofInt z) (ofInt 5) = true
  /\ isInteger (ofInt z).
Proof.
  intros Hz. cbn [number_leb ofInt isInteger]. repeat split.
  - apply Qle_bool_iff. rewrite <- Zle_Qle. lia.
  - apply Qle_bool_iff. rewrite <- Zle_Qle. lia.
  - exists z. reflexivity.
Qed.

(** C8, as the code has it.  For every input [parsePriority] answers [null]
    or a number from 1 to 5; every number argument in that range is handed
    back as it is, so the answer is an integer whenever the input is a
    string or an integer-valued number, and is [2.5] for the number [2.5];
    a number outside the range, [null], [undefined], and a string with no
    numeric form in the range and no keyword all give [null]; a string
    whose leading integer is in the range gives that integer. *)
Theorem parsePriority_range_or_null :
  forall input : PriorityInput,
    (parsePriority input = None
     \/ exists v,
          parsePriority input = Some v
          /\ number_leb (ofInt 1) v = true /\ number_leb v (ofInt 5) = true
          /\ (forall n, input = InNumber n -> v = n)
          /\ ((forall n, input = InNumber n -> isInteger n) -> isInteger v))
    /\ (forall n, input = InNumber n ->
                  number_leb (ofInt 1) n && number_leb n (ofInt 5) = true ->
                  parsePriority input = Some n)
    /\ (forall n, input = InNumber n ->
                  number_leb (ofInt 1) n && number_leb n (ofInt 5) = false ->
                  parsePriority input = None)
    /\ (input = InNull \/ input = InUndefined -> parsePriority input = None)
    /\ (forall s, input = InString s ->
                  (forall numericValue,
                      JS.parseInt (JS.trim (JS.toLowerCase s)) = Some numericValue ->
                      numericValue < 1 \/ 5 < numericValue) ->
                  (forall mapping keyword,
                      In mapping PRIORITY_MAPPINGS -> In keyword (keywords mapping) ->
                      JS.includes (JS.trim (JS.toLowerCase s)) keyword = false) ->
                  parsePriority input = None)
    /\ (forall s numericValue,
           input = InString s ->
           JS.parseInt (JS.trim (JS.toLowerCase s)) = Some numericValue ->
           1 <= numericValue <= 5 ->
           parsePriority input = Some (ofInt numericValue))
    /\ parsePriority (InNumber (ofInt 7)) = None
    /\ parsePriority (InNumber (ofInt 3)) = Some (ofInt 3)
    /\ parsePriority (InNumber (Num (5 # 2))) = Some (Num (5 # 2)).
Proof.
  intros input. split; [|split; [|split; [|split; [|split; [|split; [|repeat split]]]]]].
  - destruct input as [| |n|s]; try now left.
    + unfold parsePriority, parsePriorityWith.
      destruct (number_leb (ofInt 1) n) eqn:H1; [|now left].
      destruct (number_leb n (ofInt 5)) eqn:H5; [|now left].
      right. exists n. cbn [andb]. repeat split; auto.
      * intros m E. now injection E.
    + unfold parsePriority, parsePriorityWith.
      assert (Hkw : matchKeywords PRIORITY_MAPPINGS (JS.trim (JS.toLowerCase s)) = None
                    \/ exists v,
                         matchKeywords PRIORITY_MAPPINGS (JS.trim (JS.toLowerCase s))
                         = Some v
                         /\ number_leb (ofInt 1) v = true
                         /\ number_leb v (ofInt 5) = true
                         /\ (forall n, InString s = InNumber n -> v = n)
                         /\ ((forall n, InString s = InNumber n -> isInteger n) ->
                             isInteger v)).
      { destruct (matchKeywords_table (JS.trim (JS.toLowerCase s)))
          as [->|(z & Hz & ->)]; [now left|].
        right. exists (ofInt z). destruct (ofInt_in_range z Hz) as (? & ? & ?).
        repeat split; auto. discriminate. }
      destruct (JS.parseInt (JS.trim (JS.toLowerCase s))) as [numericValue|];
        [|exact Hkw].
      destruct ((1 <=? numericValue) && (numericValue <=? 5)) eqn:E; [|exact Hkw].
      apply andb_true_iff in E as [E1 E2]. apply Z.leb_le in E1, E2.
      right. exists (ofInt numericValue).
      destruct (ofInt_in_range numericValue (conj E1 E2)) as (? & ? & ?).
      repeat split; auto. discriminate.
  - intros n -> H. unfold parsePriority, parsePriorityWith. now rewrite H.
  - intros n -> H. unfold parsePriority, parsePriorityWith. now rewrite H.
  - intros [->| ->]; reflexivity.
  - intros s -> Hnum Hkw. unfold parsePriority, parsePriorityWith.
    rewrite (matchKeywords_none _ _ Hkw).
    destruct (JS.parseInt (JS.trim (JS.toLowerCase s))) as [numericValue|] eqn:E;
      [|reflexivity].
    destruct (Hnum numericValue eq_refl) as [H|H].
    + replace (1 <=? numericValue) with false by (symmetry; apply Z.leb_gt; lia).
      reflexivity.
    + replace (numericValue <=? 5) with false by (symmetry; apply Z.leb_gt; lia).
      now rewrite andb_false_r.
  - intros s numericValue -> Hnum Hrange. unfold parsePriority, parsePriorityWith.
    rewrite Hnum.
    replace (1 <=? numericValue) with true by (symmetry; apply Z.leb_le; lia).
    replace (numericValue <=? 5) with true by (symmetry; apply Z.leb_le; lia).
    reflexivity.
Qed.

Lemma parsePriority_range_or_null_witness :
  parsePriority (InNumber NaN) = None
  /\ parsePriority (InString "whenever") = None
  /\ isInteger (ofInt 4)
  /\ parsePriority (InNumber (ofInt 4)) = Some (ofInt 4)
  /\ parsePriority (InString " 4th ") = Some (ofInt 4).
Proof.
  split; [|split; [|split; [|split]]].
  4:{ destruct (parsePriority_range_or_null (InNumber (ofInt 4))) as (_ & H & _).
      apply (H (ofInt 4)); reflexivity. }
  4:{ destruct (parsePriority_range_or_null (InString " 4th "))
        as (_ & _ & _ & _ & _ & H & _).
      apply (H " 4th " 4); [reflexivity | reflexivity | lia]. }
  - destruct (parsePriority_range_or_null (InNumber NaN)) as (_ & _ & H & _).
    apply (H NaN); reflexivity.
  - destruct (parsePriority_range_or_null (InString "whenever"))
      as (_ & _ & _ & _ & H & _).
    apply (H "whenever"); [reflexivity | discriminate |].
    intros mapping keyword Hm Hk. simpl in Hm.
    repeat (destruct Hm as [<-|Hm];
            [simpl in Hk; repeat (destruct Hk as [<-|Hk]; [reflexivity|]);
             contradiction|]).
    contradiction.
  - destruct (parsePriority_range_or_null (InString "urgent")) as (H & _).
    destruct H as [H|(v & Hv & _ & _ & _ & Hint)]; [discriminate H|].
    injection Hv as <-. apply Hint. discriminate.
Defined.

(** C8, as stated, fails: the answer is not always [null] or an integer.  The
    number [2.5] is in the range, is handed back as it is, and is not an
    integer. *)
Lemma parsePriority_not_always_integer :
  ~ (forall input : PriorityInput,
        parsePriority input = None
        \/ exists v, parsePriority input = Some v /\ isInteger v).
Proof.
  intros H. destruct (H (InNumber (Num (5 # 2)))) as [E|(v & E & Hint)].
  - discriminate E.
  - injection E as <-. destruct Hint as [z Hz]. unfold Qeq in Hz. simpl in Hz. lia.
Qed.

(** C9. Every keyword of each of the five classes is parsed to the value of
    its class and formatted back to the label of its class; ["urgent"] is
    parsed to 4 and ["3"] to 3. *)
Theorem formatPriority_parsePriority_keywords :
  forall (Number_toString : number -> string) (keyword : string),
    (In keyword ["low"; "minor"; "optional"] ->
     parsePriority (InString keyword) = Some (ofInt 1)
     /\ formatPriority Number_toString (parsePriority (InString keyword)) = "Low")
    /\ (In keyword ["normal"; "medium"; "standard"; "regular"] ->
        parsePriority (InString keyword) = Some (ofInt 2)
        /\ formatPriority Number_toString (parsePriority (InString keyword)) = "Normal")
    /\ (In keyword ["high"; "important"; "elevated"] ->
        parsePriority (InString keyword) = Some (ofInt 3)
        /\ formatPriority Number_toString (parsePriority (InString keyword)) = "High")
    /\ (In keyword ["urgent"; "pressing"; "time-sensitive"; "time sensitive"] ->
        parsePriority (InString keyword) = Some (ofInt 4)
        /\ formatPriority Number_toString (parsePriority (InString keyword)) = "Urgent")
    /\ (In keyword ["critical"; "severe"; "blocking"; "emergency"] ->
        parsePriority (InString keyword) = Some (ofInt 5)
        /\ formatPriority Number_toString (parsePriority (InString keyword)) = "Critical")
    /\ parsePriority (InString "urgent") = Some (ofInt 4)
    /\ parsePriority (InString "3") = Some (ofInt 3).
Proof.
  intros Number_toString keyword.
  repeat match goal with |- _ /\ _ => split end;
    try reflexivity;
    intros H; simpl in H;
    repeat (destruct H as [<-|H]; [split; reflexivity|]);
    contradiction.
Qed.

Lemma formatPriority_parsePriority_keywords_witness :
  formatPriority sampleNumberToString (parsePriority (InString "pressing")) = "Urgent"
  /\ formatPriority sampleNumberToString (parsePriority (InString "blocking")) = "Critical".
Proof.
  split.
  - destruct (formatPriority_parsePriority_keywords sampleNumberToString "pressing")
      as (_ & _ & _ & H & _).
    apply H. simpl. tauto.
  - destruct (formatPriority_parsePriority_keywords sampleNumberToString "blocking")
      as (_ & _ & _ & _ & H & _).
    apply H. simpl. tauto.
Defined.

(** C10. A string that, after leading white space, starts with a run of
    digits whose value is between 1 and 5 is parsed to that value, whatever
    follows the digits and whatever the keyword table holds: the keywords
    are not consulted. *)
Theorem parsePriority_numeric_prefix :
  forall (mappings : list PriorityMapping) (ws digits rest : string) (n : Z),
    JS.forallChars JS.isWhiteSpace ws = true ->
    digits <> EmptyString ->
    JS.forallChars JS.isDigit digits = true ->
    JS.startsWithDigit rest = false ->
    JS.digitsValue digits = n ->
    1 <= n <= 5 ->
    parsePriorityWith mappings (InString (ws ++ digits ++ rest)) = Some (ofInt n).
Proof.
  intros mappings ws ds rest n Hws Hne Hd Hr Hv Hn.
  destruct (normalize_numeric_prefix ws ds rest Hws Hne Hd Hr) as [rest' [Hnorm Hr']].
  unfold parsePriorityWith. rewrite Hnorm.
  rewrite (parseInt_digits_app _ _ Hne Hd Hr'), Hv.
  replace ((1 <=? n) && (n <=? 5)) with true; [reflexivity|].
  symmetry. apply andb_true_iff. split; apply Z.leb_le; lia.
Qed.

Lemma parsePriority_numeric_prefix_witness :
  parsePriority (InString "4 low") = Some (ofInt 4)
  /\ parsePriority (InString "3rd") = Some (ofInt 3)
  /\ parsePriorityWith [] (InString "  05th ") = Some (ofInt 5).
Proof.
  split; [|split].
  - apply (parsePriority_numeric_prefix PRIORITY_MAPPINGS "" "4" " low" 4);
      (reflexivity || discriminate || lia).
  - apply (parsePriority_numeric_prefix PRIORITY_MAPPINGS "" "3" "rd" 3);
      (reflexivity || discriminate || lia).
  - apply (parsePriority_numeric_prefix [] "  " "05" "th " 5);
      (reflexivity || discriminate || lia).
Defined.

(* ================================================================== *)
(** * The date parser *)

(** The year found for a day number is the year the day falls in. *)
Lemma YearFromDay_spec d :
  JSDate.DayFromYear (JSDate.YearFromDay d) <= d
  < JSDate.DayFromYear (JSDate.YearFromDay d + 1).
Proof.
  unfold JSDate.YearFromDay, JSDate.DayFromYear. cbv zeta.
  destruct (_ <=? d) eqn:E1; [apply Z.leb_le in E1|apply Z.leb_gt in E1].
  - Z.div_mod_to_equations; lia.
  - destruct (d <? _) eqn:E2; [apply Z.ltb_lt in E2|apply Z.ltb_ge in E2];
      Z.div_mod_to_equations; lia.
Qed.

Lemma MonthFromTime_range t : 0 <= JSDate.MonthFromTime t <= 11.
Proof.
  unfold JSDate.MonthFromTime.
  repeat match goal with |- context [if ?b then _ else _] => destruct b end; lia.
Qed.

(** Moving the day of the month by [k] moves the day number by [k]. *)
Lemma MakeDay_DateFromTime_plus t k :
  JSDate.MakeDay (JSDate.YearFromTime t) (JSDate.MonthFromTime t)
    (JSDate.DateFromTime t + k)
  = JSDate.Day t + k.
Proof.
  unfold JSDate.DateFromTime, JSDate.MakeDay, JSDate.DayWithinYear, JSDate.InLeapYear.
  pose proof (MonthFromTime_range t) as Hm.
  rewrite (Z.div_small (JSDate.MonthFromTime t) 12),
    (Z.mod_small (JSDate.MonthFromTime t) 12) by lia.
  rewrite Z.add_0_r. lia.
Qed.

(** Setting the day of the month to itself plus [k] moves the day number by
    [k] and keeps the time within the day; the Date is invalid when that
    instant is beyond the range. *)
Lemma setUTCDate_getUTCDate_plus t k :
  JSDate.setUTCDate (Some t) (JSDate.plus (JSDate.getUTCDate (Some t)) k)
  = JSDate.TimeClip (JSDate.MakeDate (JSDate.Day t + k) (JSDate.TimeWithinDay t)).
Proof.
  unfold JSDate.setUTCDate, JSDate.getUTCDate, JSDate.plus, option_map.
  now rewrite MakeDay_DateFromTime_plus.
Qed.

Lemma Day_MakeDate day time :
  0 <= time < JSDate.msPerDay -> JSDate.Day (JSDate.MakeDate day time) = day.
Proof.
  intros H. unfold JSDate.Day, JSDate.MakeDate.
  rewrite Z.div_add_l by (unfold JSDate.msPerDay; lia).
  rewrite (Z.div_small time JSDate.msPerDay H). lia.
Qed.

Lemma TimeWithinDay_MakeDate day time :
  0 <= time < JSDate.msPerDay ->
  JSDate.TimeWithinDay (JSDate.MakeDate day time) = time.
Proof.
  intros H. unfold JSDate.TimeWithinDay, JSDate.MakeDate.
  rewrite Z.add_comm, Z.mod_add by (unfold JSDate.msPerDay; lia).
  now apply Z.mod_small.
Qed.

Lemma time_decomposition t :
  t = JSDate.MakeDate (JSDate.Day t) (JSDate.TimeWithinDay t).
Proof.
  unfold JSDate.MakeDate, JSDate.Day, JSDate.TimeWithinDay.
  rewrite (Z.div_mod t JSDate.msPerDay) at 1 by (unfold JSDate.msPerDay; lia). lia.
Qed.

Lemma TimeWithinDay_range t : 0 <= JSDate.TimeWithinDay t < JSDate.msPerDay.
Proof. apply Z.mod_pos_bound. unfold JSDate.msPerDay. lia. Qed.

Lemma noonUTC_range : 0 <= noonUTC < JSDate.msPerDay.
Proof. unfold noonUTC, JSDate.MakeTime, JSDate.msPerDay. lia. Qed.

Lemma WeekDay_range t : 0 <= JSDate.WeekDay t < 7.
Proof. apply Z.mod_pos_bound. lia. Qed.

(** Noon of any later day is after every instant of this day. *)
Lemma before_later_noon R k :
  1 <= k -> R < JSDate.MakeDate (JSDate.Day R + k) noonUTC.
Proof.
  intros Hk. rewrite (time_decomposition R) at 1.
  pose proof (TimeWithinDay_range R).
  unfold JSDate.MakeDate, noonUTC, JSDate.MakeTime, JSDate.msPerDay in *.
  nia.
Qed.

Lemma TimeClip_valid t : JSDate.isTimeValue t -> JSDate.TimeClip t = Some t.
Proof.
  unfold JSDate.isTimeValue, JSDate.TimeClip. intros H.
  destruct (Z.leb_spec (Z.abs t) JSDate.maxTime); [reflexivity | lia].
Qed.

Lemma TimeClip_beyond t : JSDate.maxTime < t -> JSDate.TimeClip t = None.
Proof.
  unfold JSDate.TimeClip. intros H.
  destruct (Z.leb_spec (Z.abs t) JSDate.maxTime); [lia | reflexivity].
Qed.

Lemma TimeClip_Some t t' :
  JSDate.TimeClip t = Some t' -> t' = t /\ JSDate.isTimeValue t.
Proof.
  unfold JSDate.TimeClip, JSDate.isTimeValue.
  destruct (Z.leb_spec (Z.abs t) JSDate.maxTime); [|discriminate].
  intros [= <-]. lia.
Qed.

Lemma TimeClip_None t : JSDate.TimeClip t = None -> ~ JSDate.isTimeValue t.
Proof.
  unfold JSDate.TimeClip, JSDate.isTimeValue.
  destruct (Z.leb_spec (Z.abs t) JSDate.maxTime); [discriminate | lia].
Qed.

(** A time of a day from the reference day on is not below the range of
    Dates. *)
Lemma later_time_not_below R k time :
  JSDate.isTimeValue R -> 0 <= k -> 0 <= time ->
  - JSDate.maxTime <= JSDate.MakeDate (JSDate.Day R + k) time.
Proof.
  unfold JSDate.isTimeValue, JSDate.MakeDate, JSDate.Day, JSDate.maxTime,
    JSDate.msPerDay.
  intros H Hk Ht. Z.div_mod_to_equations. lia.
Qed.

(** When a time of a day is beyond the range of Dates, so is every time of
    that day but midnight. *)
Lemma beyond_for_the_whole_day R k time time' :
  JSDate.isTimeValue R -> 0 <= k ->
  0 <= time < JSDate.msPerDay -> 0 < time' ->
  ~ JSDate.isTimeValue (JSDate.MakeDate (JSDate.Day R + k) time) ->
  JSDate.maxTime < JSDate.MakeDate (JSDate.Day R + k) time'.
Proof.
  unfold JSDate.isTimeValue, JSDate.MakeDate, JSDate.Day, JSDate.maxTime,
    JSDate.msPerDay.
  intros H Hk Ht Ht' Hn. Z.div_mod_to_equations. lia.
Qed.

Lemma noonUTC_positive : 0 < noonUTC.
Proof. reflexivity. Qed.

(** Noon of the day [k] days ahead is a Date as soon as it is not beyond
    the end of the range. *)
Lemma later_noon_valid R k :
  JSDate.isTimeValue R -> 0 <= k ->
  JSDate.MakeDate (JSDate.Day R + k) noonUTC <= JSDate.maxTime ->
  JSDate.isTimeValue (JSDate.MakeDate (JSDate.Day R + k) noonUTC).
Proof.
  intros HR Hk H. split; [|exact H].
  apply later_time_not_below; [exact HR | exact Hk | apply noonUTC_range].
Qed.

(** [setUTCDate(getUTCDate() + k)] and then [setUTCHours(12, 0, 0, 0)], as
    the branches of "tomorrow" and "next week" do. *)
Lemma setUTCDate_then_noon R k :
  JSDate.isTimeValue R -> 0 <= k ->
  JSDate.setUTCHours
    (JSDate.setUTCDate (Some R) (JSDate.plus (JSDate.getUTCDate (Some R)) k))
    12 0 0 0
  = JSDate.TimeClip (JSDate.MakeDate (JSDate.Day R + k) noonUTC).
Proof.
  intros HR Hk. rewrite setUTCDate_getUTCDate_plus.
  destruct (JSDate.TimeClip
              (JSDate.MakeDate (JSDate.Day R + k) (JSDate.TimeWithinDay R)))
    as [t|] eqn:E.
  - apply TimeClip_Some in E as [-> _]. unfold JSDate.setUTCHours.
    rewrite (Day_MakeDate _ _ (TimeWithinDay_range R)). reflexivity.
  - apply TimeClip_None in E. cbn [JSDate.setUTCHours]. symmetry.
    apply TimeClip_beyond.
    apply (beyond_for_the_whole_day R k (JSDate.TimeWithinDay R));
      [exact HR | exact Hk | apply TimeWithinDay_range | apply noonUTC_positive
      | exact E].
Qed.

(** [setUTCHours(12, 0, 0, 0)] and then [setUTCDate(getUTCDate() + k)], as
    [parseRelativeDate] and [getNextWeekday] do. *)
Lemma noon_then_setUTCDate R k :
  JSDate.isTimeValue R -> 0 <= k ->
  JSDate.setUTCDate (JSDate.setUTCHours (Some R) 12 0 0 0)
    (JSDate.plus (JSDate.getUTCDate (JSDate.setUTCHours (Some R) 12 0 0 0)) k)
  = JSDate.TimeClip (JSDate.MakeDate (JSDate.Day R + k) noonUTC).
Proof.
  intros HR Hk. unfold JSDate.setUTCHours. fold noonUTC.
  destruct (JSDate.TimeClip (JSDate.MakeDate (JSDate.Day R) noonUTC))
    as [t|] eqn:E.
  - apply TimeClip_Some in E as [-> _]. rewrite setUTCDate_getUTCDate_plus.
    now rewrite (Day_MakeDate _ _ noonUTC_range),
      (TimeWithinDay_MakeDate _ _ noonUTC_range).
  - apply TimeClip_None in E. cbn [JSDate.getUTCDate JSDate.plus option_map
                                     JSDate.setUTCDate].
    symmetry. apply TimeClip_beyond.
    assert (H0 : JSDate.maxTime < JSDate.MakeDate (JSDate.Day R + 0) noonUTC).
    { apply (beyond_for_the_whole_day R 0 noonUTC);
        [exact HR | lia | apply noonUTC_range | apply noonUTC_positive
        | now rewrite Z.add_0_r]. }
    unfold JSDate.MakeDate, JSDate.msPerDay in *. lia.
Qed.

(** The end of the parser on a target that is not before the reference. *)
Lemma checkTarget_not_before T R :
  R <= T -> checkTarget (Ok (JSDate.TimeClip T)) R = targetOrRangeError T.
Proof.
  intros H. unfold checkTarget, targetOrRangeError.
  destruct (JSDate.TimeClip T) as [t|] eqn:E; [|reflexivity].
  apply TimeClip_Some in E as [-> _].
  now replace (T <? R) with false by (symmetry; apply Z.ltb_ge; lia).
Qed.

Lemma targetOrRangeError_valid T :
  JSDate.isTimeValue T -> targetOrRangeError T = Ok T.
Proof. intros H. unfold targetOrRangeError. now rewrite (TimeClip_valid T H). Qed.

Lemma targetOrRangeError_beyond T :
  JSDate.maxTime < T -> targetOrRangeError T = Throw (Error invalidTimeMessage).
Proof. intros H. unfold targetOrRangeError. now rewrite (TimeClip_beyond T H). Qed.

Lemma targetOrRangeError_Ok T T' : targetOrRangeError T = Ok T' -> T' = T.
Proof.
  unfold targetOrRangeError. destruct (JSDate.TimeClip T) as [t|] eqn:E;
    [|discriminate].
  apply TimeClip_Some in E as [-> _]. now intros [= <-].
Qed.

(** [getNextWeekday] without [forceNext]: noon of the day [k] days ahead,
    with [k] from 1 to 7, which falls on the weekday asked for; an invalid
    Date when that noon is beyond the range. *)
Lemma getNextWeekday_spec weekday i R :
  JSDate.isTimeValue R ->
  indexOf (JS.toLowerCase weekday)
    ["sunday"; "monday"; "tuesday"; "wednesday"; "thursday"; "friday"; "saturday"]
  = Some i ->
  0 <= i < 7 ->
  exists k,
    1 <= k <= 7
    /\ getNextWeekday weekday R false
       = Ok (JSDate.TimeClip (JSDate.MakeDate (JSDate.Day R + k) noonUTC))
    /\ JSDate.WeekDay (JSDate.MakeDate (JSDate.Day R + k) noonUTC) = i
    /\ (JSDate.WeekDay R = i -> k = 7).
Proof.
  intros HR Hidx Hi. unfold getNextWeekday. rewrite Hidx. cbv zeta.
  pose proof (WeekDay_range R) as Hw.
  assert (Hwd : forall k, (k - (i - JSDate.WeekDay R)) mod 7 = 0 ->
                  JSDate.WeekDay (JSDate.MakeDate (JSDate.Day R + k) noonUTC) = i).
  { intros k Hk. unfold JSDate.WeekDay in *. rewrite (Day_MakeDate _ _ noonUTC_range).
    apply Z.mod_divide in Hk; [|lia]. destruct Hk as [c Hc].
    replace (JSDate.Day R + k + 4)
      with (i + (JSDate.Day R + 4 - (JSDate.Day R + 4) mod 7) + c * 7) by lia.
    rewrite Z.mod_add by lia.
    rewrite (Z.div_mod (JSDate.Day R + 4) 7) at 1 by lia.
    replace (i + (7 * ((JSDate.Day R + 4) / 7) + (JSDate.Day R + 4) mod 7
                  - (JSDate.Day R + 4) mod 7))
      with (i + ((JSDate.Day R + 4) / 7) * 7) by lia.
    rewrite Z.mod_add by lia. apply Z.mod_small. lia. }
  rewrite orb_false_r.
  destruct (i - JSDate.WeekDay R <=? 0) eqn:E.
  - apply Z.leb_le in E. exists (i - JSDate.WeekDay R + 7).
    rewrite (noon_then_setUTCDate R _ HR) by lia.
    repeat split; try lia.
    apply Hwd.
    replace (i - JSDate.WeekDay R + 7 - (i - JSDate.WeekDay R)) with (1 * 7) by lia.
    apply Z.mod_mul. lia.
  - apply Z.leb_gt in E. exists (i - JSDate.WeekDay R).
    rewrite (noon_then_setUTCDate R _ HR) by lia.
    repeat split; try lia.
    apply Hwd. now rewrite Z.sub_diag.
Qed.

(** The unit tests of [date-parser.test.ts] and the scenario of the
    specification, on the embedding. *)
Example test_today :
  parseNaturalDate sampleDateParse "today" testReferenceDate
  = Ok "2024-01-15T12:00:00.000Z".
Proof. reflexivity. Qed.

Example test_tomorrow :
  parseNaturalDate sampleDateParse "tomorrow" testReferenceDate
  = Ok "2024-01-16T12:00:00.000Z".
Proof. reflexivity. Qed.

Example test_in_3_days :
  parseNaturalDate sampleDateParse "in 3 days" testReferenceDate
  = Ok "2024-01-18T12:00:00.000Z".
Proof. reflexivity. Qed.

Example test_in_2_weeks :
  parseNaturalDate sampleDateParse "in 2 weeks" testReferenceDate
  = Ok "2024-01-29T12:00:00.000Z".
Proof. reflexivity. Qed.

Example test_next_Monday :
  parseNaturalDate sampleDateParse "next Monday" testReferenceDate
  = Ok "2024-01-22T12:00:00.000Z".
Proof. reflexivity. Qed.

Example test_Friday :
  parseNaturalDate sampleDateParse "Friday" testReferenceDate
  = Ok "2024-01-19T12:00:00.000Z".
Proof. reflexivity. Qed.

Example test_iso_pass_through :
  parseNaturalDate sampleDateParse "2024-12-25T10:00:00Z" testReferenceDate
  = Ok "2024-12-25T10:00:00.000Z".
Proof. reflexivity. Qed.

Example test_past_date :
  parseNaturalDate sampleDateParse "2024-01-10T10:00:00Z" testReferenceDate
  = Throw (Error pastDateMessage).
Proof. reflexivity. Qed.

Example test_invalid_expression :
  exists message,
    parseNaturalDate sampleDateParse "invalid date" testReferenceDate
    = Throw (Error message)
    /\ String.prefix "I couldn't understand the date" message = true.
Proof. eexists. split; reflexivity. Qed.

Example test_case_insensitive :
  parseNaturalDate sampleDateParse "TOMORROW" testReferenceDate
  = parseNaturalDate sampleDateParse "tomorrow" testReferenceDate.
Proof. reflexivity. Qed.

Example test_in_100000000_days :
  parseNaturalDate sampleDateParse "in 100000000 days" testReferenceDate
  = Throw (Error "Invalid time value").
Proof. vm_compute. reflexivity. Qed.

Example test_today_at_the_last_instant :
  parseNaturalDate sampleDateParse "today" JSDate.maxTime
  = Throw (Error "Invalid time value").
Proof. vm_compute. reflexivity. Qed.

Example test_next_month_end_of_january :
  parseNaturalDate sampleDateParse "next month" 1706695200000
  = Ok "2024-03-02T12:00:00.000Z".
Proof. reflexivity. Qed.

(** A text the ISO 8601 pattern accepts starts with a digit, and so does what
    lower-casing and trimming make of it. *)
Lemma iso8601_startsWithDigit s : isISO8601 s = true -> JS.startsWithDigit s = true.
Proof.
  unfold isISO8601, Regex.iso8601Pattern. destruct s as [|c s]; [discriminate|].
  cbn [Regex.eatDigits JS.startsWithDigit].
  destruct (JS.isDigit c); [reflexivity | discriminate].
Qed.

Lemma startsWithDigit_normalized s :
  JS.startsWithDigit s = true ->
  JS.startsWithDigit (JS.trim (JS.toLowerCase s)) = true.
Proof.
  destruct s as [|c s]; [discriminate|]. cbn [JS.startsWithDigit JS.toLowerCase].
  intros Hc. rewrite (toLowerCaseChar_digit c Hc). unfold JS.trim.
  cbn [JS.trimStart]. rewrite (digit_not_whitespace c Hc).
  rewrite trimEnd_cons_not_whitespace by now apply digit_not_whitespace.
  exact Hc.
Qed.

Section DateParserFacts.

Variable Date_parse : string -> option Z.

(** The branch of [parseNaturalDate] a bare weekday name reaches. *)
Lemma target_bare_weekday input normalized R :
  normalized = JS.trim (JS.toLowerCase input) ->
  isISO8601 input = false ->
  String.eqb normalized "today" = false ->
  String.eqb normalized "tonight" = false ->
  String.eqb normalized "tomorrow" = false ->
  String.eqb normalized "next week" = false ->
  String.eqb normalized "next month" = false ->
  Regex.relativePattern normalized = None ->
  Regex.prefixedWeekdayPattern "next " normalized = false ->
  isWeekdayName normalized = true ->
  parseNaturalDateTarget Date_parse input R
  = checkTarget (getNextWeekday normalized R false) R.
Proof.
  intros Hn H1 H2 H3 H4 H5 H6 H7 H8 H9.
  unfold parseNaturalDateTarget. rewrite <- Hn.
  rewrite H1, H2, H3, H4, H5, H6, H7, H8, H9. reflexivity.
Qed.

Lemma target_today R :
  parseNaturalDateTarget Date_parse "today" R
  = checkTarget (Ok (JSDate.TimeClip (JSDate.MakeDate (JSDate.Day R) noonUTC))) R.
Proof. reflexivity. Qed.

(** C6. For an input that is a weekday name (once lower-cased and trimmed,
    as the parser reads it) and the time value [R] of any reference Date,
    take [T], noon UTC of the day [k] days after the reference day, where
    [k], from 1 to 7, is such that [T] falls on the weekday asked for.
    Then [T] is strictly after [R]; [k] is 7 when the reference day is
    itself that weekday; the parser returns no instant other than [T]; and
    it returns [T] whenever [T] is the time value of a Date. *)
Theorem weekday_is_strictly_after_reference :
  forall (input : string) (R : Z),
    let W := JS.trim (JS.toLowerCase input) in
    In W ["monday"; "tuesday"; "wednesday"; "thursday"; "friday"; "saturday"; "sunday"] ->
    JSDate.isTimeValue R ->
    exists (T k : Z),
      T = JSDate.MakeDate (JSDate.Day R + k) noonUTC
      /\ 1 <= k <= 7
      /\ R < T
      /\ indexOf W ["sunday"; "monday"; "tuesday"; "wednesday"; "thursday";
                    "friday"; "saturday"] = Some (JSDate.WeekDay T)
      /\ (indexOf W ["sunday"; "monday"; "tuesday"; "wednesday"; "thursday";
                     "friday"; "saturday"] = Some (JSDate.WeekDay R) -> k = 7)
      /\ (forall T', parseNaturalDateTarget Date_parse input R = Ok T' -> T' = T)
      /\ (forall iso, parseNaturalDate Date_parse input R = Ok iso ->
                      iso = JSDate.toISOString T)
      /\ (JSDate.isTimeValue T ->
          parseNaturalDateTarget Date_parse input R = Ok T
          /\ parseNaturalDate Date_parse input R = Ok (JSDate.toISOString T)).
Proof.
  intros input R W HW HR. subst W.
  remember (JS.trim (JS.toLowerCase input)) as W eqn:HWdef.
  assert (Hiso : isISO8601 input = false).
  { destruct (isISO8601 input) eqn:E; [|reflexivity].
    apply iso8601_startsWithDigit, startsWithDigit_normalized in E.
    rewrite <- HWdef in E. simpl in HW.
    repeat (destruct HW as [<-|HW]; [discriminate E|]). contradiction. }
  assert (Hidx : exists i, 0 <= i < 7
            /\ indexOf W ["sunday"; "monday"; "tuesday"; "wednesday"; "thursday";
                          "friday"; "saturday"] = Some i
            /\ indexOf (JS.toLowerCase W)
                 ["sunday"; "monday"; "tuesday"; "wednesday"; "thursday";
                  "friday"; "saturday"] = Some i
            /\ parseNaturalDateTarget Date_parse input R
               = checkTarget (getNextWeekday W R false) R).
  { simpl in HW.
    repeat (destruct HW as [<-|HW];
            [eexists; split; [|split; [reflexivity|split; [reflexivity|]]];
             [lia | now apply target_bare_weekday]|]).
    contradiction. }
  destruct Hidx as (i & Hi & HiW & Hin & Htarget).
  destruct (getNextWeekday_spec _ i R HR Hin Hi) as (k & Hk & Hnext & Hwd & Hsame).
  pose proof (before_later_noon R k ltac:(lia)) as Hlt.
  assert (Hout : parseNaturalDateTarget Date_parse input R
                 = targetOrRangeError (JSDate.MakeDate (JSDate.Day R + k) noonUTC)).
  { rewrite Htarget, Hnext. apply checkTarget_not_before. lia. }
  exists (JSDate.MakeDate (JSDate.Day R + k) noonUTC), k.
  split; [reflexivity|]. split; [exact Hk|]. split; [exact Hlt|].
  split; [now rewrite Hwd|]. split.
  { intros HRi. apply Hsame. rewrite HiW in HRi. now injection HRi as <-. }
  split.
  { intros T' HT'. rewrite Hout in HT'. now apply targetOrRangeError_Ok. }
  split.
  { intros iso. unfold parseNaturalDate. rewrite Hout.
    destruct (targetOrRangeError _) as [T'|e] eqn:E; [|discriminate].
    apply targetOrRangeError_Ok in E as ->. now intros [= <-]. }
  intros HT. unfold parseNaturalDate.
  rewrite Hout, (targetOrRangeError_valid _ HT). split; reflexivity.
Qed.

(** C7. For ["today"] and the time value [R] of a reference Date: when the
    time of [R] within its UTC day is at most noon, and noon of that day is
    itself the time value of a Date (it is, but at the last instant of the
    range), the parser returns noon UTC of that same day; when the time of
    [R] within its day is later than noon, it throws the error of the
    past-date check. *)
Theorem today_is_noon_or_past :
  forall R : Z,
    JSDate.isTimeValue R ->
    (JSDate.TimeWithinDay R <= noonUTC ->
     JSDate.isTimeValue (JSDate.MakeDate (JSDate.Day R) noonUTC) ->
     parseNaturalDateTarget Date_parse "today" R
     = Ok (JSDate.MakeDate (JSDate.Day R) noonUTC)
     /\ parseNaturalDate Date_parse "today" R
        = Ok (JSDate.toISOString (JSDate.MakeDate (JSDate.Day R) noonUTC))
     /\ JSDate.Day (JSDate.MakeDate (JSDate.Day R) noonUTC) = JSDate.Day R
     /\ JSDate.TimeWithinDay (JSDate.MakeDate (JSDate.Day R) noonUTC)
        = JSDate.MakeTime 12 0 0 0)
    /\ (noonUTC < JSDate.TimeWithinDay R ->
        parseNaturalDate Date_parse "today" R = Throw (Error pastDateMessage))
    /\ (R <> JSDate.maxTime ->
        JSDate.isTimeValue (JSDate.MakeDate (JSDate.Day R) noonUTC)).
Proof.
  intros R HR.
  assert (Hcmp : (JSDate.MakeDate (JSDate.Day R) noonUTC <? R)
                 = (noonUTC <? JSDate.TimeWithinDay R)).
  { rewrite (time_decomposition R) at 2. unfold JSDate.MakeDate.
    destruct (noonUTC <? JSDate.TimeWithinDay R) eqn:E.
    - apply Z.ltb_lt in E. apply Z.ltb_lt. lia.
    - apply Z.ltb_ge in E. apply Z.ltb_ge. lia. }
  split; [|split].
  - intros H Hnoon.
    assert (E : (noonUTC <? JSDate.TimeWithinDay R) = false) by (apply Z.ltb_ge; lia).
    assert (Ht : parseNaturalDateTarget Date_parse "today" R
                 = Ok (JSDate.MakeDate (JSDate.Day R) noonUTC)).
    { rewrite target_today, (TimeClip_valid _ Hnoon). unfold checkTarget.
      now rewrite Hcmp, E. }
    repeat split.
    + exact Ht.
    + unfold parseNaturalDate. now rewrite Ht.
    + apply Day_MakeDate, noonUTC_range.
    + apply TimeWithinDay_MakeDate, noonUTC_range.
  - intros H.
    assert (E : (noonUTC <? JSDate.TimeWithinDay R) = true) by (apply Z.ltb_lt; lia).
    assert (Hnoon : JSDate.isTimeValue (JSDate.MakeDate (JSDate.Day R) noonUTC)).
    { assert (Hlt : JSDate.MakeDate (JSDate.Day R) noonUTC < R)
        by (apply Z.ltb_lt; now rewrite Hcmp).
      pose proof (later_time_not_below R 0 noonUTC HR ltac:(lia)
                    (proj1 noonUTC_range)) as Hlow.
      rewrite Z.add_0_r in Hlow. unfold JSDate.isTimeValue in *. lia. }
    unfold parseNaturalDate.
    rewrite target_today, (TimeClip_valid _ Hnoon). unfold checkTarget.
    now rewrite Hcmp, E.
  - intros Hlast.
    pose proof (later_time_not_below R 0 noonUTC HR ltac:(lia)
                  (proj1 noonUTC_range)) as Hlow.
    rewrite Z.add_0_r in Hlow. split; [exact Hlow|].
    revert HR Hlast.
    unfold JSDate.isTimeValue, JSDate.MakeDate, JSDate.Day, JSDate.maxTime,
      JSDate.msPerDay, noonUTC, JSDate.MakeTime.
    intros HR Hlast. Z.div_mod_to_equations. lia.
Qed.

End DateParserFacts.

Lemma weekday_is_strictly_after_reference_witness :
  parseNaturalDate sampleDateParse "monday" testReferenceDate
  = Ok "2024-01-22T12:00:00.000Z"
  /\ parseNaturalDate sampleDateParse " Friday" testReferenceDate
     = Ok "2024-01-19T12:00:00.000Z".
Proof.
  split.
  - destruct (weekday_is_strictly_after_reference sampleDateParse "monday"
                testReferenceDate)
      as (T & k & HT & _ & _ & _ & Hsame & _ & _ & Hret).
    + simpl. auto.
    + vm_compute. split; discriminate.
    + rewrite (Hsame eq_refl) in HT. subst T.
      destruct Hret as [_ ->]; [vm_compute; split; discriminate | reflexivity].
  - destruct (weekday_is_strictly_after_reference sampleDateParse " Friday"
                testReferenceDate)
      as (T & k & _ & _ & _ & _ & _ & Honly & _ & Hret).
    + simpl. tauto.
    + vm_compute. split; discriminate.
    + rewrite <- (Honly 1705665600000 eq_refl) in Hret.
      destruct Hret as [_ ->]; [vm_compute; split; discriminate | reflexivity].
Defined.

Lemma today_is_noon_or_past_witness :
  parseNaturalDate sampleDateParse "today" testReferenceDate
  = Ok "2024-01-15T12:00:00.000Z"
  /\ parseNaturalDate sampleDateParse "today" 1705323600000
     = Throw (Error pastDateMessage).
Proof.
  split.
  - destruct (today_is_noon_or_past sampleDateParse testReferenceDate) as [H _].
    + vm_compute. split; discriminate.
    + destruct H as (_ & -> & _);
        [vm_compute; discriminate | vm_compute; split; discriminate | reflexivity].
  - destruct (today_is_noon_or_past sampleDateParse 1705323600000) as (_ & H & _).
    + vm_compute. split; discriminate.
    + apply H. reflexivity.
Defined.

(* ================================================================== *)
(** * The retrying executor *)

Section RetryFacts.

Context {State A : Type}.
Variable sleep : Z -> State -> State.
Variable timerFires : Z -> State -> bool.
Variable fn : State -> result A * State.

(** The loop never runs out of the fuel [withRetryOpts] gives it. *)
Lemma retryLoop_total (opts : RetryOptions) fuel :
  forall attempt lastError st,
    (Z.to_nat (maxRetries opts + 1 - attempt) < fuel)%nat ->
    exists r st', retryLoop sleep timerFires fuel fn opts attempt lastError st
                  = Some (r, st').
Proof.
  induction fuel as [|fuel IH]; intros attempt lastError st Hfuel; [lia|].
  cbn [retryLoop].
  destruct (attempt <=? maxRetries opts) eqn:Hle.
  - destruct (withTimeout timerFires fn (timeoutMs opts) st) as [[v|e] st1].
    + now eexists _, _.
    + destruct (attempt >=? maxRetries opts) eqn:Hge; [now eexists _, _|].
      destruct (negb (shouldRetry opts (toError e))); [now eexists _, _|].
      apply IH. apply Z.leb_le in Hle. rewrite Z.geb_leb in Hge.
      apply Z.leb_gt in Hge. lia.
  - destruct lastError; now eexists _, _.
Qed.

Lemma withRetryOpts_total (opts : RetryOptions) st :
  exists r st', withRetryOpts sleep timerFires fn opts st = Some (r, st').
Proof.
  unfold withRetryOpts. apply retryLoop_total.
  rewrite Z.sub_0_r. lia.
Qed.

Lemma withTimeout_noTimer (opts : RetryOptions) st outcomes delays :
  withTimeout (noTimer (State:=State) (A:=A))
    (tracedAttempt timerFires fn (timeoutMs opts)) (timeoutMs opts)
    (st, outcomes, delays)
  = let (r, st') := withTimeout timerFires fn (timeoutMs opts) st in
    (r, (st', (outcomes ++ [r])%list, delays)).
Proof. reflexivity. Qed.

(** Forgetting the record of a traced run gives the run itself. *)
Lemma retryLoop_erase (opts : RetryOptions) fuel :
  forall attempt lastError st outcomes delays,
    option_map erase
      (retryLoop (tracedSleep sleep) noTimer fuel
         (tracedAttempt timerFires fn (timeoutMs opts)) opts attempt lastError
         (st, outcomes, delays))
    = retryLoop sleep timerFires fuel fn opts attempt lastError st.
Proof.
  induction fuel as [|fuel IH]; intros attempt lastError st outcomes delays;
    [reflexivity|].
  cbn [retryLoop]. rewrite withTimeout_noTimer.
  destruct (attempt <=? maxRetries opts).
  - destruct (withTimeout timerFires fn (timeoutMs opts) st) as [[v|e] st1].
    + reflexivity.
    + destruct (attempt >=? maxRetries opts); [reflexivity|].
      destruct (negb (shouldRetry opts (toError e))); [reflexivity|].
      apply IH.
  - destruct lastError; reflexivity.
Qed.

(** One iteration of the loop, on a traced state. *)
Lemma tracedLoop_step (opts : RetryOptions) fuel attempt lastError st outcomes delays :
  retryLoop (tracedSleep sleep) noTimer (S fuel)
    (tracedAttempt timerFires fn (timeoutMs opts)) opts attempt lastError
    (st, outcomes, delays)
  = if attempt <=? maxRetries opts then
      match withTimeout timerFires fn (timeoutMs opts) st with
      | (Ok v, st1) => Some (Ok v, (st1, (outcomes ++ [Ok v])%list, delays))
      | (Throw e, st1) =>
          if (attempt >=? maxRetries opts) || negb (shouldRetry opts (toError e))
          then Some (Throw (Error (toError e)),
                     (st1, (outcomes ++ [Throw e])%list, delays))
          else
            let delay :=
              Z.min (initialDelayMs opts * backoffMultiplier opts ^ attempt)
                (maxDelayMs opts) in
            retryLoop (tracedSleep sleep) noTimer fuel
              (tracedAttempt timerFires fn (timeoutMs opts)) opts (attempt + 1)
              (Some (toError e))
              (sleep delay st1, (outcomes ++ [Throw e])%list, (delays ++ [delay])%list)
      end
    else
      match lastError with
      | Some message => Some (Throw (Error message), (st, outcomes, delays))
      | None => Some (Throw (NonError "undefined"), (st, outcomes, delays))
      end.
Proof.
  cbn [retryLoop]. rewrite withTimeout_noTimer.
  destruct (attempt <=? maxRetries opts); [|reflexivity].
  destruct (withTimeout timerFires fn (timeoutMs opts) st) as [[v|e] st1];
    [reflexivity|].
  destruct (attempt >=? maxRetries opts); [reflexivity|].
  destruct (negb (shouldRetry opts (toError e))); reflexivity.
Qed.

Ltac decide_bounds :=
  repeat match goal with
    | |- context [?a <=? 2] =>
        let b := eval vm_compute in (a <=? 2) in change (a <=? 2) with b
    | |- context [?a >=? 2] =>
        let b := eval vm_compute in (a >=? 2) in change (a >=? 2) with b
    end.

Ltac loop_step Hmax :=
  rewrite tracedLoop_step; rewrite ?Hmax; decide_bounds;
  cbv iota; cbn [orb negb app].

(** C3. With [maxRetries = 2], on a run whose attempts and delays are
    recorded: two retryable failures followed by a success give the success
    value after three attempts and exactly the two delays
    [min(initialDelayMs * backoffMultiplier^0, maxDelayMs)] and
    [min(initialDelayMs * backoffMultiplier^1, maxDelayMs)]; a first failure
    that is not retryable is re-raised after that one attempt and no delay;
    and every run ends after at most three attempts, with one delay before
    each attempt but the first, re-raising the error of its last attempt when
    it fails.  The recorded run is the run of [withRetry] itself. *)
Theorem withRetry_two_retries :
  forall (opts : RetryOptions) (st : State),
    maxRetries opts = 2 ->
    let attempt := withTimeout timerFires fn (timeoutMs opts) in
    let delay k :=
      Z.min (initialDelayMs opts * backoffMultiplier opts ^ k) (maxDelayMs opts) in
    let run := withRetryTraced sleep timerFires fn (timeoutMs opts) opts st in
    (forall e1 s1 e2 s2 v s3,
        attempt st = (Throw e1, s1) ->
        shouldRetry opts (toError e1) = true ->
        attempt (sleep (delay 0) s1) = (Throw e2, s2) ->
        shouldRetry opts (toError e2) = true ->
        attempt (sleep (delay 1) s2) = (Ok v, s3) ->
        run = Some (Ok v, (s3, [Throw e1; Throw e2; Ok v], [delay 0; delay 1])))
    /\ (forall e s1,
           attempt st = (Throw e, s1) ->
           shouldRetry opts (toError e) = false ->
           run = Some (Throw (Error (toError e)), (s1, [Throw e], [])))
    /\ (exists r s' earlier final delays,
           run = Some (r, (s', (earlier ++ [final])%list, delays))
           /\ (List.length earlier <= 2)%nat
           /\ List.length delays = List.length earlier
           /\ match r with
              | Ok v => final = Ok v
              | Throw e => exists eLast, final = Throw eLast /\ e = Error (toError eLast)
              end)
    /\ option_map erase run = withRetryOpts sleep timerFires fn opts st.
Proof.
  intros opts st Hmax attempt delay run.
  assert (Hrun : run = retryLoop (tracedSleep sleep) noTimer 4
                         (tracedAttempt timerFires fn (timeoutMs opts)) opts 0 None
                         (st, [], [])).
  { unfold run, withRetryTraced, withRetryOpts. now rewrite Hmax. }
  subst attempt delay. cbv beta. rewrite Hrun. clear Hrun run.
  split; [|split; [|split]].
  - intros e1 s1 e2 s2 v s3 H1 R1 H2 R2 H3.
    loop_step Hmax. rewrite H1, R1. cbv iota zeta. cbn [negb].
    change (0 + 1) with 1. loop_step Hmax. rewrite H2, R2. cbv iota zeta. cbn [negb].
    change (1 + 1) with 2. loop_step Hmax. rewrite H3. reflexivity.
  - intros e s1 H1 R1. loop_step Hmax. rewrite H1, R1. reflexivity.
  - loop_step Hmax.
    destruct (withTimeout timerFires fn (timeoutMs opts) st) as [[v1|e1] s1].
    { exists (Ok v1), s1, [], (Ok v1), []. repeat split; simpl; lia. }
    destruct (shouldRetry opts (toError e1)); cbn [negb]; cbv iota zeta.
    2:{ exists (Throw (Error (toError e1))), s1, [], (Throw e1), [].
        repeat split; simpl; try lia. now exists e1. }
    loop_step Hmax.
    match goal with |- context [withTimeout timerFires fn (timeoutMs opts) ?s] =>
      destruct (withTimeout timerFires fn (timeoutMs opts) s) as [[v2|e2] s2] end.
    { eexists (Ok v2), s2, [_], (Ok v2), [_]. repeat split; simpl; lia. }
    destruct (shouldRetry opts (toError e2)); cbn [negb]; cbv iota zeta.
    2:{ eexists (Throw (Error (toError e2))), s2, [_], (Throw e2), [_].
        repeat split; simpl; try lia. now exists e2. }
    loop_step Hmax.
    match goal with |- context [withTimeout timerFires fn (timeoutMs opts) ?s] =>
      destruct (withTimeout timerFires fn (timeoutMs opts) s) as [[v3|e3] s3] end.
    { eexists (Ok v3), s3, [_; _], (Ok v3), [_; _]. repeat split; simpl; lia. }
    eexists (Throw (Error (toError e3))), s3, [_; _], (Throw e3), [_; _].
    repeat split; simpl; try lia. now exists e3.
  - unfold withRetryOpts. rewrite Hmax. apply retryLoop_erase.
Qed.

End RetryFacts.

Lemma withRetry_two_retries_witness :
  maxRetries (mergeOptions apiRetryOptions) = 2
  /\ withRetryTraced sleepScripted neverFires (scripted failsTwice) 8000
       (mergeOptions apiRetryOptions) 0%nat
     = Some (Ok "done",
             (3%nat,
              [Throw (Error "API request failed with status 503");
               Throw (Error "API request failed with status 503"); Ok "done"],
              [500; 1000]))
  /\ withRetryTraced sleepScripted neverFires (scripted notFound) 8000
       (mergeOptions apiRetryOptions) 0%nat
     = Some (Throw (Error "API request failed with status 404"),
             (1%nat, [Throw (Error "API request failed with status 404")], [])).
Proof.
  split; [reflexivity|]. split.
  - destruct (withRetry_two_retries sleepScripted neverFires (scripted failsTwice)
                (mergeOptions apiRetryOptions) 0%nat eq_refl) as [H _].
    apply (H (Error "API request failed with status 503") 1%nat
             (Error "API request failed with status 503") 2%nat "done" 3%nat);
      reflexivity.
  - destruct (withRetry_two_retries sleepScripted neverFires (scripted notFound)
                (mergeOptions apiRetryOptions) 0%nat eq_refl) as (_ & H & _).
    apply (H (Error "API request failed with status 404") 1%nat); reflexivity.
Defined.

(* ================================================================== *)
(** * The identifier resolver *)


(** The errors of the positional look-up carry one of the phrases the tools
    recognise as a clarification. *)
Lemma resolvePosition_error index tasks e :
  resolvePosition index tasks = Throw e ->
  exists message, e = Error message /\ isClarification message = true.
Proof.
  unfold resolvePosition. intros H.
  destruct (match index with
            | Some i => (i <? 0) || (i >=? Z.of_nat (List.length tasks))
            | None => false
            end).
  - injection H as <-. eexists. split; [reflexivity|].
    unfold isClarification. rewrite !orb_true_iff. right.
    apply (includes_app_r ("Task number " ++ showPosition index)). reflexivity.
  - destruct (match index with
              | Some i => nth_error tasks (Z.to_nat i)
              | None => None
              end); [discriminate H|].
    injection H as <-. eexists. split; [reflexivity|].
    unfold isClarification. rewrite !orb_true_iff. right.
    apply (includes_app_r ("Task number " ++ showPosition index)). reflexivity.
Qed.

Lemma resolveByTitle_error identifier tasks e :
  resolveByTitle identifier tasks = Throw e ->
  exists message, e = Error message /\ isClarification message = true.
Proof.
  unfold resolveByTitle. intros H.
  destruct (Nat.eqb _ 0).
  - injection H as <-. eexists. split; [reflexivity|].
    unfold isClarification. rewrite !orb_true_iff. left. right.
    reflexivity.
  - destruct (Nat.ltb 1 _).
    + injection H as <-. eexists. split; [reflexivity|].
      unfold isClarification. rewrite !orb_true_iff. left. left.
      reflexivity.
    + destruct (filter _ tasks); [|discriminate H].
      injection H as <-. eexists. split; [reflexivity|].
      unfold isClarification. rewrite !orb_true_iff. left. right.
      reflexivity.
Qed.

(** The resolver examples of the specification, on a fetched list. *)
Example test_resolve_zzz :
  resolveByTitle "zzz" sampleTasks
  = Throw (Error ("No task found matching " ++ JS.quoted "zzz"
                  ++ ". Please try a different description.")).
Proof. reflexivity. Qed.

Example test_resolve_groceries :
  resolveByTitle "groceries"
    [sampleTask "g1" "Buy groceries" false; sampleTask "m" "Call mom" false;
     sampleTask "g2" "Put the Groceries away" false]
  = Throw (Error ("Multiple tasks match " ++ JS.quoted "groceries"
                  ++ ": 1. Buy groceries, 2. Put the Groceries away."
                  ++ " Please be more specific or use a task number.")).
Proof. reflexivity. Qed.

Example test_default_retry_predicate :
  defaultShouldRetry "API request failed with status 404" = false
  /\ defaultShouldRetry "API request failed with status 503" = true
  /\ defaultShouldRetry "fetch failed" = true.
Proof. repeat split. Qed.

Section ResolverFacts.

Variable this : TaskFunctionContext.

Lemma resolve_plain identifier w tasks w' :
  plainNumberPattern identifier = true ->
  getAllTasks this w = Some (Ok tasks, w') ->
  resolveTaskIdentifier this identifier w
  = Some (resolvePosition (option_map (fun n => n - 1) (JS.parseInt identifier)) tasks,
          w').
Proof.
  intros Hp Hf. unfold resolveTaskIdentifier. rewrite Hp.
  unfold bind. now rewrite Hf.
Qed.

Lemma resolve_ordinal identifier digits w tasks w' :
  plainNumberPattern identifier = false ->
  ordinalPattern identifier = Some digits ->
  getAllTasks this w = Some (Ok tasks, w') ->
  resolveTaskIdentifier this identifier w
  = Some (resolvePosition (option_map (fun n => n - 1) (JS.parseInt digits)) tasks, w').
Proof.
  intros Hp Ho Hf. unfold resolveTaskIdentifier. rewrite Hp, Ho.
  unfold bind. now rewrite Hf.
Qed.

Lemma resolve_title identifier w tasks w' :
  plainNumberPattern identifier = false ->
  ordinalPattern identifier = None ->
  getAllTasks this w = Some (Ok tasks, w') ->
  resolveTaskIdentifier this identifier w
  = Some (resolveByTitle identifier tasks, w').
Proof.
  intros Hp Ho Hf. unfold resolveTaskIdentifier. rewrite Hp, Ho.
  unfold bind. now rewrite Hf.
Qed.

(** When the list was fetched, an error of the resolver is one of its own
    clarifications. *)
Lemma resolver_error_is_clarification identifier w tasks w1 e w2 :
  getAllTasks this w = Some (Ok tasks, w1) ->
  resolveTaskIdentifier this identifier w = Some (Throw e, w2) ->
  w2 = w1 /\ exists message, e = Error message /\ isClarification message = true.
Proof.
  intros Hf. unfold resolveTaskIdentifier.
  destruct (plainNumberPattern identifier); [|destruct (ordinalPattern identifier)];
    unfold bind, liftResult; rewrite Hf; intros H; injection H as H <-;
    (split; [reflexivity|]);
    first [ now apply resolvePosition_error in H
          | now apply resolveByTitle_error in H ].
Qed.

(** C1. On a fetched list of three tasks [A; B; C], whatever their titles,
    ["2"] and ["2nd"] resolve to the id of [B]; ["9"] fails with a message
    that states the count, "3 tasks"; and ["4"] fails in the same way, also
    when one of the three is titled "4": a number is a position, never a
    fragment of a title. *)
Theorem resolve_by_position :
  forall (w w' : World) (A B C : Task),
    getAllTasks this w = Some (Ok [A; B; C], w') ->
    resolveTaskIdentifier this "2" w = Some (Ok (id B), w')
    /\ resolveTaskIdentifier this "2nd" w = Some (Ok (id B), w')
    /\ resolveTaskIdentifier this "9" w
       = Some (Throw (Error "Task number 9 doesn't exist. You have 3 tasks."), w')
    /\ JS.includes "Task number 9 doesn't exist. You have 3 tasks." "3 tasks" = true
    /\ resolveTaskIdentifier this "4" w
       = Some (Throw (Error "Task number 4 doesn't exist. You have 3 tasks."), w').
Proof.
  intros w w' A B C Hf. repeat split.
  - now rewrite (resolve_plain "2" w _ w' eq_refl Hf).
  - now rewrite (resolve_ordinal "2nd" "2" w _ w' eq_refl eq_refl Hf).
  - now rewrite (resolve_plain "9" w _ w' eq_refl Hf).
  - now rewrite (resolve_plain "4" w _ w' eq_refl Hf).
Qed.


End ResolverFacts.

Lemma resolve_by_position_witness :
  getAllTasks sampleContext sampleWorld
  = Some (Ok sampleTasks, worldAfter (getAllTasks sampleContext) sampleWorld)
  /\ resolveTaskIdentifier sampleContext "2nd" sampleWorld
     = Some (Ok "b", worldAfter (getAllTasks sampleContext) sampleWorld)
  /\ resolveTaskIdentifier sampleContext "4" sampleWorld
     = Some (Throw (Error "Task number 4 doesn't exist. You have 3 tasks."),
             worldAfter (getAllTasks sampleContext) sampleWorld).
Proof.
  split; [reflexivity|].
  destruct (resolve_by_position sampleContext sampleWorld
              (worldAfter (getAllTasks sampleContext) sampleWorld)
              (sampleTask "a" "Buy milk" false) (sampleTask "b" "4" false)
              (sampleTask "c" "buy eggs" true) eq_refl)
    as (_ & H2 & _ & _ & H4).
  split; [exact H2 | exact H4].
Defined.



(* ================================================================== *)
(** * The four tools *)

Lemma terminates_ret {A} (a : A) : terminates (ret a).
Proof. intros w. now eexists _, _. Qed.

Lemma returns_ret {A} (a : A) : returns (ret a).
Proof. intros w. now eexists _, _. Qed.

Lemma terminates_liftResult {A} (r : result A) : terminates (liftResult r).
Proof. intros w. now eexists _, _. Qed.

Lemma terminates_bind {A B} (m : M A) (k : A -> M B) :
  terminates m -> (forall a, terminates (k a)) -> terminates (bind m k).
Proof.
  intros Hm Hk w. unfold bind. destruct (Hm w) as ([a|e] & w' & ->).
  - apply Hk.
  - now eexists _, _.
Qed.

(** A [try] whose body ends and whose handler returns, returns. *)
Lemma returns_tryCatch {A} (body : M A) (handler : thrown -> M A) :
  terminates body -> (forall e, returns (handler e)) -> returns (tryCatch body handler).
Proof.
  intros Hb Hh w. unfold tryCatch. destruct (Hb w) as ([a|e] & w' & ->).
  - now eexists _, _.
  - apply Hh.
Qed.

Lemma terminates_currentDate : terminates currentDate.
Proof. intros w. now eexists _, _. Qed.

Lemma terminates_fetchWithErrorHandling request :
  terminates (fetchWithErrorHandling request).
Proof. intros w. apply withRetryOpts_total. Qed.

Lemma terminates_sendDataToFrontend this data :
  terminates (sendDataToFrontend this data).
Proof. intros w. unfold sendDataToFrontend. destruct (room this); now eexists _, _. Qed.

Lemma terminates_getAllTasks this : terminates (getAllTasks this).
Proof.
  apply terminates_bind; [apply terminates_fetchWithErrorHandling|].
  intros; apply terminates_liftResult.
Qed.

Lemma terminates_resolveTaskIdentifier this identifier :
  terminates (resolveTaskIdentifier this identifier).
Proof.
  unfold resolveTaskIdentifier.
  destruct (plainNumberPattern identifier); [|destruct (ordinalPattern identifier)];
    (apply terminates_bind; [apply terminates_getAllTasks|]);
    intros; apply terminates_liftResult.
Qed.

Create HintDb async discriminated.

#[local] Hint Resolve terminates_ret terminates_liftResult
  terminates_currentDate terminates_fetchWithErrorHandling
  terminates_sendDataToFrontend terminates_getAllTasks
  terminates_resolveTaskIdentifier returns_ret : async.

Ltac terminate :=
  repeat first
    [ progress intros
    | apply terminates_bind
    | solve [auto with async]
    | match goal with
      | |- terminates (match ?x with _ => _ end) => destruct x
      | |- terminates (if ?x then _ else _) => destruct x
      | |- returns (match ?x with _ => _ end) => destruct x
      | |- returns (if ?x then _ else _) => destruct x
      end ].

Section ToolFacts.

Variable Date_parse : string -> option Z.
Variable Number_toString : number -> string.
Variable this : TaskFunctionContext.

Lemma returns_create_task title scheduled_time priority tags :
  returns (create_task Date_parse Number_toString this title scheduled_time priority tags).
Proof. unfold create_task. apply returns_tryCatch; terminate. Qed.

Lemma returns_get_tasks query priority scheduled :
  returns (get_tasks Number_toString this query priority scheduled).
Proof. unfold get_tasks. apply returns_tryCatch; terminate. Qed.

Lemma returns_update_task identifier title scheduled_time priority completed :
  returns (update_task Date_parse Number_toString this identifier title
             scheduled_time priority completed).
Proof. unfold update_task. apply returns_tryCatch; terminate. Qed.

Lemma returns_delete_task identifier :
  returns (delete_task this identifier).
Proof. unfold delete_task. apply returns_tryCatch; terminate. Qed.

(** C4. From every world (whatever the clock reads, however the network and
    the timers answer, whether the date or the priority is understood) each
    of the four tools ends by returning a string: no exception leaves it.
    And when the task list was fetched and the resolver failed, [update_task]
    and [delete_task] return the resolver's message as it is. *)
Theorem tools_always_return_a_string :
  forall w : World,
    (forall title scheduled_time priority tags,
        exists s w',
          create_task Date_parse Number_toString this title scheduled_time priority tags w
          = Some (Ok s, w'))
    /\ (forall query priority scheduled,
           exists s w',
             get_tasks Number_toString this query priority scheduled w = Some (Ok s, w'))
    /\ (forall identifier title scheduled_time priority completed,
           exists s w',
             update_task Date_parse Number_toString this identifier title scheduled_time
               priority completed w
             = Some (Ok s, w'))
    /\ (forall identifier,
           exists s w', delete_task this identifier w = Some (Ok s, w'))
    /\ (forall identifier tasks w1 e w2,
           getAllTasks this w = Some (Ok tasks, w1) ->
           resolveTaskIdentifier this identifier w = Some (Throw e, w2) ->
           exists message,
             e = Error message
             /\ delete_task this identifier w = Some (Ok message, w2)
             /\ forall title scheduled_time priority completed,
                 update_task Date_parse Number_toString this identifier title
                   scheduled_time priority completed w
                 = Some (Ok message, w2)).
Proof.
  intros w. repeat split.
  - intros. apply returns_create_task.
  - intros. apply returns_get_tasks.
  - intros. apply returns_update_task.
  - intros. apply returns_delete_task.
  - intros identifier tasks w1 e w2 Hf Hr.
    destruct (resolver_error_is_clarification _ _ _ _ _ _ _ Hf Hr)
      as (_ & message & -> & Hc).
    exists message. split; [reflexivity|]. split.
    + unfold delete_task, tryCatch, bind. now rewrite Hr, Hc.
    + intros. unfold update_task, tryCatch, bind. now rewrite Hr, Hc.
Qed.

End ToolFacts.

Lemma tools_always_return_a_string_witness :
  delete_task sampleContext "9" sampleWorld
  = Some (Ok "Task number 9 doesn't exist. You have 3 tasks.",
          worldAfter (getAllTasks sampleContext) sampleWorld)
  /\ update_task sampleDateParse sampleNumberToString sampleContext "buy"
       Undefined Undefined InUndefined (Value true) sampleWorld
     = Some (Ok ("Multiple tasks match " ++ JS.quoted "buy"
                 ++ ": 1. Buy milk, 2. buy eggs."
                 ++ " Please be more specific or use a task number."),
             worldAfter (getAllTasks sampleContext) sampleWorld).
Proof.
  destruct (tools_always_return_a_string sampleDateParse sampleNumberToString
              sampleContext sampleWorld) as (_ & _ & _ & _ & H).
  split.
  - destruct (H "9" sampleTasks (worldAfter (getAllTasks sampleContext) sampleWorld)
                (Error "Task number 9 doesn't exist. You have 3 tasks.")
                (worldAfter (getAllTasks sampleContext) sampleWorld) eq_refl eq_refl)
      as (message & E & Hd & _).
    injection E as <-. exact Hd.
  - destruct (H "buy" sampleTasks (worldAfter (getAllTasks sampleContext) sampleWorld)
                (Error ("Multiple tasks match " ++ JS.quoted "buy"
                        ++ ": 1. Buy milk, 2. buy eggs."
                        ++ " Please be more specific or use a task number."))
                (worldAfter (getAllTasks sampleContext) sampleWorld) eq_refl eq_refl)
      as (message & E & _ & Hu).
    injection E as <-. apply Hu.
Defined.

Section ToolSuccess.

Variable Date_parse : string -> option Z.
Variable Number_toString : number -> string.
Variable this : TaskFunctionContext.

Ltac notify :=
  unfold sendDataToFrontend, ret; destruct (room this); eexists; reflexivity.

Ltac answered Hf Hj :=
  intros Hf; unfold bind; rewrite Hf; unfold liftResult; rewrite Hj.

Lemma create_task_succeeds w title scheduled_time priority tags response w1 task :
  createAccepted Date_parse scheduled_time priority (now w) = true ->
  fetchWithErrorHandling
    (createRequest this
       (createFields Date_parse title scheduled_time priority tags (now w))) w
  = Some (Ok response, w1) ->
  jsonTask response = Ok task ->
  exists w',
    create_task Date_parse Number_toString this title scheduled_time priority tags w
    = Some (Ok "Task created", w').
Proof.
  intros Hacc Hf Hj. revert Hacc Hf.
  unfold create_task, tryCatch, createAccepted, createRequest, createFields.
  destruct scheduled_time as [| |[|c s]]; cbv beta iota zeta;
    [| | |unfold bind at 1, currentDate;
          destruct (parseNaturalDate Date_parse (String c s) (now w))
            as [parsedDate|[message|rendering]];
          [|discriminate..]];
    (destruct priority as [| |n|p];
     [| |destruct (parsePriority (InNumber n))|destruct (parsePriority (InString p))]);
    change (parsePriority InNull) with (@None number);
    change (parsePriority InUndefined) with (@None number);
    cbn [andb body_title body_scheduled_time body_priority_index body_tags
         body_completed];
    intros Hacc; try discriminate Hacc; answered Hf Hj; notify.
Qed.

Lemma get_tasks_succeeds w query priority scheduled response w1 tasks :
  listAccepted priority = true ->
  fetchWithErrorHandling
    {| url := apiBaseUrl this ++ "/api/tasks";
       params := listParams Number_toString query priority scheduled;
       method := GET; body := None |} w
  = Some (Ok response, w1) ->
  jsonTasks response = Ok tasks ->
  exists w',
    get_tasks Number_toString this query priority scheduled w
    = Some (Ok (countReport tasks
                  (truthyString query || truthyPriority priority
                   || truthyString scheduled)), w').
Proof.
  intros Hacc Hf Hj. revert Hacc Hf.
  unfold get_tasks, tryCatch, countReport, listAccepted, listParams.
  destruct query as [| |[|c q]]; cbn [truthyString app];
    (destruct scheduled as [| |s];
     [| |destruct (truthyString (Value s)); cbn [andb];
         [destruct (negb (String.eqb s "all")); cbn [andb];
          [destruct (negb (String.eqb (JS.trim s) "")); cbn [andb];
           [destruct (isoDateRegex s)|]|]|]]);
    (destruct priority as [| |n|p];
     [| |destruct (parsePriority (InNumber n))|destruct (parsePriority (InString p))]);
    change (parsePriority InNull) with (@None number);
    change (parsePriority InUndefined) with (@None number);
    cbn [app]; rewrite ?app_nil_r;
    intros Hacc; try discriminate Hacc; answered Hf Hj;
    unfold sendDataToFrontend, ret; destruct (room this);
    destruct (Nat.eqb (Datatypes.length tasks) 0);
    cbn [orb];
    try match goal with
      | |- context [if ?b then ret _ else ret _] => destruct b
      | |- context [if ?b then _ else _] => destruct b
      end;
    eexists; reflexivity.
Qed.

Lemma update_task_succeeds w identifier taskId w1 title scheduled_time priority
      completed response w2 task :
  resolveTaskIdentifier this identifier w = Some (Ok taskId, w1) ->
  updateAccepted Date_parse title scheduled_time priority completed (now w1) = true ->
  fetchWithErrorHandling
    (patchRequest this taskId
       (updateFields Date_parse title scheduled_time priority completed (now w1))) w1
  = Some (Ok response, w2) ->
  jsonTask response = Ok task ->
  exists w',
    update_task Date_parse Number_toString this identifier title scheduled_time
      priority completed w
    = Some (Ok match completed with
               | Undefined => "Updated"
               | _ => if taskCompleted task
                      then "Marked complete" else "Marked incomplete"
               end, w').
Proof.
  intros Hres Hacc Hf Hj. unfold update_task, tryCatch.
  unfold bind at 1. rewrite Hres. revert Hacc Hf.
  unfold updateAccepted, patchRequest, updateFields.
  cbn [body_title body_scheduled_time body_priority_index body_tags body_completed].
  destruct scheduled_time as [| |s]; cbv beta iota zeta;
    [| |unfold bind at 1, currentDate;
        destruct (parseNaturalDate Date_parse s (now w1))
          as [parsedDate|[message|rendering]];
        [|discriminate..]];
    (destruct priority as [| |n|p];
     [| |destruct (parsePriority (InNumber n))|destruct (parsePriority (InString p))]);
    destruct title, completed;
    cbn [bodyKeys keyCount body_title body_scheduled_time body_priority_index body_tags
         body_completed Nat.add Nat.eqb andb negb];
    intros Hacc; try discriminate Hacc; answered Hf Hj;
    unfold sendDataToFrontend, ret; destruct (room this);
    try destruct (taskCompleted task); eexists; reflexivity.
Qed.

Lemma delete_task_succeeds w identifier taskId w1 response w2 task :
  resolveTaskIdentifier this identifier w = Some (Ok taskId, w1) ->
  fetchWithErrorHandling (deleteRequest this taskId) w1 = Some (Ok response, w2) ->
  jsonTask response = Ok task ->
  exists w', delete_task this identifier w = Some (Ok "Deleted", w').
Proof.
  intros Hres Hf Hj. unfold delete_task, tryCatch.
  unfold bind at 1. rewrite Hres. revert Hf. unfold deleteRequest.
  answered Hf Hj. notify.
Qed.

(** C5. A tool call in which every step succeeds returns one of the fixed
    words.  The steps are those of the run itself: the arguments are
    accepted (a date and a priority that were given are understood, and
    [update_task] has a field to change), the identifier is resolved, and
    the one request the tool then sends is answered, within the retries,
    by a response whose body is read.  [create_task] then returns "Task
    created"; [delete_task] "Deleted"; [update_task] "Updated", or, when
    [completed] was passed, "Marked complete" or "Marked incomplete" after
    the task the API sent back; and [get_tasks] a report computed from the
    number of tasks alone: "No tasks" or "No tasks found" for none, "Found
    n task(s)" otherwise, the same for any other list of that length. *)
Theorem successful_results_are_fixed_words :
  (forall w title scheduled_time priority tags response w1 task,
      createAccepted Date_parse scheduled_time priority (now w) = true ->
      fetchWithErrorHandling
        (createRequest this
           (createFields Date_parse title scheduled_time priority tags (now w))) w
      = Some (Ok response, w1) ->
      jsonTask response = Ok task ->
      exists w',
        create_task Date_parse Number_toString this title scheduled_time priority tags w
        = Some (Ok "Task created", w'))
  /\ (forall w query priority scheduled response w1 tasks,
         listAccepted priority = true ->
         fetchWithErrorHandling
           {| url := apiBaseUrl this ++ "/api/tasks";
              params := listParams Number_toString query priority scheduled;
              method := GET; body := None |} w
         = Some (Ok response, w1) ->
         jsonTasks response = Ok tasks ->
         exists s w',
           get_tasks Number_toString this query priority scheduled w = Some (Ok s, w')
           /\ s = countReport tasks (truthyString query || truthyPriority priority
                                     || truthyString scheduled)
           /\ (tasks = [] -> s = "No tasks" \/ s = "No tasks found")
           /\ (tasks <> [] ->
               s = "Found " ++ JS.showNat (List.length tasks) ++ " task"
                   ++ plural (List.length tasks))
           /\ (forall tasks' : list Task,
                  List.length tasks' = List.length tasks ->
                  countReport tasks' (truthyString query || truthyPriority priority
                                      || truthyString scheduled) = s))
  /\ (forall w identifier taskId w1 title scheduled_time priority completed
             response w2 task,
         resolveTaskIdentifier this identifier w = Some (Ok taskId, w1) ->
         updateAccepted Date_parse title scheduled_time priority completed (now w1)
         = true ->
         fetchWithErrorHandling
           (patchRequest this taskId
              (updateFields Date_parse title scheduled_time priority completed
                 (now w1))) w1
         = Some (Ok response, w2) ->
         jsonTask response = Ok task ->
         exists s w',
           update_task Date_parse Number_toString this identifier title scheduled_time
             priority completed w
           = Some (Ok s, w')
           /\ In s ["Updated"; "Marked complete"; "Marked incomplete"]
           /\ (completed = Undefined -> s = "Updated")
           /\ (completed <> Undefined ->
               s = if taskCompleted task
                   then "Marked complete" else "Marked incomplete")
           /\ In s confirmations)
  /\ (forall w identifier taskId w1 response w2 task,
         resolveTaskIdentifier this identifier w = Some (Ok taskId, w1) ->
         fetchWithErrorHandling (deleteRequest this taskId) w1
         = Some (Ok response, w2) ->
         jsonTask response = Ok task ->
         exists w', delete_task this identifier w = Some (Ok "Deleted", w')).
Proof.
  split; [|split; [|split]].
  - intros. now apply create_task_succeeds with (response := response) (w1 := w1)
      (task := task).
  - intros w query priority scheduled response w1 tasks Hacc Hf Hj.
    destruct (get_tasks_succeeds w query priority scheduled response w1 tasks
                Hacc Hf Hj) as (w' & E).
    eexists _, w'. split; [exact E|]. split; [reflexivity|]. split; [|split].
    + intros ->. unfold countReport. cbn [List.length Nat.eqb].
      destruct (truthyString query || truthyPriority priority || truthyString scheduled);
        auto.
    + intros Hne. unfold countReport.
      destruct tasks; [contradiction | reflexivity].
    + intros tasks' Hlen. unfold countReport. now rewrite Hlen.
  - intros w identifier taskId w1 title scheduled_time priority completed response
      w2 task Hres Hacc Hf Hj.
    destruct (update_task_succeeds w identifier taskId w1 title scheduled_time
                priority completed response w2 task Hres Hacc Hf Hj) as (w' & E).
    eexists _, w'. split; [exact E|].
    destruct completed; destruct (taskCompleted task); simpl;
      repeat split; auto; intros; try discriminate; try congruence; tauto.
  - intros. now apply delete_task_succeeds with (taskId := taskId) (w1 := w1)
      (response := response) (w2 := w2) (task := task).
Qed.

End ToolSuccess.

Lemma successful_results_are_fixed_words_witness :
  (exists w', create_task sampleDateParse sampleNumberToString sampleContext
                "Call the bank" (Value "tomorrow") (InString "urgent") Undefined
                sampleWorld
              = Some (Ok "Task created", w'))
  /\ (exists s w', get_tasks sampleNumberToString sampleContext Undefined InUndefined
                     Undefined sampleWorld
                   = Some (Ok s, w')
                   /\ s = "Found 3 tasks")
  /\ (exists s w', update_task sampleDateParse sampleNumberToString sampleContext
                     "2nd" Undefined Undefined InUndefined (Value true) sampleWorld
                   = Some (Ok s, w')
                   /\ s = "Marked complete")
  /\ (exists w', delete_task sampleContext "milk" sampleWorld = Some (Ok "Deleted", w')).
Proof.
  destruct (successful_results_are_fixed_words sampleDateParse sampleNumberToString
              sampleContext) as (Hcreate & Hget & Hupdate & Hdelete).
  split; [|split; [|split]].
  - eapply (Hcreate sampleWorld "Call the bank" (Value "tomorrow") (InString "urgent")
              Undefined sampleResponse); reflexivity.
  - edestruct (Hget sampleWorld Undefined InUndefined Undefined sampleResponse)
      as (s & w' & E & _ & _ & Hs & _); [reflexivity..|].
    exists s, w'. split; [exact E|]. rewrite Hs; [reflexivity | discriminate].
  - edestruct (Hupdate sampleWorld "2nd" "b"
                 (worldAfter (getAllTasks sampleContext) sampleWorld)
                 Undefined Undefined InUndefined (Value true) sampleResponse)
      as (s & w' & E & _ & _ & Hs & _); [reflexivity..|].
    exists s, w'. split; [exact E|]. rewrite Hs; [reflexivity | discriminate].
  - eapply (Hdelete sampleWorld "milk" "a"
              (worldAfter (getAllTasks sampleContext) sampleWorld) sampleResponse);
      reflexivity.
Defined.

(* ================================================================== *)
(** * Decimal rendering and reading back *)

Lemma digitChar_digit d :
  (d < 10)%nat ->
  JS.isDigit (JS.digitChar d) = true /\ JS.digitValue (JS.digitChar d) = Z.of_nat d.
Proof.
  intros H. do 10 (destruct d as [|d]; [split; reflexivity|]). lia.
Qed.

Lemma digitsValueFrom_app a s1 s2 :
  JS.digitsValueFrom a (s1 ++ s2) = JS.digitsValueFrom (JS.digitsValueFrom a s1) s2.
Proof. revert a. induction s1 as [|c s1 IH]; intros a; simpl; [reflexivity | apply IH]. Qed.

Lemma forallChars_app p s1 s2 :
  JS.forallChars p (s1 ++ s2) = JS.forallChars p s1 && JS.forallChars p s2.
Proof. induction s1 as [|c s1 IH]; simpl; [reflexivity | now rewrite IH, andb_assoc]. Qed.

Lemma showNatFuel_spec fuel :
  forall n acc,
    (n < fuel)%nat ->
    exists ds,
      JS.showNatFuel fuel n acc = ds ++ acc
      /\ ds <> EmptyString
      /\ JS.forallChars JS.isDigit ds = true
      /\ JS.digitsValue ds = Z.of_nat n.
Proof.
  induction fuel as [|fuel IH]; intros n acc Hn; [lia|].
  cbn [JS.showNatFuel].
  pose proof (Nat.mod_upper_bound n 10 ltac:(lia)) as Hmod.
  destruct (digitChar_digit (n mod 10) Hmod) as [Hd Hv].
  pose proof (Nat.div_mod_eq n 10) as Hdm.
  destruct (n / 10)%nat as [|q] eqn:E.
  - exists (String (JS.digitChar (n mod 10)) ""). repeat split.
    + discriminate.
    + cbn [JS.forallChars]. now rewrite Hd.
    + unfold JS.digitsValue. cbn [JS.digitsValueFrom]. rewrite Hv. lia.
  - destruct (IH (S q) (String (JS.digitChar (n mod 10)) acc) ltac:(lia))
      as (ds & E1 & Hne & Hall & Hval).
    exists (ds ++ String (JS.digitChar (n mod 10)) ""). repeat split.
    + rewrite E1, append_assoc. reflexivity.
    + destruct ds; [contradiction | discriminate].
    + rewrite forallChars_app, Hall. cbn [JS.forallChars]. now rewrite Hd.
    + unfold JS.digitsValue in *. rewrite digitsValueFrom_app, Hval.
      cbn [JS.digitsValueFrom]. rewrite Hv. lia.
Qed.

Lemma showNat_digits n :
  JS.showNat n <> EmptyString
  /\ JS.forallChars JS.isDigit (JS.showNat n) = true
  /\ JS.digitsValue (JS.showNat n) = Z.of_nat n.
Proof.
  unfold JS.showNat.
  destruct (showNatFuel_spec (S n) n "" ltac:(lia)) as (ds & E & H1 & H2 & H3).
  rewrite E, append_empty_r. auto.
Qed.

Lemma parseInt_showNat n : JS.parseInt (JS.showNat n) = Some (Z.of_nat n).
Proof.
  destruct (showNat_digits n) as (H1 & H2 & H3).
  rewrite <- (append_empty_r (JS.showNat n)).
  rewrite (parseInt_digits_app _ "" H1 H2 eq_refl). now rewrite H3.
Qed.

Lemma plainNumberPattern_showNat n : plainNumberPattern (JS.showNat n) = true.
Proof.
  destruct (showNat_digits n) as (H1 & H2 & _). unfold plainNumberPattern.
  destruct (JS.showNat n); [contradiction | exact H2].
Qed.

(* ================================================================== *)
(** * More on the identifier resolver *)

Lemma includes_empty s : JS.includes s "" = true.
Proof. destruct s; reflexivity. Qed.

Lemma ordinalSuffixAt_not_digit r :
  ordinalSuffixAt r = true -> JS.startsWithDigit r = false.
Proof.
  destruct r as [|a [|b r]]; try discriminate. cbn [JS.startsWithDigit].
  destruct (JS.isDigit a) eqn:Ha; [|reflexivity].
  unfold ordinalSuffixAt. cbn [JS.toLowerCase]. rewrite (toLowerCaseChar_digit a Ha).
  revert Ha. each_char a; intros Ha; try discriminate Ha; intros H; discriminate H.
Qed.

Lemma ordinalAt_not_digit r : JS.startsWithDigit r = false -> ordinalAt r = None.
Proof. destruct r as [|a r]; [reflexivity|]. simpl. now intros ->. Qed.

(** The digits group is the whole run of digits in front of the suffix. *)
Lemma ordinalAt_digits ds r :
  ds <> EmptyString -> JS.forallChars JS.isDigit ds = true ->
  ordinalSuffixAt r = true ->
  ordinalAt (ds ++ r) = Some ds.
Proof.
  intros Hne Hd Hr. induction ds as [|c ds IH]; [contradiction|].
  cbn [JS.forallChars] in Hd. apply andb_true_iff in Hd as [Hc Hd].
  change (String c ds ++ r) with (String c (ds ++ r)).
  cbn [ordinalAt]. rewrite Hc.
  destruct ds as [|d ds].
  - change ("" ++ r) with r.
    rewrite (ordinalAt_not_digit r (ordinalSuffixAt_not_digit r Hr)). now rewrite Hr.
  - rewrite IH; [reflexivity | discriminate | exact Hd].
Qed.

Lemma ordinalPattern_after_text p ds r :
  JS.forallChars (fun c => negb (JS.isDigit c)) p = true ->
  ds <> EmptyString -> JS.forallChars JS.isDigit ds = true ->
  ordinalSuffixAt r = true ->
  ordinalPattern (p ++ ds ++ r) = Some ds.
Proof.
  intros Hp Hne Hd Hr. induction p as [|c p IH].
  - change ("" ++ ds ++ r) with (ds ++ r).
    pose proof (ordinalAt_digits ds r Hne Hd Hr) as E.
    destruct (ds ++ r); cbn [ordinalPattern]; now rewrite E.
  - cbn [JS.forallChars] in Hp. apply andb_true_iff in Hp as [Hc Hp].
    change (String c p ++ ds ++ r) with (String c (p ++ ds ++ r)).
    cbn [ordinalPattern ordinalAt].
    apply negb_true_iff in Hc. rewrite Hc. now apply IH.
Qed.

Lemma plainNumberPattern_with_suffix p ds r :
  ordinalSuffixAt r = true -> plainNumberPattern (p ++ ds ++ r) = false.
Proof.
  intros Hr. unfold plainNumberPattern.
  assert (H : JS.forallChars JS.isDigit (p ++ ds ++ r) = false).
  { rewrite !forallChars_app.
    pose proof (ordinalSuffixAt_not_digit r Hr) as Hn.
    destruct r as [|a r]; [discriminate Hr|]. cbn [JS.startsWithDigit] in Hn.
    cbn [JS.forallChars]. rewrite Hn. now rewrite !andb_false_r. }
  destruct (p ++ ds ++ r); [reflexivity | exact H].
Qed.

Lemma ordinalSuffixAt_app sfx rest :
  In (JS.toLowerCase sfx) ["st"; "nd"; "rd"; "th"] ->
  ordinalSuffixAt (sfx ++ rest) = true.
Proof.
  intros H.
  assert (exists a b, sfx = String a (String b "")) as (a & b & ->).
  { destruct sfx as [|a [|b [|c sfx]]]; simpl in H;
      try (exfalso; intuition discriminate).
    now exists a, b. }
  unfold ordinalSuffixAt. cbn [append].
  simpl in H. destruct H as [H|[H|[H|[H|[]]]]];
    cbn [JS.toLowerCase] in *; rewrite <- H; cbn; rewrite ?orb_true_r; reflexivity.
Qed.

Lemma filter_titleMatches_empty tasks : filter (titleMatches "") tasks = tasks.
Proof.
  induction tasks as [|t ts IH]; [reflexivity|]. cbn [filter].
  unfold titleMatches at 1. rewrite includes_empty. now rewrite IH.
Qed.

Section ResolverMore.

Variable this : TaskFunctionContext.

(** X1. A plain number [n] names the [n]-th task of the fetched list, for
    every list and every [n] that [parseInt] reads exactly (up to
    [Number.MAX_SAFE_INTEGER]): 0 and numbers beyond the length fail with
    the number and the count. *)
Theorem resolve_plain_number :
  forall (w w' : World) (tasks : list Task) (n : nat),
    Z.of_nat n <= 9007199254740991 ->
    getAllTasks this w = Some (Ok tasks, w') ->
    resolveTaskIdentifier this (JS.showNat n) w
    = Some (match n with
            | S k =>
                match nth_error tasks k with
                | Some task => Ok (id task)
                | None =>
                    Throw (Error ("Task number " ++ JS.showNat n
                                  ++ " doesn't exist. You have "
                                  ++ JS.showNat (List.length tasks) ++ " task"
                                  ++ plural (List.length tasks) ++ "."))
                end
            | O =>
                Throw (Error ("Task number 0 doesn't exist. You have "
                              ++ JS.showNat (List.length tasks) ++ " task"
                              ++ plural (List.length tasks) ++ "."))
            end, w').
Proof.
  intros w w' tasks n _ Hf.
  rewrite (resolve_plain this _ w tasks w' (plainNumberPattern_showNat n) Hf).
  rewrite parseInt_showNat. cbn [option_map]. f_equal. f_equal.
  unfold resolvePosition. destruct n as [|k].
  - reflexivity.
  - replace (Z.of_nat (S k) - 1) with (Z.of_nat k) by lia.
    replace (Z.of_nat k <? 0) with false by (symmetry; apply Z.ltb_ge; lia).
    cbn [orb]. rewrite Nat2Z.id.
    destruct (nth_error tasks k) as [task|] eqn:E.
    + assert (k < List.length tasks)%nat by (apply nth_error_Some; congruence).
      replace (Z.of_nat k >=? Z.of_nat (List.length tasks)) with false
        by (symmetry; rewrite Z.geb_leb; apply Z.leb_gt; lia).
      reflexivity.
    + apply nth_error_None in E.
      replace (Z.of_nat k >=? Z.of_nat (List.length tasks)) with true
        by (symmetry; rewrite Z.geb_leb; apply Z.leb_le; lia).
      unfold showPosition, JS.showInt.
      replace (Z.of_nat k + 1 <? 0) with false by (symmetry; apply Z.ltb_ge; lia).
      replace (Z.to_nat (Z.of_nat k + 1)) with (S k) by lia. reflexivity.
Qed.

(** X2. An ordinal is read wherever it stands after text without digits, with
    any of the four suffixes in any case, and resolves exactly as the plain
    number does. *)
Theorem resolve_ordinal_as_plain_number :
  forall (w w' : World) (tasks : list Task) (before sfx rest : string) (n : nat),
    JS.forallChars (fun c => negb (JS.isDigit c)) before = true ->
    In (JS.toLowerCase sfx) ["st"; "nd"; "rd"; "th"] ->
    getAllTasks this w = Some (Ok tasks, w') ->
    resolveTaskIdentifier this (before ++ JS.showNat n ++ sfx ++ rest) w
    = resolveTaskIdentifier this (JS.showNat n) w.
Proof.
  intros w w' tasks before sfx rest n Hb Hs Hf.
  destruct (showNat_digits n) as (H1 & H2 & _).
  pose proof (ordinalSuffixAt_app sfx rest Hs) as Hsfx.
  rewrite (resolve_ordinal this _ (JS.showNat n) w tasks w'
             (plainNumberPattern_with_suffix _ _ _ Hsfx)
             (ordinalPattern_after_text _ _ _ Hb H1 H2 Hsfx) Hf).
  now rewrite (resolve_plain this _ w tasks w' (plainNumberPattern_showNat n) Hf).
Qed.

(** X3. Whatever the identifier, an id the resolver returns is the id of a task
    of the fetched list; in the title branch that task is the one and only
    task whose lower-cased title contains the lower-cased identifier. *)
Theorem resolve_returns_a_listed_task :
  forall (identifier : string) (w w' w'' : World) (tasks : list Task) (taskId : string),
    getAllTasks this w = Some (Ok tasks, w') ->
    resolveTaskIdentifier this identifier w = Some (Ok taskId, w'') ->
    exists task,
      In task tasks /\ id task = taskId
      /\ (plainNumberPattern identifier = false ->
          ordinalPattern identifier = None ->
          filter (titleMatches (JS.toLowerCase identifier)) tasks = [task]).
Proof.
  intros identifier w w' w'' tasks taskId Hf Hr.
  assert (Hpos : forall index, resolvePosition index tasks = Ok taskId ->
                   exists task, In task tasks /\ id task = taskId).
  { intros index H. unfold resolvePosition in H.
    destruct (match index with
              | Some i => (i <? 0) || (i >=? Z.of_nat (List.length tasks))
              | None => false
              end); [discriminate H|].
    destruct (match index with
              | Some i => nth_error tasks (Z.to_nat i)
              | None => None
              end) as [task|] eqn:E; [|discriminate H].
    injection H as <-. exists task. split; [|reflexivity].
    destruct index; [|discriminate E]. eapply nth_error_In, E. }
  destruct (plainNumberPattern identifier) eqn:Hp.
  - rewrite (resolve_plain this _ w tasks w' Hp Hf) in Hr. injection Hr as Hr _.
    destruct (Hpos _ Hr) as (task & Hin & Hid). exists task. repeat split; auto.
    discriminate.
  - destruct (ordinalPattern identifier) as [digits|] eqn:Ho.
    + rewrite (resolve_ordinal this _ digits w tasks w' Hp Ho Hf) in Hr.
      injection Hr as Hr _.
      destruct (Hpos _ Hr) as (task & Hin & Hid). exists task. repeat split; auto.
      discriminate.
    + rewrite (resolve_title this _ w tasks w' Hp Ho Hf) in Hr. injection Hr as Hr _.
      unfold resolveByTitle in Hr.
      destruct (filter (titleMatches (JS.toLowerCase identifier)) tasks)
        as [|task [|other rest]] eqn:E; try discriminate Hr.
      cbn in Hr. injection Hr as <-. exists task. repeat split; auto.
      assert (Hin : In task (filter (titleMatches (JS.toLowerCase identifier)) tasks))
        by (rewrite E; now left).
      now apply filter_In in Hin.
Qed.

(** X4. The empty identifier matches every task: it resolves only on a list
    of exactly one task, is not found on the empty list, and is ambiguous,
    with every title listed, on a longer one. *)
Theorem resolve_empty_identifier :
  forall (w w' : World) (tasks : list Task),
    getAllTasks this w = Some (Ok tasks, w') ->
    resolveTaskIdentifier this "" w
    = Some (match tasks with
            | [] => Throw (Error ("No task found matching " ++ JS.quoted ""
                                  ++ ". Please try a different description."))
            | [task] => Ok (id task)
            | _ => Throw (Error ("Multiple tasks match " ++ JS.quoted "" ++ ": "
                                 ++ JS.join ", " (numberedTitles 0 tasks)
                                 ++ ". Please be more specific or use a task number."))
            end, w').
Proof.
  intros w w' tasks Hf.
  rewrite (resolve_title this "" w tasks w' eq_refl eq_refl Hf).
  unfold resolveByTitle. cbn [JS.toLowerCase].
  rewrite filter_titleMatches_empty. destruct tasks as [|t1 [|t2 rest]]; reflexivity.
Qed.

End ResolverMore.

(* ================================================================== *)
(** * The API exchange *)

Lemma withTimeout_fetchOnce request w :
  withTimeout timerFiresWorld (fetchOnce request) 8000 w
  = (attemptOutcome w (fetchCount w) request,
     {| now := now w; network := network w; timers := timers w;
        fetchCount := S (fetchCount w); requests := request :: requests w;
        sleeps := sleeps w; published := published w |}).
Proof.
  unfold withTimeout, timerFiresWorld, attemptOutcome, fetchOnce.
  destruct (network w (fetchCount w) request) as [e|response];
    [|destruct (ok response); [|destruct (text response)]];
    destruct (timers w (fetchCount w)); reflexivity.
Qed.

(** One exchange, read off the answers of the world: the loop of [withRetry]
    over [fetchOnce] stops at the first attempt that succeeds or whose error
    is not retried, and at the third at the latest. *)
Lemma fetch_exchange :
  forall (request : Request) (w : World),
    let attempts := attemptsNeeded w request in
    fetchWithErrorHandling request w
    = Some (settled (attemptOutcome w (fetchCount w + attempts - 1) request),
            worldAfterAttempts w request attempts).
Proof.
  intros request w. unfold attemptsNeeded.
  unfold fetchWithErrorHandling, withRetry, withRetryOpts.
  change (maxRetries (mergeOptions apiRetryOptions)) with 2.
  change (Z.to_nat (2 + 1)) with 3%nat.
  cbn [retryLoop].
  change (maxRetries (mergeOptions apiRetryOptions)) with 2.
  change (timeoutMs (mergeOptions apiRetryOptions)) with 8000.
  change (shouldRetry (mergeOptions apiRetryOptions)) with defaultShouldRetry.
  change (initialDelayMs (mergeOptions apiRetryOptions)) with 500.
  change (maxDelayMs (mergeOptions apiRetryOptions)) with 5000.
  change (backoffMultiplier (mergeOptions apiRetryOptions)) with 2.
  change (0 <=? 2) with true. change (0 >=? 2) with false.
  change (0 + 1 <=? 2) with true. change (0 + 1 >=? 2) with false.
  change (0 + 1 + 1 <=? 2) with true. change (0 + 1 + 1 >=? 2) with true.
  change (calculateDelay 0 500 5000 2) with 500.
  change (calculateDelay (0 + 1) 500 5000 2) with 1000.
  cbv iota.
  rewrite !withTimeout_fetchOnce. unfold sleepWorld.
  cbn [now network timers fetchCount requests sleeps published].
  rewrite ?withTimeout_fetchOnce.
  cbn [now network timers fetchCount requests sleeps published].
  change (attemptOutcome
            {| now := now w; network := network w; timers := timers w;
               fetchCount := S (fetchCount w); requests := request :: requests w;
               sleeps := 500 :: sleeps w; published := published w |})
    with (attemptOutcome w).
  change (attemptOutcome
            {| now := now w; network := network w; timers := timers w;
               fetchCount := S (S (fetchCount w));
               requests := request :: request :: requests w;
               sleeps := 1000 :: 500 :: sleeps w; published := published w |})
    with (attemptOutcome w).
  unfold worldAfterAttempts.
  destruct (attemptOutcome w (fetchCount w) request) as [r0|e0] eqn:E0.
  { cbn [retried repeat app].
    replace (fetchCount w + 1 - 1)%nat with (fetchCount w) by lia. rewrite E0.
    replace (fetchCount w + 1)%nat with (S (fetchCount w)) by lia. reflexivity. }
  cbn [retried]. destruct (defaultShouldRetry (toError e0)) eqn:R0; cbn [negb].
  2:{ cbn [repeat app].
      replace (fetchCount w + 1 - 1)%nat with (fetchCount w) by lia. rewrite E0.
      replace (fetchCount w + 1)%nat with (S (fetchCount w)) by lia. reflexivity. }
  destruct (attemptOutcome w (S (fetchCount w)) request) as [r1|e1] eqn:E1.
  { cbn [retried repeat app].
    replace (fetchCount w + 2 - 1)%nat with (S (fetchCount w)) by lia. rewrite E1.
    replace (fetchCount w + 2)%nat with (S (S (fetchCount w))) by lia. reflexivity. }
  cbn [retried]. destruct (defaultShouldRetry (toError e1)) eqn:R1; cbn [negb].
  2:{ cbn [repeat app].
      replace (fetchCount w + 2 - 1)%nat with (S (fetchCount w)) by lia. rewrite E1.
      replace (fetchCount w + 2)%nat with (S (S (fetchCount w))) by lia. reflexivity. }
  cbn [repeat app].
  replace (fetchCount w + 3 - 1)%nat with (S (S (fetchCount w))) by lia.
  replace (fetchCount w + 3)%nat with (S (S (S (fetchCount w)))) by lia.
  destruct (attemptOutcome w (S (S (fetchCount w))) request); reflexivity.
Qed.

(** A property checked on every integer of a range, by computation. *)
Lemma range_cases (P : Z -> bool) (lo : Z) (n : nat) :
  forallb (fun k => P (lo + Z.of_nat k)) (seq 0 n) = true ->
  forall z, lo <= z < lo + Z.of_nat n -> P z = true.
Proof.
  intros H z Hz. rewrite forallb_forall in H.
  specialize (H (Z.to_nat (z - lo))).
  replace (lo + Z.of_nat (Z.to_nat (z - lo))) with z in H by lia.
  apply H. apply in_seq. lia.
Qed.

Lemma status_below_500_not_retried status :
  100 <= status <= 499 -> defaultShouldRetry (httpErrorMessage status) = false.
Proof.
  intros H. apply negb_true_iff.
  apply (range_cases (fun z => negb (defaultShouldRetry (httpErrorMessage z))) 100 400);
    [vm_compute; reflexivity | lia].
Qed.

Lemma status_5xx_retried status :
  500 <= status <= 599 -> defaultShouldRetry (httpErrorMessage status) = true.
Proof.
  intros H.
  apply (range_cases (fun z => defaultShouldRetry (httpErrorMessage z)) 500 100);
    [vm_compute; reflexivity | lia].
Qed.

(** The tests [formatErrorForTTS] makes on the message of an HTTP error. *)
Lemma status_4xx_tests status :
  400 <= status <= 499 ->
  let message := JS.toLowerCase (httpErrorMessage status) in
  JS.includes message "network" = false
  /\ JS.includes message "fetch" = false
  /\ JS.includes message "econnrefused" = false
  /\ JS.includes message "timeout" = false
  /\ JS.includes message "status 5" = false
  /\ JS.includes message "status 4" = true
  /\ JS.includes message "404" = (status =? 404)
  /\ JS.includes message "not found" = false
  /\ JS.includes message "400" = (status =? 400)
  /\ JS.includes message "invalid" = false.
Proof.
  intros H message. subst message.
  pose proof (range_cases
    (fun z =>
       let message := JS.toLowerCase (httpErrorMessage z) in
       negb (JS.includes message "network") && negb (JS.includes message "fetch")
       && negb (JS.includes message "econnrefused")
       && negb (JS.includes message "timeout")
       && negb (JS.includes message "status 5") && JS.includes message "status 4"
       && Bool.eqb (JS.includes message "404") (z =? 404)
       && negb (JS.includes message "not found")
       && Bool.eqb (JS.includes message "400") (z =? 400)
       && negb (JS.includes message "invalid")) 400 100) as Hall.
  specialize (Hall ltac:(vm_compute; reflexivity) status ltac:(lia)).
  cbv beta zeta in Hall.
  repeat (apply andb_true_iff in Hall as [Hall ?]).
  repeat match goal with
    | H : negb _ = true |- _ => apply negb_true_iff in H
    | H : Bool.eqb _ _ = true |- _ => apply Bool.eqb_prop in H
    end.
  repeat split; assumption.
Qed.

Lemma status_5xx_tests status :
  500 <= status <= 599 ->
  let message := JS.toLowerCase (httpErrorMessage status) in
  JS.includes message "network" = false
  /\ JS.includes message "fetch" = false
  /\ JS.includes message "econnrefused" = false
  /\ JS.includes message "timeout" = false
  /\ JS.includes message "status 5" = true.
Proof.
  intros H message. subst message.
  pose proof (range_cases
    (fun z =>
       let message := JS.toLowerCase (httpErrorMessage z) in
       negb (JS.includes message "network") && negb (JS.includes message "fetch")
       && negb (JS.includes message "econnrefused")
       && negb (JS.includes message "timeout")
       && JS.includes message "status 5") 500 100) as Hall.
  specialize (Hall ltac:(vm_compute; reflexivity) status ltac:(lia)).
  cbv beta zeta in Hall.
  repeat (apply andb_true_iff in Hall as [Hall ?]).
  repeat match goal with
    | H : negb _ = true |- _ => apply negb_true_iff in H
    end.
  repeat split; assumption.
Qed.

Lemma formatErrorForTTS_5xx status operation :
  500 <= status <= 599 ->
  formatErrorForTTS (httpErrorMessage status) operation
  = "The server encountered an error while trying to " ++ operation
    ++ ". Please try again in a moment.".
Proof.
  intros H. destruct (status_5xx_tests status H) as (H1 & H2 & H3 & H4 & H5).
  unfold formatErrorForTTS. now rewrite H1, H2, H3, H4, H5.
Qed.

Lemma formatErrorForTTS_4xx status operation :
  400 <= status <= 499 ->
  formatErrorForTTS (httpErrorMessage status) operation
  = if status =? 404
    then "I couldn't find that task. Please try a different description."
    else if status =? 400
         then "The request to " ++ operation
              ++ " was invalid. Please try rephrasing your command."
         else "There was a problem with the request to " ++ operation
              ++ ". Please try again.".
Proof.
  intros H. destruct (status_4xx_tests status H)
    as (H1 & H2 & H3 & H4 & H5 & H6 & H7 & H8 & H9 & H10).
  unfold formatErrorForTTS.
  rewrite H1, H2, H3, H4, H5, H6, H7, H8, H9, H10. cbn [orb].
  rewrite !orb_false_r. reflexivity.
Qed.

(** X5. What the user hears for an HTTP error: for a status from 500 to 599
    the server-error sentence; for 404 the not-found sentence, which does
    not name the operation; for 400 the invalid-request sentence; for any
    other status from 400 to 499 the problem-with-the-request sentence. *)
Theorem formatErrorForTTS_http_status :
  forall (status : Z) (operation : string),
    (500 <= status <= 599 ->
     formatErrorForTTS (httpErrorMessage status) operation
     = "The server encountered an error while trying to " ++ operation
       ++ ". Please try again in a moment.")
    /\ (400 <= status <= 499 ->
        formatErrorForTTS (httpErrorMessage status) operation
        = if status =? 404
          then "I couldn't find that task. Please try a different description."
          else if status =? 400
               then "The request to " ++ operation
                    ++ " was invalid. Please try rephrasing your command."
               else "There was a problem with the request to " ++ operation
                    ++ ". Please try again.").
Proof.
  intros status operation. split.
  - apply formatErrorForTTS_5xx.
  - apply formatErrorForTTS_4xx.
Qed.

(* ================================================================== *)
(** * Which errors are retried *)

(** A text in which the first character of [sub] does not occur cannot hold
    the start of an occurrence of [sub]. *)
Lemma includes_skip k sub a b :
  JS.forallChars (fun c => negb (Ascii.eqb c k)) a = true ->
  JS.includes (a ++ b) (String k sub) = JS.includes b (String k sub).
Proof.
  induction a as [|c a IH]; [reflexivity|].
  intros H. cbn [JS.forallChars] in H. apply andb_true_iff in H as [Hc Ha].
  change (String c a ++ b) with (String c (a ++ b)).
  cbn [JS.includes String.prefix].
  destruct (ascii_dec k c) as [->|_].
  - rewrite Ascii.eqb_refl in Hc. discriminate Hc.
  - now rewrite IH.
Qed.

Lemma forallChars_weaken (p q : ascii -> bool) s :
  (forall c, p c = true -> q c = true) ->
  JS.forallChars p s = true -> JS.forallChars q s = true.
Proof.
  intros Hpq. induction s as [|c s IH]; [reflexivity|].
  cbn [JS.forallChars]. intros H. apply andb_true_iff in H as [Hc Hs].
  now rewrite (Hpq c Hc), IH.
Qed.


Lemma showInt_numerals z : JS.forallChars isNumeral (JS.showInt z) = true.
Proof.
  unfold JS.showInt.
  destruct (z <? 0); [change ("-" ++ ?s) with (String "-" s); cbn [JS.forallChars]|];
    rewrite ?andb_true_l;
    apply (forallChars_weaken JS.isDigit); try apply showNat_digits;
    intros c Hc; unfold isNumeral; now rewrite Hc.
Qed.

Lemma toLowerCaseChar_numeral c : isNumeral c = true -> JS.toLowerCaseChar c = c.
Proof. each_char c; intros H; try reflexivity; discriminate H. Qed.

Lemma numeral_not c k :
  isNumeral k = false -> isNumeral c = true -> negb (Ascii.eqb c k) = true.
Proof.
  intros Hk Hc. destruct (Ascii.eqb_spec c k) as [->|_]; [congruence | reflexivity].
Qed.

(** The message of a timeout holds none of the words the default predicate
    and the spoken-error table look for. *)
Lemma timeoutMessage_keywords timeoutMs keyword :
  In keyword ["network"; "timeout"; "fetch"; "econnrefused"; "status 5"; "status 4"] ->
  JS.includes (JS.toLowerCase (timeoutMessage timeoutMs)) keyword = false.
Proof.
  intros Hin. unfold timeoutMessage. rewrite !toLowerCase_app.
  rewrite (toLowerCase_fixed _ _ toLowerCaseChar_numeral (showInt_numerals timeoutMs)).
  pose proof (showInt_numerals timeoutMs) as Hn.
  generalize dependent (JS.showInt timeoutMs). intros numerals Hn.
  simpl in Hin.
  repeat (destruct Hin as [<-|Hin];
          [simpl; rewrite includes_skip;
           [reflexivity
           | apply (forallChars_weaken isNumeral); [|exact Hn];
             intros c Hc; now apply numeral_not]|]).
  contradiction.
Qed.

Section RetryMore.

Context {State A : Type}.
Variable sleep : Z -> State -> State.
Variable timerFires : Z -> State -> bool.
Variable fn : State -> result A * State.

(** X6. A timeout is not retried under the default predicate: whatever the
    time limit, the message of [withTimeout] holds none of the words
    [shouldRetry] looks for, so the run ends with that error after the one
    attempt, and [formatErrorForTTS] gives it the generic sentence, not the
    timed-out one. *)
Theorem timeout_is_not_retried :
  forall (options : PartialRetryOptions) (st : State) (operation : string),
    shouldRetry_opt options = None ->
    0 <= maxRetries (mergeOptions options) ->
    timerFires (timeoutMs (mergeOptions options)) st = true ->
    withRetry sleep timerFires fn options st
    = Some (Throw (Error (timeoutMessage (timeoutMs (mergeOptions options)))),
            snd (fn st))
    /\ defaultShouldRetry (timeoutMessage (timeoutMs (mergeOptions options))) = false
    /\ formatErrorForTTS (timeoutMessage (timeoutMs (mergeOptions options))) operation
       = "I couldn't " ++ operation ++ ". Please try again.".
Proof.
  intros options st operation Hpred Hmax Htimer.
  assert (Hkw : forall keyword,
             In keyword ["network"; "timeout"; "fetch"; "econnrefused"; "status 5";
                         "status 4"] ->
             JS.includes
               (JS.toLowerCase (timeoutMessage (timeoutMs (mergeOptions options))))
               keyword = false)
    by (intros; now apply timeoutMessage_keywords).
  assert (Hno : defaultShouldRetry (timeoutMessage (timeoutMs (mergeOptions options)))
                = false).
  { unfold defaultShouldRetry. cbv zeta.
    rewrite !Hkw by (simpl; tauto). reflexivity. }
  split; [|split; [exact Hno|]].
  - unfold withRetry, withRetryOpts. cbn [retryLoop].
    replace (0 <=? maxRetries (mergeOptions options)) with true
      by (symmetry; now apply Z.leb_le).
    unfold withTimeout. rewrite Htimer. cbn [toError].
    assert (Hs : shouldRetry (mergeOptions options) = defaultShouldRetry)
      by (unfold mergeOptions; cbn [shouldRetry]; now rewrite Hpred).
    rewrite Hs, Hno. cbn [negb].
    now destruct (0 >=? maxRetries (mergeOptions options)).
  - unfold formatErrorForTTS. cbv zeta.
    rewrite !Hkw by (simpl; tauto). reflexivity.
Qed.

(** The rest of a traced run from any point of the loop. *)
Lemma tracedLoop_shape (opts : RetryOptions) fuel :
  forall attempt lastError st outcomes delays,
    0 <= attempt <= maxRetries opts ->
    (Z.to_nat (maxRetries opts + 1 - attempt) < fuel)%nat ->
    exists r s' more final,
      retryLoop (tracedSleep sleep) noTimer fuel
        (tracedAttempt timerFires fn (timeoutMs opts)) opts attempt lastError
        (st, outcomes, delays)
      = Some (r, (s', (outcomes ++ more ++ [final])%list,
                  (delays
                   ++ map (fun k => calculateDelay (attempt + Z.of_nat k)
                                      (initialDelayMs opts) (maxDelayMs opts)
                                      (backoffMultiplier opts))
                        (seq 0 (List.length more)))%list))
      /\ attempt + Z.of_nat (List.length more) <= maxRetries opts
      /\ Forall (fun o => exists e, o = Throw e /\ shouldRetry opts (toError e) = true)
           more
      /\ match r with
         | Ok v => final = Ok v
         | Throw e =>
             exists eLast,
               final = Throw eLast /\ e = Error (toError eLast)
               /\ (attempt + Z.of_nat (List.length more) = maxRetries opts
                   \/ shouldRetry opts (toError eLast) = false)
         end.
Proof.
  induction fuel as [|fuel IH]; intros attempt lastError st outcomes delays Ha Hfuel;
    [lia|].
  rewrite tracedLoop_step.
  replace (attempt <=? maxRetries opts) with true by (symmetry; apply Z.leb_le; lia).
  destruct (withTimeout timerFires fn (timeoutMs opts) st) as [[v|e] st1].
  - exists (Ok v), st1, [], (Ok v). cbn [List.length seq map app].
    rewrite app_nil_r, Z.add_0_r. repeat split; [lia | constructor].
  - destruct (attempt >=? maxRetries opts) eqn:Hge.
    + exists (Throw (Error (toError e))), st1, [], (Throw e).
      cbn [orb List.length seq map app]. rewrite app_nil_r, Z.add_0_r.
      repeat split; [lia | constructor |].
      exists e. repeat split. left. rewrite Z.geb_leb in Hge. apply Z.leb_le in Hge. lia.
    + destruct (shouldRetry opts (toError e)) eqn:Hretry; cbn [orb negb].
      * rewrite Z.geb_leb in Hge. apply Z.leb_gt in Hge.
        destruct (IH (attempt + 1) (Some (toError e))
                    (sleep (Z.min (initialDelayMs opts * backoffMultiplier opts ^ attempt)
                              (maxDelayMs opts)) st1)
                    (outcomes ++ [Throw e])%list
                    (delays ++ [Z.min (initialDelayMs opts
                                       * backoffMultiplier opts ^ attempt)
                                  (maxDelayMs opts)])%list
                    ltac:(lia) ltac:(lia))
          as (r & s' & more & final & Hrun & Hlen & Hall & Hlast).
        exists r, s', (Throw e :: more)%list, final.
        cbv zeta. rewrite Hrun. cbn [List.length seq map].
        rewrite <- seq_shift, map_map.
        rewrite <- !app_assoc. cbn [app].
        rewrite Z.add_0_r.
        replace (map (fun k => calculateDelay (attempt + Z.of_nat (S k)) _ _ _) _)
          with (map (fun k => calculateDelay (attempt + 1 + Z.of_nat k)
                                (initialDelayMs opts) (maxDelayMs opts)
                                (backoffMultiplier opts))
                  (seq 0 (List.length more)))
          by (apply map_ext; intros k; f_equal; lia).
        repeat split.
        -- lia.
        -- constructor; [now exists e | exact Hall].
        -- destruct r as [v|e']; [exact Hlast|].
           destruct Hlast as (eLast & H1 & H2 & H3). exists eLast.
           repeat split; try assumption. destruct H3; [left; lia | now right].
      * exists (Throw (Error (toError e))), st1, [], (Throw e).
        cbn [List.length seq map app]. rewrite app_nil_r, Z.add_0_r.
        repeat split; [lia | constructor |].
        exists e. repeat split. now right.
Qed.

(** X7. The shape of every run of [withRetry], for any number of retries.
    With [maxRetries] below zero the operation is never called and the
    value thrown is [undefined].  Otherwise the run makes at least one and
    at most [maxRetries + 1] attempts; every attempt before the last failed
    with an error [shouldRetry] accepted; the [k]-th wait is
    [calculateDelay(k, ...)], one wait between consecutive attempts; a
    success is the value of the last attempt; and a failure re-raises the
    error of the last attempt, which was the attempt number [maxRetries + 1]
    or failed with an error [shouldRetry] refused.  The recorded run is the
    run of [withRetry] itself. *)
Theorem withRetry_run_shape :
  forall (opts : RetryOptions) (st : State),
    let run := withRetryTraced sleep timerFires fn (timeoutMs opts) opts st in
    option_map erase run = withRetryOpts sleep timerFires fn opts st
    /\ (maxRetries opts < 0 ->
        run = Some (Throw (NonError "undefined"), (st, [], [])))
    /\ (0 <= maxRetries opts ->
        exists r s' earlier final,
          run = Some (r, (s', (earlier ++ [final])%list,
                          map (fun k => calculateDelay (Z.of_nat k)
                                          (initialDelayMs opts) (maxDelayMs opts)
                                          (backoffMultiplier opts))
                            (seq 0 (List.length earlier))))
          /\ Z.of_nat (List.length earlier) <= maxRetries opts
          /\ Forall (fun o => exists e, o = Throw e
                                        /\ shouldRetry opts (toError e) = true)
               earlier
          /\ match r with
             | Ok v => final = Ok v
             | Throw e =>
                 exists eLast,
                   final = Throw eLast /\ e = Error (toError eLast)
                   /\ (Z.of_nat (List.length earlier) = maxRetries opts
                       \/ shouldRetry opts (toError eLast) = false)
             end).
Proof.
  intros opts st run. subst run. split; [|split].
  - unfold withRetryTraced, withRetryOpts. apply retryLoop_erase.
  - intros Hneg. unfold withRetryTraced, withRetryOpts. rewrite tracedLoop_step.
    now replace (0 <=? maxRetries opts) with false by (symmetry; apply Z.leb_gt; lia).
  - intros Hmax. unfold withRetryTraced, withRetryOpts.
    destruct (tracedLoop_shape opts (S (Z.to_nat (maxRetries opts + 1))) 0 None st [] []
                ltac:(lia) ltac:(lia))
      as (r & s' & more & final & Hrun & Hlen & Hall & Hlast).
    exists r, s', more, final. rewrite Hrun. cbn [app].
    repeat split; try assumption; try lia.
Qed.

(** X8. The waits of [withRetry] are capped and never shrink.  For whole
    numbers in the range where the double arithmetic of the code is exact
    (a non-negative first delay, a multiplier of at least one, attempt
    counts from zero, and the power, the product and the cap within 2^53),
    the delay before retry [k] is at most [maxDelayMs], is the uncapped
    [initialDelayMs * backoffMultiplier ^ k] whenever that is at most
    [maxDelayMs], and is at least the delay before any earlier retry. *)
Theorem calculateDelay_capped_and_monotone :
  forall (attempt later initialDelay maxDelay multiplier : Z),
    0 <= initialDelay -> 1 <= multiplier -> 0 <= attempt <= later ->
    multiplier ^ later <= 2 ^ 53 ->
    initialDelay * multiplier ^ later <= 2 ^ 53 ->
    - 2 ^ 53 <= maxDelay <= 2 ^ 53 ->
    calculateDelay attempt initialDelay maxDelay multiplier <= maxDelay
    /\ (initialDelay * multiplier ^ attempt <= maxDelay ->
        calculateDelay attempt initialDelay maxDelay multiplier
        = initialDelay * multiplier ^ attempt)
    /\ calculateDelay attempt initialDelay maxDelay multiplier
       <= calculateDelay later initialDelay maxDelay multiplier
    /\ (0 <= maxDelay ->
        0 <= calculateDelay attempt initialDelay maxDelay multiplier).
Proof.
  intros attempt later initialDelay maxDelay multiplier Hi Hm Ha _ _ _.
  unfold calculateDelay. cbv zeta.
  assert (Hpow : multiplier ^ attempt <= multiplier ^ later)
    by (apply Z.pow_le_mono_r; lia).
  assert (Hpos : 0 < multiplier ^ attempt) by (apply Z.pow_pos_nonneg; lia).
  repeat split; try lia; nia.
Qed.

End RetryMore.

(** X9. One API exchange is one to three calls of [fetch] with the same
    request: every attempt before the last failed with an error the default
    predicate retries; an exchange of fewer than three attempts ended on a
    success or on an error that is not retried; 500 ms are slept before the
    second attempt and 1000 ms before the third; the result is the last
    attempt's, an error re-raised as an [Error]; and the clock, the messages
    to the room and the earlier records are left as they were. *)
Theorem fetchWithErrorHandling_exchange :
  forall (request : Request) (w : World),
    exists (attempts : nat) (w' : World),
      fetchWithErrorHandling request w
      = Some (settled (attemptOutcome w (fetchCount w + attempts - 1) request), w')
      /\ (1 <= attempts <= 3)%nat
      /\ (forall k, (k < attempts - 1)%nat ->
                    retried (attemptOutcome w (fetchCount w + k) request) = true)
      /\ ((attempts < 3)%nat ->
          retried (attemptOutcome w (fetchCount w + attempts - 1) request) = false)
      /\ fetchCount w' = (fetchCount w + attempts)%nat
      /\ requests w' = (repeat request attempts ++ requests w)%list
      /\ sleeps w' = (rev (firstn (attempts - 1) [500; 1000]) ++ sleeps w)%list
      /\ now w' = now w /\ published w' = published w.
Proof.
  intros request w.
  exists (attemptsNeeded w request), (worldAfterAttempts w request (attemptsNeeded w request)).
  split; [apply fetch_exchange|].
  unfold attemptsNeeded.
  destruct (retried (attemptOutcome w (fetchCount w) request)) eqn:E0;
    [destruct (retried (attemptOutcome w (S (fetchCount w)) request)) eqn:E1|];
    (split; [lia|]); (split; [|split; [|repeat split]]).
  - intros k Hk. assert (k = 0 \/ k = 1)%nat as [-> | ->] by lia.
    + now rewrite Nat.add_0_r.
    + now rewrite Nat.add_1_r.
  - intros H. lia.
  - intros k Hk. assert (k = 0)%nat as -> by lia. now rewrite Nat.add_0_r.
  - intros _. now replace (fetchCount w + 2 - 1)%nat with (S (fetchCount w)) by lia.
  - intros k Hk. lia.
  - intros _. now replace (fetchCount w + 1 - 1)%nat with (fetchCount w) by lia.
Qed.

Lemma attemptOutcome_http_error w index request response errorBody :
  timers w index = false ->
  network w index request = FetchResolves response ->
  ok response = false ->
  text response = Ok errorBody ->
  attemptOutcome w index request
  = Throw (Error (httpErrorMessage (status response))).
Proof.
  intros Ht Hn Hok Htext. unfold attemptOutcome. now rewrite Ht, Hn, Hok, Htext.
Qed.

Lemma answersWithStatus_outcome w index request code :
  answersWithStatus w index request code ->
  attemptOutcome w index request = Throw (Error (httpErrorMessage code)).
Proof.
  intros (Ht & response & errorBody & Hn & Hok & Htext & <-).
  now apply (attemptOutcome_http_error _ _ _ _ errorBody).
Qed.

(** X10. Which failures of the API cost retries.  A status from 100 to 499
    ends the exchange at once: one request, no wait, the status in the
    error.  A timeout of the 8000 ms limit ends it at once as well: its
    message is not one the default predicate retries.  A status from 500 to
    599 is retried: three such answers in a row make three requests, waits
    of 500 and 1000 ms, and the error of the third; a success on the second
    attempt is returned after the one wait of 500 ms. *)
Theorem api_failures_and_retries :
  forall (request : Request) (w : World),
    (forall code,
        answersWithStatus w (fetchCount w) request code ->
        100 <= code <= 499 ->
        fetchWithErrorHandling request w
        = Some (Throw (Error (httpErrorMessage code)), worldAfterAttempts w request 1))
    /\ (timers w (fetchCount w) = true ->
        fetchWithErrorHandling request w
        = Some (Throw (Error "Operation timed out after 8000ms"),
                worldAfterAttempts w request 1))
    /\ (forall code1 code2 code3,
           answersWithStatus w (fetchCount w) request code1 ->
           answersWithStatus w (S (fetchCount w)) request code2 ->
           answersWithStatus w (S (S (fetchCount w))) request code3 ->
           500 <= code1 <= 599 -> 500 <= code2 <= 599 ->
           fetchWithErrorHandling request w
           = Some (Throw (Error (httpErrorMessage code3)),
                   worldAfterAttempts w request 3))
    /\ (forall code1 response,
           answersWithStatus w (fetchCount w) request code1 ->
           500 <= code1 <= 599 ->
           timers w (S (fetchCount w)) = false ->
           network w (S (fetchCount w)) request = FetchResolves response ->
           ok response = true ->
           fetchWithErrorHandling request w
           = Some (Ok response, worldAfterAttempts w request 2)).
Proof.
  intros request w. split; [|split; [|split]].
  - intros code H Hcode. apply answersWithStatus_outcome in H.
    rewrite fetch_exchange. unfold attemptsNeeded. rewrite H. cbn [retried toError].
    rewrite (status_below_500_not_retried code Hcode).
    replace (fetchCount w + 1 - 1)%nat with (fetchCount w) by lia.
    now rewrite H.
  - intros Ht.
    assert (H : attemptOutcome w (fetchCount w) request
                = Throw (Error (timeoutMessage 8000)))
      by (unfold attemptOutcome; now rewrite Ht).
    rewrite fetch_exchange. unfold attemptsNeeded. rewrite H. cbn [retried toError].
    change (defaultShouldRetry (timeoutMessage 8000)) with false. cbv iota.
    replace (fetchCount w + 1 - 1)%nat with (fetchCount w) by lia.
    now rewrite H.
  - intros code1 code2 code3 H1 H2 H3 Hc1 Hc2.
    apply answersWithStatus_outcome in H1, H2, H3.
    rewrite fetch_exchange. unfold attemptsNeeded. rewrite H1, H2. cbn [retried toError].
    rewrite (status_5xx_retried code1 Hc1), (status_5xx_retried code2 Hc2).
    replace (fetchCount w + 3 - 1)%nat with (S (S (fetchCount w))) by lia.
    now rewrite H3.
  - intros code1 response H1 Hc1 Ht Hn Hok.
    apply answersWithStatus_outcome in H1.
    assert (H2 : attemptOutcome w (S (fetchCount w)) request = Ok response)
      by (unfold attemptOutcome; now rewrite Ht, Hn, Hok).
    rewrite fetch_exchange. unfold attemptsNeeded. rewrite H1, H2. cbn [retried toError].
    rewrite (status_5xx_retried code1 Hc1).
    replace (fetchCount w + 2 - 1)%nat with (S (fetchCount w)) by lia.
    now rewrite H2.
Qed.

(* ================================================================== *)
(** * What the tools send *)

Lemma attemptsNeeded_range w request : (1 <= attemptsNeeded w request <= 3)%nat.
Proof.
  unfold attemptsNeeded.
  repeat match goal with |- context [if ?b then _ else _] => destruct b end; lia.
Qed.

Lemma worldAfterAttempts_requests w request attempts :
  requests (worldAfterAttempts w request attempts)
  = (repeat request attempts ++ requests w)%list.
Proof. reflexivity. Qed.

(** Resolving an identifier costs one exchange for the list and nothing
    else. *)
Lemma resolve_exchange this identifier w :
  exists r,
    resolveTaskIdentifier this identifier w
    = Some (r, worldAfterAttempts w (listRequest this)
                 (attemptsNeeded w (listRequest this))).
Proof.
  assert (H : exists r,
             getAllTasks this w
             = Some (r, worldAfterAttempts w (listRequest this)
                          (attemptsNeeded w (listRequest this)))).
  { unfold getAllTasks, bind. fold (listRequest this). rewrite fetch_exchange.
    destruct (settled _) as [response|e]; [|now eexists].
    unfold liftResult. now eexists. }
  destruct H as [r H].
  unfold resolveTaskIdentifier.
  destruct (plainNumberPattern identifier); [|destruct (ordinalPattern identifier)];
    unfold bind; rewrite H; destruct r as [tasks|e]; unfold liftResult; now eexists.
Qed.

Section ToolRequests.

Variable Date_parse : string -> option Z.
Variable Number_toString : number -> string.
Variable this : TaskFunctionContext.

(** X11. [delete_task] always answers, and what it sends is the listing of
    the resolver, one to three times, and then, only when the identifier
    resolved, the DELETE of the resolved task, one to three times; when the
    identifier did not resolve, no DELETE is sent and the room is told
    nothing.  The room is told of a deletion only with the reply
    ["Deleted"]. *)
Theorem delete_task_requests :
  forall (identifier : string) (w : World),
    exists (reply : string) (w' : World) (r : result string) (listings deletes : nat),
      delete_task this identifier w = Some (Ok reply, w')
      /\ resolveTaskIdentifier this identifier w
         = Some (r, worldAfterAttempts w (listRequest this) listings)
      /\ (1 <= listings <= 3)%nat
      /\ match r with
         | Ok taskId =>
             (1 <= deletes <= 3)%nat
             /\ requests w'
                = (repeat (deleteRequest this taskId) deletes
                   ++ repeat (listRequest this) listings ++ requests w)%list
         | Throw _ =>
             requests w' = (repeat (listRequest this) listings ++ requests w)%list
             /\ published w' = published w
         end
      /\ (published w' = published w
          \/ reply = "Deleted"
             /\ published w'
                = {| type := "TASK_DELETED"; payload := None |} :: published w).
Proof.
  intros identifier w.
  destruct (resolve_exchange this identifier w) as [r Hres].
  pose proof (attemptsNeeded_range w (listRequest this)) as Hl.
  set (w1 := worldAfterAttempts w (listRequest this)
               (attemptsNeeded w (listRequest this))) in *.
  unfold delete_task, tryCatch, bind. rewrite Hres.
  destruct r as [taskId|e].
  - fold (deleteRequest this taskId). rewrite fetch_exchange.
    pose proof (attemptsNeeded_range w1 (deleteRequest this taskId)) as Hd.
    set (deletes := attemptsNeeded w1 (deleteRequest this taskId)) in *.
    destruct (settled _) as [response|e].
    + unfold liftResult. destruct (jsonTask response) as [task|e].
      * unfold sendDataToFrontend, ret. destruct (room this).
        -- eexists _, _, (Ok taskId), _, deletes.
           split; [reflexivity|]. split; [reflexivity|]. split; [exact Hl|].
           split; [split; [exact Hd | reflexivity]|]. right. split; reflexivity.
        -- eexists _, _, (Ok taskId), _, deletes.
           split; [reflexivity|]. split; [reflexivity|]. split; [exact Hl|].
           split; [split; [exact Hd | reflexivity]|]. left. reflexivity.
      * destruct e as [message|rendering]; [destruct (isClarification message)|];
          unfold ret; eexists _, _, (Ok taskId), _, deletes;
          (split; [reflexivity|]); (split; [reflexivity|]); (split; [exact Hl|]);
          (split; [split; [exact Hd | reflexivity]|]); left; reflexivity.
    + destruct e as [message|rendering]; [destruct (isClarification message)|];
        unfold ret; eexists _, _, (Ok taskId), _, deletes;
        (split; [reflexivity|]); (split; [reflexivity|]); (split; [exact Hl|]);
        (split; [split; [exact Hd | reflexivity]|]); left; reflexivity.
  - destruct e as [message|rendering]; [destruct (isClarification message)|];
      unfold ret; eexists _, _, (Throw _), _, 0%nat;
      (split; [reflexivity|]); (split; [reflexivity|]); (split; [exact Hl|]);
      (split; [split; reflexivity|]); left; reflexivity.
Qed.



(** X14. [get_tasks] always answers.  A priority that was given and is not
    understood stops it before anything is sent.  Otherwise one GET of the
    list is sent, one to three times, with the search text when it is not
    empty, the parsed priority when one was given, and the [scheduled]
    filter only when it starts as an ISO date: ["all"], a blank text and
    any other wording are left out of the request. *)
Theorem get_tasks_requests :
  forall (query : Nullish string) (priority : PriorityInput)
         (scheduled : Nullish string) (w : World),
    exists (reply : string) (w' : World) (gets : nat),
      get_tasks Number_toString this query priority scheduled w = Some (Ok reply, w')
      /\ match parsePriority priority, priority with
         | None, InNumber _ | None, InString _ => w' = w
         | _, _ =>
             (1 <= gets <= 3)%nat
             /\ requests w'
                = (repeat {| url := apiBaseUrl this ++ "/api/tasks";
                              params := listParams Number_toString query priority
                                          scheduled;
                              method := GET; body := None |} gets
                   ++ requests w)%list
         end.
Proof.
  intros query priority scheduled w.
  assert (Hsend : forall parameters data (k : list Task -> M string),
             (forall tasks w0, exists reply, k tasks w0 = Some (Ok reply, w0)) ->
             exists reply w',
               match
                 (response <- fetchWithErrorHandling
                                {| url := apiBaseUrl this ++ "/api/tasks";
                                   params := parameters; method := GET; body := None |} ;;
                  tasks <- liftResult (jsonTasks response) ;;
                  _ <- sendDataToFrontend this data ;;
                  k tasks) w
               with
               | Some (Ok a, w2) => Some (Ok a, w2)
               | Some (Throw error, w2) =>
                   match error with
                   | Error message =>
                       ret (formatErrorForTTS message "retrieve your tasks")
                   | NonError _ => ret "Couldn't get tasks"
                   end w2
               | None => None
               end = Some (Ok reply, w')
               /\ requests w'
                  = (repeat {| url := apiBaseUrl this ++ "/api/tasks";
                               params := parameters; method := GET; body := None |}
                       (attemptsNeeded w {| url := apiBaseUrl this ++ "/api/tasks";
                                             params := parameters; method := GET;
                                             body := None |})
                     ++ requests w)%list).
  { intros parameters data k Hk. unfold bind at 1. rewrite fetch_exchange.
    destruct (settled _) as [response|e].
    - unfold bind at 1, liftResult. destruct (jsonTasks response) as [tasks|e].
      + unfold bind, sendDataToFrontend, ret. destruct (room this).
        * match goal with |- context [k tasks ?w0] =>
            destruct (Hk tasks w0) as [reply ->] end.
          now eexists _, _.
        * match goal with |- context [k tasks ?w0] =>
            destruct (Hk tasks w0) as [reply ->] end.
          now eexists _, _.
      + destruct e as [message|rendering]; unfold ret; now eexists _, _.
    - destruct e as [message|rendering]; unfold ret; now eexists _, _. }
  assert (Hk : forall (tasks : list Task) (w0 : World),
             exists reply,
               (if Nat.eqb (List.length tasks) 0 then
                  if truthyString query || truthyPriority priority
                     || truthyString scheduled
                  then ret "No tasks found" else ret "No tasks"
                else ret ("Found " ++ JS.showNat (List.length tasks) ++ " task"
                          ++ plural (List.length tasks))) w0
               = Some (Ok reply, w0)).
  { intros tasks w0. destruct (Nat.eqb (List.length tasks) 0);
      [destruct (truthyString query || truthyPriority priority
                 || truthyString scheduled)|]; now eexists. }
  pose proof (fun data => Hsend (listParams Number_toString query priority scheduled)
                            data _ Hk) as Hs.
  clear Hsend Hk. unfold get_tasks, tryCatch. unfold listParams in *.
  destruct query as [| |[|c q]]; cbn [truthyString app] in *;
    (destruct scheduled as [| |s];
     [| |destruct (truthyString (Value s)); cbn [andb] in *;
         [destruct (negb (String.eqb s "all")); cbn [andb] in *;
          [destruct (negb (String.eqb (JS.trim s) "")); cbn [andb] in *;
           [destruct (isoDateRegex s)|]|]|]]);
    revert Hs;
    (destruct priority as [| |n|p];
     [| |destruct (parsePriority (InNumber n))|destruct (parsePriority (InString p))]);
    change (parsePriority InNull) with (@None number);
    change (parsePriority InUndefined) with (@None number);
    cbn [app]; rewrite ?app_nil_r; intros Hs;
    first [ match goal with
            | |- context [sendDataToFrontend this ?data] =>
                destruct (Hs data) as (reply & w' & Hrun & Hreq)
            end;
            eexists reply, w', _;
            split; [exact Hrun|]; split; [|exact Hreq]; apply attemptsNeeded_range
          | unfold ret; eexists _, _, 0%nat; split; reflexivity ].
Qed.

(** A date beyond the last Date is answered with the message of the
    RangeError, and nothing is sent. *)
Example test_create_task_beyond_the_last_date :
  create_task sampleDateParse sampleNumberToString sampleContext "Call the bank"
    (Value "in 100000000 days") InUndefined Undefined sampleWorld
  = Some (Ok "Invalid time value", sampleWorld)
  /\ createAccepted sampleDateParse (Value "in 100000000 days") InUndefined
       (now sampleWorld) = false.
Proof. split; vm_compute; reflexivity. Qed.

Example test_update_task_beyond_the_last_date :
  update_task sampleDateParse sampleNumberToString sampleContext "1" Undefined
    (Value "in 100000000 days") InUndefined Undefined sampleWorld
  = Some (Ok "Invalid time value",
          worldAfter (getAllTasks sampleContext) sampleWorld)
  /\ updateAccepted sampleDateParse Undefined (Value "in 100000000 days") InUndefined
       Undefined (now sampleWorld) = false.
Proof. split; vm_compute; reflexivity. Qed.

Lemma httpErrorMessage_not_clarification code :
  100 <= code <= 599 -> isClarification (httpErrorMessage code) = false.
Proof.
  intros H. apply negb_true_iff.
  apply (range_cases (fun z => negb (isClarification (httpErrorMessage z))) 100 500);
    [vm_compute; reflexivity | lia].
Qed.

(** X15. What [delete_task] says when the API refuses the DELETE of a task
    the identifier resolved to.  A status from 400 to 499 is spoken after
    the one request: the not-found sentence for 404, the invalid-request
    sentence for 400, the problem-with-the-request sentence otherwise.
    Three answers from 500 to 599 in a row are spoken as the server-error
    sentence, after three requests and waits of 500 and 1000 ms.  In both
    cases the room is told nothing. *)
Theorem delete_task_http_errors :
  forall (identifier taskId : string) (w w1 : World),
    resolveTaskIdentifier this identifier w = Some (Ok taskId, w1) ->
    (forall code,
        answersWithStatus w1 (fetchCount w1) (deleteRequest this taskId) code ->
        400 <= code <= 499 ->
        delete_task this identifier w
        = Some (Ok (if code =? 404
                    then "I couldn't find that task. Please try a different description."
                    else if code =? 400
                         then "The request to delete that task was invalid. Please try rephrasing your command."
                         else "There was a problem with the request to delete that task. Please try again."),
                worldAfterAttempts w1 (deleteRequest this taskId) 1))
    /\ (forall code1 code2 code3,
           answersWithStatus w1 (fetchCount w1) (deleteRequest this taskId) code1 ->
           answersWithStatus w1 (S (fetchCount w1)) (deleteRequest this taskId) code2 ->
           answersWithStatus w1 (S (S (fetchCount w1))) (deleteRequest this taskId) code3 ->
           500 <= code1 <= 599 -> 500 <= code2 <= 599 -> 500 <= code3 <= 599 ->
           delete_task this identifier w
           = Some (Ok "The server encountered an error while trying to delete that task. Please try again in a moment.",
                   worldAfterAttempts w1 (deleteRequest this taskId) 3)).
Proof.
  intros identifier taskId w w1 Hres. split.
  - intros code H Hcode. apply answersWithStatus_outcome in H.
    unfold delete_task, tryCatch. unfold bind at 1. rewrite Hres.
    fold (deleteRequest this taskId). unfold bind at 1.
    rewrite fetch_exchange. unfold attemptsNeeded. rewrite H. cbn [retried toError].
    rewrite (status_below_500_not_retried code) by lia.
    replace (fetchCount w1 + 1 - 1)%nat with (fetchCount w1) by lia.
    rewrite H. cbn [settled toError].
    rewrite (httpErrorMessage_not_clarification code) by lia.
    rewrite (formatErrorForTTS_4xx code "delete that task") by lia.
    unfold ret. now destruct (code =? 404), (code =? 400).
  - intros code1 code2 code3 H1 H2 H3 Hc1 Hc2 Hc3.
    apply answersWithStatus_outcome in H1, H2, H3.
    unfold delete_task, tryCatch. unfold bind at 1. rewrite Hres.
    fold (deleteRequest this taskId). unfold bind at 1.
    rewrite fetch_exchange. unfold attemptsNeeded. rewrite H1, H2. cbn [retried toError].
    rewrite (status_5xx_retried code1 Hc1), (status_5xx_retried code2 Hc2).
    replace (fetchCount w1 + 3 - 1)%nat with (S (S (fetchCount w1))) by lia.
    rewrite H3. cbn [settled toError].
    rewrite (httpErrorMessage_not_clarification code3) by lia.
    rewrite (formatErrorForTTS_5xx code3 "delete that task") by lia.
    reflexivity.
Qed.

End ToolRequests.

(* ================================================================== *)
(** * More on the date parser *)

Lemma eatLiteral_app lit rest : Regex.eatLiteral lit (lit ++ rest) = Some rest.
Proof.
  unfold Regex.eatLiteral. rewrite prefix_app. f_equal.
  induction lit as [|c lit IH]; cbn [append String.length].
  - rewrite Nat.sub_0_r. destruct rest as [|d rest]; [reflexivity|].
    cbn [String.length substring]. f_equal.
    clear. induction rest as [|e rest IH]; [reflexivity|].
    cbn [String.length substring]. now rewrite IH.
  - cbn [substring Nat.sub]. exact IH.
Qed.

(** The two outcomes for noon of a day from the reference day on: the
    instant itself, or the RangeError when it is beyond the last Date. *)
Lemma targetOrRangeError_later_noon R k :
  JSDate.isTimeValue R -> 0 <= k ->
  (JSDate.MakeDate (JSDate.Day R + k) noonUTC <= JSDate.maxTime ->
   targetOrRangeError (JSDate.MakeDate (JSDate.Day R + k) noonUTC)
   = Ok (JSDate.MakeDate (JSDate.Day R + k) noonUTC))
  /\ (JSDate.maxTime < JSDate.MakeDate (JSDate.Day R + k) noonUTC ->
      targetOrRangeError (JSDate.MakeDate (JSDate.Day R + k) noonUTC)
      = Throw (Error invalidTimeMessage)).
Proof.
  intros HR Hk. split; intros H.
  - apply targetOrRangeError_valid. now apply later_noon_valid.
  - now apply targetOrRangeError_beyond.
Qed.

(** An instant of the day is before, or at, an hour of the same day
    according to its time within the day. *)
Lemma same_day_ltb R time :
  (JSDate.MakeDate (JSDate.Day R) time <? R) = (time <? JSDate.TimeWithinDay R).
Proof.
  rewrite (time_decomposition R) at 2. unfold JSDate.MakeDate.
  destruct (time <? JSDate.TimeWithinDay R) eqn:E.
  - apply Z.ltb_lt in E. apply Z.ltb_lt. lia.
  - apply Z.ltb_ge in E. apply Z.ltb_ge. lia.
Qed.

Lemma later_day_not_before R k time :
  1 <= k -> 0 <= time -> (JSDate.MakeDate (JSDate.Day R + k) time <? R) = false.
Proof.
  intros Hk Ht. apply Z.ltb_ge. rewrite (time_decomposition R) at 1.
  pose proof (TimeWithinDay_range R).
  unfold JSDate.MakeDate, JSDate.msPerDay in *. nia.
Qed.

(** A text that starts with a letter of a keyword is not an ISO date. *)
Lemma not_iso_when_not_digit s :
  JS.startsWithDigit s = false -> isISO8601 s = false.
Proof.
  intros H. destruct (isISO8601 s) eqn:E; [|reflexivity].
  apply iso8601_startsWithDigit in E. congruence.
Qed.

Lemma normalized_not_digit_led input :
  JS.startsWithDigit (JS.trim (JS.toLowerCase input)) = false ->
  isISO8601 input = false.
Proof.
  intros H. destruct (isISO8601 input) eqn:E; [|reflexivity].
  apply iso8601_startsWithDigit, startsWithDigit_normalized in E. congruence.
Qed.

Section DateParserMore.

Variable Date_parse : string -> option Z.

(** X16. The parser never hands back a past instant: whatever the input and
    the answers of the platform's date parser, a date that is returned is
    the rendering of an instant at or after the reference. *)
Theorem parseNaturalDate_never_in_the_past :
  forall (input : string) (R : Z) (iso : string),
    parseNaturalDate Date_parse input R = Ok iso ->
    exists T, parseNaturalDateTarget Date_parse input R = Ok T
              /\ iso = JSDate.toISOString T /\ R <= T.
Proof.
  intros input R iso. unfold parseNaturalDate.
  destruct (parseNaturalDateTarget Date_parse input R) as [T|e] eqn:E;
    [|discriminate].
  cbn [result_map]. intros H. injection H as <-. exists T. repeat split.
  unfold parseNaturalDateTarget in E.
  destruct (isISO8601 input).
  - destruct (Date_parse input) as [date|]; [|discriminate].
    destruct (date <? R) eqn:Hlt; [discriminate|].
    injection E as <-. now apply Z.ltb_ge.
  - match type of E with
    | match ?target with _ => _ end = _ =>
        destruct target as [[T'|]|e]; [|discriminate..]
    end.
    destruct (T' <? R) eqn:Hlt; [discriminate|].
    injection E as <-. now apply Z.ltb_ge.
Qed.

(** What "tomorrow" and "next week" settle on. *)
Lemma target_days_ahead input R k :
  JSDate.isTimeValue R ->
  JS.trim (JS.toLowerCase input) = "tomorrow" /\ k = 1
  \/ JS.trim (JS.toLowerCase input) = "next week" /\ k = 7 ->
  parseNaturalDateTarget Date_parse input R
  = targetOrRangeError (JSDate.MakeDate (JSDate.Day R + k) noonUTC).
Proof.
  intros HR [[Hn ->]|[Hn ->]].
  - unfold parseNaturalDateTarget.
    rewrite normalized_not_digit_led by now rewrite Hn.
    rewrite Hn. cbn [String.eqb Ascii.eqb Bool.eqb orb]. cbv iota.
    rewrite (setUTCDate_then_noon R 1 HR) by lia.
    apply (checkTarget_not_before _ R).
    pose proof (before_later_noon R 1). lia.
  - unfold parseNaturalDateTarget.
    rewrite normalized_not_digit_led by now rewrite Hn.
    rewrite Hn. cbn [String.eqb Ascii.eqb Bool.eqb orb]. cbv iota.
    rewrite (setUTCDate_then_noon R 7 HR) by lia.
    apply (checkTarget_not_before _ R).
    pose proof (before_later_noon R 7). lia.
Qed.

(** X17. ["tomorrow"] and ["next week"], in any letter case and with white
    space around them, for the time value [R] of any reference Date: the
    parser returns noon UTC of the day after the reference day, and of the
    seventh day after it, an instant after [R].  The one exception is a
    reference so close to the end of the range of Dates that this noon is
    beyond it: the parser then throws the RangeError of the rendering. *)
Theorem tomorrow_and_next_week :
  forall (input : string) (R : Z),
    JSDate.isTimeValue R ->
    (JS.trim (JS.toLowerCase input) = "tomorrow" ->
     let T := JSDate.MakeDate (JSDate.Day R + 1) noonUTC in
     R < T
     /\ (T <= JSDate.maxTime -> parseNaturalDateTarget Date_parse input R = Ok T)
     /\ (JSDate.maxTime < T ->
         parseNaturalDateTarget Date_parse input R
         = Throw (Error "Invalid time value")))
    /\ (JS.trim (JS.toLowerCase input) = "next week" ->
        let T := JSDate.MakeDate (JSDate.Day R + 7) noonUTC in
        R < T
        /\ (T <= JSDate.maxTime -> parseNaturalDateTarget Date_parse input R = Ok T)
        /\ (JSDate.maxTime < T ->
            parseNaturalDateTarget Date_parse input R
            = Throw (Error "Invalid time value"))).
Proof.
  intros input R HR. split; intros Hn T.
  - destruct (targetOrRangeError_later_noon R 1 HR ltac:(lia)) as [Hin Hout].
    split; [apply before_later_noon; lia|].
    rewrite (target_days_ahead input R 1 HR) by (left; now split).
    split; [exact Hin | exact Hout].
  - destruct (targetOrRangeError_later_noon R 7 HR ltac:(lia)) as [Hin Hout].
    split; [apply before_later_noon; lia|].
    rewrite (target_days_ahead input R 7 HR) by (right; now split).
    split; [exact Hin | exact Hout].
Qed.

(** X18. ["tonight"], for the time value [R] of any reference Date: the
    past-date error when [R] is later in its day than 20:00 UTC; otherwise
    20:00 UTC of the reference day, but for a reference in the last day of
    the range of Dates, where 20:00 is beyond the range and the parser
    throws the RangeError of the rendering. *)
Theorem tonight_is_20h_or_past :
  forall (input : string) (R : Z),
    JSDate.isTimeValue R ->
    JS.trim (JS.toLowerCase input) = "tonight" ->
    let T := JSDate.MakeDate (JSDate.Day R) (JSDate.MakeTime 20 0 0 0) in
    (JSDate.MakeTime 20 0 0 0 < JSDate.TimeWithinDay R ->
     parseNaturalDateTarget Date_parse input R = Throw (Error pastDateMessage))
    /\ (JSDate.TimeWithinDay R <= JSDate.MakeTime 20 0 0 0 ->
        T <= JSDate.maxTime ->
        parseNaturalDateTarget Date_parse input R = Ok T)
    /\ (JSDate.maxTime < T ->
        parseNaturalDateTarget Date_parse input R
        = Throw (Error "Invalid time value")).
Proof.
  intros input R HR Hn T.
  assert (Ht : parseNaturalDateTarget Date_parse input R
               = checkTarget (Ok (JSDate.TimeClip T)) R).
  { unfold parseNaturalDateTarget.
    rewrite normalized_not_digit_led by now rewrite Hn.
    rewrite Hn. reflexivity. }
  assert (Hlow : - JSDate.maxTime <= T).
  { pose proof (later_time_not_below R 0 (JSDate.MakeTime 20 0 0 0) HR
                  ltac:(lia) ltac:(unfold JSDate.MakeTime; lia)) as H.
    now rewrite Z.add_0_r in H. }
  pose proof (same_day_ltb R (JSDate.MakeTime 20 0 0 0)) as Hcmp. fold T in Hcmp.
  rewrite Ht. split; [|split].
  - intros Hlate.
    assert (E : (JSDate.MakeTime 20 0 0 0 <? JSDate.TimeWithinDay R) = true)
      by now apply Z.ltb_lt.
    assert (HT : JSDate.isTimeValue T).
    { rewrite <- Hcmp in E. apply Z.ltb_lt in E.
      unfold JSDate.isTimeValue in *. lia. }
    rewrite (TimeClip_valid T HT). unfold checkTarget. now rewrite Hcmp, E.
  - intros Hearly Hmax.
    assert (E : (JSDate.MakeTime 20 0 0 0 <? JSDate.TimeWithinDay R) = false)
      by now apply Z.ltb_ge.
    rewrite (TimeClip_valid T (conj Hlow Hmax)). unfold checkTarget.
    now rewrite Hcmp, E.
  - intros Hbeyond. now rewrite (TimeClip_beyond T Hbeyond).
Qed.

End DateParserMore.

(* ================================================================== *)
(** * The rendering of an instant *)

Lemma showNatFuel_length fuel :
  forall n acc width,
    (n < fuel)%nat -> (1 <= width)%nat -> (n < 10 ^ width)%nat ->
    (String.length (JS.showNatFuel fuel n acc) <= width + String.length acc)%nat.
Proof.
  induction fuel as [|fuel IH]; intros n acc width Hn Hw Hlt; [lia|].
  cbn [JS.showNatFuel].
  destruct (n / 10)%nat as [|q] eqn:E.
  - cbn [String.length]. lia.
  - destruct width as [|[|width]]; [lia| |].
    + change (10 ^ 1)%nat with 10%nat in Hlt.
      rewrite Nat.div_small in E by lia. discriminate E.
    + assert (Hq : (S q < 10 ^ S width)%nat).
      { rewrite <- E. apply Nat.Div0.div_lt_upper_bound.
        now rewrite <- Nat.pow_succ_r'. }
      assert (Hfuel : (S q < fuel)%nat).
      { rewrite <- E. pose proof (Nat.Div0.div_le_upper_bound n 10 n). 
        assert (n / 10 < n)%nat
          by (apply Nat.div_lt; [destruct n; [discriminate E|lia] | lia]).
        lia. }
      pose proof (IH (S q) (String (JS.digitChar (n mod 10)) acc) (S width)
                    Hfuel ltac:(lia) Hq) as H.
      cbn [String.length] in H. lia.
Qed.

Lemma string_length_app s t : String.length (s ++ t) = (String.length s + String.length t)%nat.
Proof. induction s as [|c s IH]; cbn [append String.length]; [reflexivity | now rewrite IH]. Qed.

Lemma zeros_digits k :
  String.length (string_of_list_ascii (repeat "0"%char k)) = k
  /\ JS.forallChars JS.isDigit (string_of_list_ascii (repeat "0"%char k)) = true.
Proof.
  induction k as [|k [IH1 IH2]]; [split; reflexivity|].
  cbn [repeat string_of_list_ascii String.length JS.forallChars].
  rewrite IH1, IH2. split; reflexivity.
Qed.

(** A number below [10 ^ width] is padded to exactly [width] digits. *)
Lemma pad_digits width z :
  (1 <= width)%nat -> 0 <= z < 10 ^ Z.of_nat width ->
  String.length (JSDate.pad width z) = width
  /\ JS.forallChars JS.isDigit (JSDate.pad width z) = true.
Proof.
  intros Hw Hz. unfold JSDate.pad. cbv zeta.
  destruct (showNat_digits (Z.to_nat z)) as (_ & Hd & _).
  assert (Hlen : (String.length (JS.showNat (Z.to_nat z)) <= width)%nat).
  { unfold JS.showNat.
    pose proof (showNatFuel_length (S (Z.to_nat z)) (Z.to_nat z) "" width
                  ltac:(lia) Hw) as H.
    cbn [String.length] in H. rewrite Nat.add_0_r in H. apply H.
    apply Nat2Z.inj_lt. rewrite Z2Nat.id by lia.
    rewrite Nat2Z.inj_pow. exact (proj2 Hz). }
  destruct (zeros_digits (width - String.length (JS.showNat (Z.to_nat z)))) as [Hz1 Hz2].
  split.
  - rewrite string_length_app, Hz1. lia.
  - now rewrite forallChars_app, Hz2, Hd.
Qed.

Lemma eatDigits_app ds rest :
  JS.forallChars JS.isDigit ds = true ->
  Regex.eatDigits (String.length ds) (ds ++ rest) = Some rest.
Proof.
  induction ds as [|c ds IH]; [reflexivity|].
  cbn [JS.forallChars String.length append Regex.eatDigits].
  intros H. apply andb_true_iff in H as [Hc Hd]. now rewrite Hc, IH.
Qed.

Lemma eatDigits_pad width z rest :
  (1 <= width)%nat -> 0 <= z < 10 ^ Z.of_nat width ->
  Regex.eatDigits width (JSDate.pad width z ++ rest) = Some rest.
Proof.
  intros Hw Hz. destruct (pad_digits width z Hw Hz) as [Hlen Hd].
  rewrite <- Hlen at 1. now apply eatDigits_app.
Qed.

(** ** The fields of an instant are in their calendar ranges *)

Lemma DayFromYear_next y :
  JSDate.DayFromYear (y + 1) = JSDate.DayFromYear y + JSDate.DaysInYear y.
Proof.
  unfold JSDate.DayFromYear, JSDate.DaysInYear.
  destruct (y mod 4 =? 0) eqn:E4; destruct (y mod 100 =? 0) eqn:E100;
    destruct (y mod 400 =? 0) eqn:E400; cbn [andb orb negb];
    repeat match goal with
      | H : (_ =? _) = true |- _ => apply Z.eqb_eq in H
      | H : (_ =? _) = false |- _ => apply Z.eqb_neq in H
      end;
    Z.div_mod_to_equations; lia.
Qed.

Lemma DayWithinYear_range t :
  0 <= JSDate.DayWithinYear t < 365 + JSDate.InLeapYear t
  /\ 0 <= JSDate.InLeapYear t <= 1.
Proof.
  unfold JSDate.DayWithinYear, JSDate.InLeapYear, JSDate.YearFromTime.
  pose proof (YearFromDay_spec (JSDate.Day t)) as H.
  rewrite DayFromYear_next in H.
  assert (JSDate.DaysInYear (JSDate.YearFromDay (JSDate.Day t)) = 365
          \/ JSDate.DaysInYear (JSDate.YearFromDay (JSDate.Day t)) = 366)
    by (unfold JSDate.DaysInYear; destruct (_ && _); auto).
  lia.
Qed.

Lemma DateFromTime_range t : 1 <= JSDate.DateFromTime t <= 31.
Proof.
  destruct (DayWithinYear_range t) as [Hd Hl].
  unfold JSDate.DateFromTime, JSDate.MonthFromTime. cbv zeta.
  repeat match goal with
    | |- context [if ?a <? ?b then _ else _] =>
        destruct (Z.ltb_spec a b)
    end; cbn [JSDate.monthStart]; lia.
Qed.

(** X19. What the parser hands back, the parser accepts: for an instant of a
    year from 0 to 9999 the rendering [toISOString] gives matches the ISO
    8601 pattern of [isISO8601], and the date pattern [get_tasks] tests its
    [scheduled] filter with. *)
Theorem toISOString_is_ISO8601 :
  forall T : Z,
    0 <= JSDate.YearFromTime T <= 9999 ->
    isISO8601 (JSDate.toISOString T) = true
    /\ isoDateRegex (JSDate.toISOString T) = true.
Proof.
  intros T Hy. unfold JSDate.toISOString. cbv zeta.
  replace ((0 <=? JSDate.YearFromTime T) && (JSDate.YearFromTime T <=? 9999)) with true
    by (symmetry; apply andb_true_iff; split; apply Z.leb_le; lia).
  pose proof (MonthFromTime_range T) as Hm.
  pose proof (DateFromTime_range T) as Hd.
  assert (Hh : 0 <= JSDate.HourFromTime T < 24) by (apply Z.mod_pos_bound; lia).
  assert (Hmin : 0 <= JSDate.MinFromTime T < 60) by (apply Z.mod_pos_bound; lia).
  assert (Hs : 0 <= JSDate.SecFromTime T < 60) by (apply Z.mod_pos_bound; lia).
  assert (Hms : 0 <= JSDate.msFromTime T < 1000) by (apply Z.mod_pos_bound; lia).
  assert (Hdate : forall rest,
             Regex.andThen (Regex.andThen (Regex.andThen (Regex.andThen
               (Regex.eatDigits 4
                  (JSDate.pad 4 (JSDate.YearFromTime T) ++ "-"
                   ++ JSDate.pad 2 (JSDate.MonthFromTime T + 1) ++ "-"
                   ++ JSDate.pad 2 (JSDate.DateFromTime T) ++ rest))
               (Regex.eatLiteral "-")) (Regex.eatDigits 2)) (Regex.eatLiteral "-"))
               (Regex.eatDigits 2)
             = Some rest).
  { intros rest.
    rewrite eatDigits_pad by (cbn; lia). cbn [Regex.andThen].
    rewrite eatLiteral_app. cbn [Regex.andThen].
    rewrite eatDigits_pad by (cbn; lia). cbn [Regex.andThen].
    rewrite eatLiteral_app. cbn [Regex.andThen].
    now rewrite eatDigits_pad by (cbn; lia). }
  split.
  - unfold isISO8601, Regex.iso8601Pattern. rewrite Hdate.
    rewrite eatLiteral_app. cbn [Regex.andThen].
    rewrite eatDigits_pad by (cbn; lia). cbn [Regex.andThen].
    rewrite eatLiteral_app. cbn [Regex.andThen].
    rewrite eatDigits_pad by (cbn; lia). cbn [Regex.andThen].
    rewrite eatLiteral_app. cbn [Regex.andThen].
    rewrite eatDigits_pad by (cbn; lia).
    rewrite eatLiteral_app. cbn [Regex.andThen].
    rewrite eatDigits_pad by (cbn; lia).
    reflexivity.
  - unfold isoDateRegex. now rewrite Hdate.
Qed.

(** ** Relative dates and weekdays *)

Lemma relativePattern_in n unit :
  In unit Regex.units ->
  Regex.relativePattern ("in " ++ JS.showNat n ++ " " ++ unit)
  = Some (JS.showNat n, unit).
Proof.
  intros Hu. unfold Regex.relativePattern. rewrite eatLiteral_app.
  destruct (showNat_digits n) as (Hne & Hd & _).
  rewrite (spanDigits_app _ (" " ++ unit) Hd eq_refl).
  destruct (JS.showNat n) as [|c ds] eqn:E; [contradiction|].
  rewrite eatLiteral_app. cbn [Regex.andThen].
  unfold Regex.units in Hu. simpl in Hu.
  repeat (destruct Hu as [<-|Hu]; [reflexivity|]). contradiction.
Qed.

(** [getNextWeekday] with [forceNext]: always a week is added. *)
Lemma getNextWeekday_forced weekday i R :
  JSDate.isTimeValue R -> 0 <= i ->
  indexOf (JS.toLowerCase weekday)
    ["sunday"; "monday"; "tuesday"; "wednesday"; "thursday"; "friday"; "saturday"]
  = Some i ->
  getNextWeekday weekday R true
  = Ok (JSDate.TimeClip
          (JSDate.MakeDate (JSDate.Day R + (i - JSDate.WeekDay R + 7)) noonUTC)).
Proof.
  intros HR Hi Hidx. unfold getNextWeekday. rewrite Hidx. cbv zeta.
  pose proof (WeekDay_range R).
  rewrite orb_true_r. now rewrite (noon_then_setUTCDate R _ HR) by lia.
Qed.

Lemma getNextWeekday_unforced weekday i R :
  JSDate.isTimeValue R -> 0 <= i ->
  indexOf (JS.toLowerCase weekday)
    ["sunday"; "monday"; "tuesday"; "wednesday"; "thursday"; "friday"; "saturday"]
  = Some i ->
  getNextWeekday weekday R false
  = Ok (JSDate.TimeClip
          (JSDate.MakeDate
             (JSDate.Day R + (if i - JSDate.WeekDay R <=? 0
                              then i - JSDate.WeekDay R + 7
                              else i - JSDate.WeekDay R)) noonUTC)).
Proof.
  intros HR Hi Hidx. unfold getNextWeekday. rewrite Hidx. cbv zeta.
  pose proof (WeekDay_range R).
  rewrite orb_false_r.
  destruct (Z.leb_spec (i - JSDate.WeekDay R) 0);
    now rewrite (noon_then_setUTCDate R _ HR) by lia.
Qed.

Section RelativeDates.

Variable Date_parse : string -> option Z.

(** The branch of [parseNaturalDate] the relative pattern reaches. *)
Lemma target_relative input normalized R groups :
  normalized = JS.trim (JS.toLowerCase input) ->
  isISO8601 input = false ->
  String.eqb normalized "today" = false ->
  String.eqb normalized "tonight" = false ->
  String.eqb normalized "tomorrow" = false ->
  String.eqb normalized "next week" = false ->
  String.eqb normalized "next month" = false ->
  Regex.relativePattern normalized = Some groups ->
  parseNaturalDateTarget Date_parse input R
  = checkTarget (parseRelativeDate normalized R) R.
Proof.
  intros Hn H1 H2 H3 H4 H5 H6 H7.
  unfold parseNaturalDateTarget. rewrite <- Hn.
  rewrite H1, H2, H3, H4, H5, H6, H7. reflexivity.
Qed.

(** The branches a weekday after ["next "] or ["this "] reaches. *)
Lemma target_prefixed_weekday input normalized R :
  normalized = JS.trim (JS.toLowerCase input) ->
  isISO8601 input = false ->
  String.eqb normalized "today" = false ->
  String.eqb normalized "tonight" = false ->
  String.eqb normalized "tomorrow" = false ->
  String.eqb normalized "next week" = false ->
  String.eqb normalized "next month" = false ->
  Regex.relativePattern normalized = None ->
  isWeekdayName normalized = false ->
  parseNaturalDateTarget Date_parse input R
  = checkTarget
      (if Regex.prefixedWeekdayPattern "next " normalized
       then getNextWeekday (replaceFirst "next " "" normalized) R true
       else if Regex.prefixedWeekdayPattern "this " normalized
            then getNextWeekday (replaceFirst "this " "" normalized) R false
            else Throw (Error ("I couldn't understand the date " ++ JS.quoted input
                               ++ ". Try phrases like " ++ JS.quoted "tomorrow" ++ ", "
                               ++ JS.quoted "next Monday" ++ ", "
                               ++ JS.quoted "in 3 days" ++ ", or a specific date.")))
      R.
Proof.
  intros Hn H1 H2 H3 H4 H5 H6 H7 H8.
  unfold parseNaturalDateTarget. rewrite <- Hn.
  rewrite H1, H2, H3, H4, H5, H6, H7, H8. cbn [orb].
  now destruct (Regex.prefixedWeekdayPattern "next " normalized).
Qed.

(** What ["in N days"] and ["in N weeks"] settle on, before the past-date
    check. *)
Lemma target_in_n input R n unit :
  JSDate.isTimeValue R ->
  In unit ["day"; "days"; "week"; "weeks"] ->
  JS.trim (JS.toLowerCase input) = "in " ++ JS.showNat n ++ " " ++ unit ->
  parseNaturalDateTarget Date_parse input R
  = checkTarget
      (Ok (JSDate.TimeClip
             (JSDate.MakeDate
                (JSDate.Day R + (if String.eqb unit "day" || String.eqb unit "days"
                                 then Z.of_nat n else 7 * Z.of_nat n))
                noonUTC))) R.
Proof.
  intros HR Hu Hn.
  assert (Hunits : In unit Regex.units)
    by (unfold Regex.units; simpl in *; tauto).
  rewrite (target_relative input _ R (JS.showNat n, unit) (eq_sym Hn)); try reflexivity.
  - unfold parseRelativeDate.
    rewrite (relativePattern_in n unit Hunits), parseInt_showNat.
    simpl in Hu.
    repeat (destruct Hu as [<-|Hu];
            [cbn [String.eqb Ascii.eqb Bool.eqb orb andb]; cbv iota;
             rewrite (noon_then_setUTCDate R _ HR) by lia;
             rewrite ?(Z.mul_comm (Z.of_nat n) 7); reflexivity|]).
    contradiction.
  - apply normalized_not_digit_led. now rewrite Hn.
  - apply (relativePattern_in n unit Hunits).
Qed.

(** X20. ["in N days"] and ["in N weeks"], for every count [N], with the
    singular or the plural of the unit and the time value [R] of any
    reference Date, aim at noon UTC of the day [N], or seven times [N], days
    after the reference day.  With [N] at least one that instant is after
    [R] and is what the parser returns, unless it is beyond the last Date:
    then the parser throws the RangeError of the rendering (a count that a
    double does not hold exactly is far beyond the range, in the code as
    here).  With [N] zero the reading is that of ["today"]. *)
Theorem in_n_days_and_weeks :
  forall (input : string) (R : Z) (n : nat) (unit : string),
    JSDate.isTimeValue R ->
    In unit ["day"; "days"; "week"; "weeks"] ->
    JS.trim (JS.toLowerCase input) = "in " ++ JS.showNat n ++ " " ++ unit ->
    let days :=
      if String.eqb unit "day" || String.eqb unit "days"
      then Z.of_nat n else 7 * Z.of_nat n in
    let T := JSDate.MakeDate (JSDate.Day R + days) noonUTC in
    ((1 <= n)%nat -> R < T)
    /\ ((1 <= n)%nat -> T <= JSDate.maxTime ->
        parseNaturalDateTarget Date_parse input R = Ok T)
    /\ (JSDate.maxTime < T ->
        parseNaturalDateTarget Date_parse input R
        = Throw (Error "Invalid time value"))
    /\ (n = 0%nat ->
        parseNaturalDateTarget Date_parse input R
        = parseNaturalDateTarget Date_parse "today" R).
Proof.
  intros input R n unit HR Hu Hn days T.
  pose proof (target_in_n input R n unit HR Hu Hn) as Htarget.
  fold days in Htarget. fold T in Htarget.
  assert (Hdays : 0 <= days /\ ((1 <= n)%nat -> 1 <= days))
    by (subst days; destruct (_ || _); lia).
  destruct Hdays as [Hdays0 Hdays1].
  split; [|split; [|split]].
  - intros H1. apply before_later_noon. auto.
  - intros H1 Hmax. rewrite Htarget.
    rewrite checkTarget_not_before
      by (pose proof (before_later_noon R days (Hdays1 H1)); subst T; lia).
    now apply (targetOrRangeError_later_noon R days HR Hdays0).
  - intros Hbeyond. rewrite Htarget. now rewrite (TimeClip_beyond T Hbeyond).
  - intros ->. rewrite Htarget, target_today. subst T days.
    change (Z.of_nat 0) with 0. rewrite Z.mul_0_r.
    destruct (_ || _); now rewrite Z.add_0_r.
Qed.

Ltac weekday_branches_case W i0 :=
  exists i0;
  split; [lia|]; split; [reflexivity|]; split; [reflexivity|]; split;
  [intros R; now apply (target_bare_weekday Date_parse W W R eq_refl)|];
  split; intros input R Hn;
  (rewrite (target_prefixed_weekday input _ R (eq_sym Hn));
   [reflexivity | apply normalized_not_digit_led; now rewrite Hn
   | reflexivity ..]).

(** The three ways of naming a weekday, and the calls of [getNextWeekday]
    they lead to. *)
Lemma weekday_branches W :
  In W ["monday"; "tuesday"; "wednesday"; "thursday"; "friday"; "saturday"; "sunday"] ->
  exists i,
    0 <= i < 7
    /\ indexOf W ["sunday"; "monday"; "tuesday"; "wednesday"; "thursday"; "friday";
                  "saturday"] = Some i
    /\ indexOf (JS.toLowerCase W)
         ["sunday"; "monday"; "tuesday"; "wednesday"; "thursday"; "friday";
          "saturday"] = Some i
    /\ (forall R,
           parseNaturalDateTarget Date_parse W R
           = checkTarget (getNextWeekday W R false) R)
    /\ (forall input R,
           JS.trim (JS.toLowerCase input) = "this " ++ W ->
           parseNaturalDateTarget Date_parse input R
           = checkTarget (getNextWeekday W R false) R)
    /\ (forall input R,
           JS.trim (JS.toLowerCase input) = "next " ++ W ->
           parseNaturalDateTarget Date_parse input R
           = checkTarget (getNextWeekday W R true) R).
Proof.
  intros HW. simpl in HW.
  destruct HW as [<-|HW]; [weekday_branches_case "monday" 1|].
  destruct HW as [<-|HW]; [weekday_branches_case "tuesday" 2|].
  destruct HW as [<-|HW]; [weekday_branches_case "wednesday" 3|].
  destruct HW as [<-|HW]; [weekday_branches_case "thursday" 4|].
  destruct HW as [<-|HW]; [weekday_branches_case "friday" 5|].
  destruct HW as [<-|HW]; [weekday_branches_case "saturday" 6|].
  destruct HW as [<-|HW]; [weekday_branches_case "sunday" 0|].
  contradiction.
Qed.

(** X21. The three ways of naming a weekday, for the time value [R] of any
    reference Date.  The bare name aims at noon UTC of the day [k] days
    ahead, [k] from 1 to 7; ["this <weekday>"] reads as the bare name;
    ["next <weekday>"] always takes the later of the two candidate days,
    [index - today + 7] days ahead: the day of the bare name when the
    weekday is today or earlier in the week (Sunday first), a week after
    it when the weekday is still to come this week.  Both targets fall on
    the weekday asked for and are after [R]; the parser returns the
    target, unless it is beyond the last Date: then it throws the
    RangeError of the rendering. *)
Theorem next_and_this_weekday :
  forall (R : Z) (W : string),
    JSDate.isTimeValue R ->
    In W ["monday"; "tuesday"; "wednesday"; "thursday"; "friday"; "saturday"; "sunday"] ->
    exists (i k : Z),
      let T := JSDate.MakeDate (JSDate.Day R + k) noonUTC in
      let N := JSDate.MakeDate
                 (JSDate.Day R + (if JSDate.WeekDay R <? i then k + 7 else k))
                 noonUTC in
      indexOf W ["sunday"; "monday"; "tuesday"; "wednesday"; "thursday"; "friday";
                 "saturday"] = Some i
      /\ 1 <= k <= 7
      /\ JSDate.WeekDay T = i /\ JSDate.WeekDay N = i /\ R < T <= N
      /\ (T <= JSDate.maxTime -> parseNaturalDateTarget Date_parse W R = Ok T)
      /\ (JSDate.maxTime < T ->
          parseNaturalDateTarget Date_parse W R = Throw (Error "Invalid time value"))
      /\ (forall input,
             JS.trim (JS.toLowerCase input) = "this " ++ W ->
             parseNaturalDateTarget Date_parse input R
             = parseNaturalDateTarget Date_parse W R)
      /\ (forall input,
             JS.trim (JS.toLowerCase input) = "next " ++ W ->
             (N <= JSDate.maxTime ->
              parseNaturalDateTarget Date_parse input R = Ok N)
             /\ (JSDate.maxTime < N ->
                 parseNaturalDateTarget Date_parse input R
                 = Throw (Error "Invalid time value"))).
Proof.
  intros R W HR HW.
  destruct (weekday_branches W HW) as (i & Hi & HiW & Hlower & Hbare & Hthis & Hnext).
  pose proof (WeekDay_range R) as Hwd.
  assert (Hday : forall j, (j - (i - JSDate.WeekDay R)) mod 7 = 0 ->
                   JSDate.WeekDay (JSDate.MakeDate (JSDate.Day R + j) noonUTC) = i).
  { intros j Hj. unfold JSDate.WeekDay in *.
    rewrite (Day_MakeDate _ _ noonUTC_range). Z.div_mod_to_equations. lia. }
  set (k := if i - JSDate.WeekDay R <=? 0
            then i - JSDate.WeekDay R + 7 else i - JSDate.WeekDay R).
  assert (Hk : 1 <= k <= 7
               /\ (if JSDate.WeekDay R <? i then k + 7 else k)
                  = i - JSDate.WeekDay R + 7).
  { subst k. destruct (Z.leb_spec (i - JSDate.WeekDay R) 0);
      destruct (Z.ltb_spec (JSDate.WeekDay R) i); lia. }
  destruct Hk as [Hk Hforced].
  exists i, k. cbv zeta. rewrite Hforced.
  assert (Hbare' : parseNaturalDateTarget Date_parse W R
                   = targetOrRangeError (JSDate.MakeDate (JSDate.Day R + k) noonUTC)).
  { rewrite Hbare, (getNextWeekday_unforced W i R HR (proj1 Hi) Hlower). fold k.
    apply checkTarget_not_before. pose proof (before_later_noon R k). lia. }
  split; [exact HiW|]. split; [exact Hk|]. split.
  { apply Hday. subst k. destruct (Z.leb_spec (i - JSDate.WeekDay R) 0).
    - replace (i - JSDate.WeekDay R + 7 - (i - JSDate.WeekDay R)) with (1 * 7) by lia.
      apply Z.mod_mul. lia.
    - now rewrite Z.sub_diag. }
  split.
  { apply Hday.
    replace (i - JSDate.WeekDay R + 7 - (i - JSDate.WeekDay R)) with (1 * 7) by lia.
    apply Z.mod_mul. lia. }
  split.
  { split; [apply before_later_noon; lia|].
    assert (k <= i - JSDate.WeekDay R + 7)
      by (subst k; destruct (Z.leb_spec (i - JSDate.WeekDay R) 0); lia).
    unfold JSDate.MakeDate, JSDate.msPerDay. lia. }
  split.
  { rewrite Hbare'. now apply (targetOrRangeError_later_noon R k HR); lia. }
  split.
  { rewrite Hbare'. now apply (targetOrRangeError_later_noon R k HR); lia. }
  split.
  { intros input Hn. now rewrite (Hthis input R Hn), Hbare. }
  intros input Hn.
  rewrite (Hnext input R Hn), (getNextWeekday_forced W i R HR (proj1 Hi) Hlower).
  rewrite checkTarget_not_before
    by (pose proof (before_later_noon R (i - JSDate.WeekDay R + 7)); lia).
  apply (targetOrRangeError_later_noon R _ HR). lia.
Qed.

End RelativeDates.

(** ** Texts the parser does not read *)

Lemma digit_is_not c k :
  JS.isDigit c = true -> JS.isDigit k = false -> Ascii.eqb c k = false.
Proof.
  intros Hc Hk. destruct (Ascii.eqb_spec c k) as [->|_]; [congruence | reflexivity].
Qed.

Lemma eqb_digit_led c rest k word :
  JS.isDigit c = true -> JS.isDigit k = false ->
  String.eqb (String c rest) (String k word) = false.
Proof. intros Hc Hk. cbn [String.eqb]. now rewrite (digit_is_not c k Hc Hk). Qed.

Lemma eatLiteral_digit_led c rest k word :
  JS.isDigit c = true -> JS.isDigit k = false ->
  Regex.eatLiteral (String k word) (String c rest) = None.
Proof.
  intros Hc Hk. unfold Regex.eatLiteral. cbn [String.prefix].
  destruct (ascii_dec k c) as [->|_]; [congruence | reflexivity].
Qed.

Section UnreadDates.

Variable Date_parse : string -> option Z.

(** X22. A text that starts with a digit is read as a date only in the ISO
    8601 form: any other text whose first character, once trimmed, is a
    digit (["15/01/2024"], ["5pm"], ["3 days"]) is refused with the message
    that quotes it, whatever the reference instant. *)
Theorem digit_led_text_must_be_ISO8601 :
  forall (input : string) (R : Z),
    JS.startsWithDigit (JS.trim (JS.toLowerCase input)) = true ->
    isISO8601 input = false ->
    parseNaturalDate Date_parse input R
    = Throw (Error ("I couldn't understand the date " ++ JS.quoted input
                    ++ ". Try phrases like " ++ JS.quoted "tomorrow" ++ ", "
                    ++ JS.quoted "next Monday" ++ ", " ++ JS.quoted "in 3 days"
                    ++ ", or a specific date.")).
Proof.
  intros input R Hd Hiso. unfold parseNaturalDate, parseNaturalDateTarget.
  rewrite Hiso. cbv zeta.
  destruct (JS.trim (JS.toLowerCase input)) as [|c rest]; [discriminate Hd|].
  cbn [JS.startsWithDigit] in Hd.
  rewrite !(eqb_digit_led c rest) by first [exact Hd | reflexivity]. cbn [orb].
  unfold Regex.relativePattern, Regex.prefixedWeekdayPattern, isWeekdayName.
  rewrite !(eatLiteral_digit_led c rest) by first [exact Hd | reflexivity].
  cbn [Regex.andThen].
  cbn [JS.toLowerCase existsb]. rewrite (toLowerCaseChar_digit c Hd).
  rewrite !(eqb_digit_led c) by first [exact Hd | reflexivity]. reflexivity.
Qed.

End UnreadDates.

(* ================================================================== *)
(** * More on the priority mapper *)

(** A run of digits holds no keyword of the table. *)
Lemma digits_hold_no_keyword ds mapping keyword :
  JS.forallChars JS.isDigit ds = true ->
  In mapping PRIORITY_MAPPINGS -> In keyword (keywords mapping) ->
  JS.includes ds keyword = false.
Proof.
  intros Hd Hm Hk.
  assert (Hkw : exists k word, keyword = String k word /\ JS.isDigit k = false).
  { simpl in Hm.
    repeat (destruct Hm as [<-|Hm];
            [simpl in Hk;
             repeat (destruct Hk as [<-|Hk]; [now eexists _, _|]); contradiction|]).
    contradiction. }
  destruct Hkw as (k & word & -> & Hnk).
  rewrite <- (append_empty_r ds). rewrite includes_skip; [reflexivity|].
  apply (forallChars_weaken JS.isDigit); [|exact Hd].
  intros c Hc. now rewrite (digit_is_not c k Hc Hnk).
Qed.

Lemma trim_digits ds :
  JS.forallChars JS.isDigit ds = true -> JS.trim (JS.toLowerCase ds) = ds.
Proof.
  intros Hd. rewrite (toLowerCase_fixed _ ds toLowerCaseChar_digit Hd).
  unfold JS.trim. destruct ds as [|c ds]; [reflexivity|].
  pose proof Hd as Hd'. cbn [JS.forallChars] in Hd'.
  apply andb_true_iff in Hd' as [Hc _].
  cbn [JS.trimStart]. rewrite (digit_not_whitespace c Hc).
  rewrite <- (append_empty_r (String c ds)) at 1.
  rewrite (trimEnd_digits_app _ "" Hd). apply append_empty_r.
Qed.

Section PriorityMore.

Variable Number_toString : number -> string.

(** X23. A priority written as a number, and nothing else, is that number
    when it is from 1 to 5 and is not understood otherwise: ["0"], ["6"]
    and ["10"] give [null], not a neighbouring class. *)
Theorem parsePriority_of_decimal :
  forall n : nat,
    parsePriority (InString (JS.showNat n))
    = if ((1 <=? n) && (n <=? 5))%nat then Some (ofInt (Z.of_nat n)) else None.
Proof.
  intros n. destruct (showNat_digits n) as (Hne & Hd & Hv).
  unfold parsePriority, parsePriorityWith.
  rewrite (trim_digits _ Hd), parseInt_showNat.
  destruct ((1 <=? Z.of_nat n) && (Z.of_nat n <=? 5)) eqn:E.
  - apply andb_true_iff in E as [E1 E2]. apply Z.leb_le in E1, E2.
    replace ((1 <=? n) && (n <=? 5))%nat with true; [reflexivity|].
    symmetry. apply andb_true_iff. split; apply Nat.leb_le; lia.
  - replace ((1 <=? n) && (n <=? 5))%nat with false.
    + apply matchKeywords_none. intros mapping keyword Hm Hk.
      now apply (digits_hold_no_keyword _ mapping).
    + symmetry. apply andb_false_iff. apply andb_false_iff in E as [E|E];
        apply Z.leb_gt in E; [left|right]; apply Nat.leb_gt; lia.
Qed.

(** X24. What [formatPriority] says, [parsePriority] reads back: every
    integer priority that [parsePriority] can give is rendered as the label
    of its class, and that label is parsed to the same priority. *)
Theorem parsePriority_formatPriority :
  forall (input : PriorityInput) (v : number),
    parsePriority input = Some v ->
    isInteger v ->
    exists z,
      1 <= z <= 5
      /\ number_eqb v (ofInt z) = true
      /\ In (formatPriority Number_toString (Some v))
           ["Low"; "Normal"; "High"; "Urgent"; "Critical"]
      /\ parsePriority (InString (formatPriority Number_toString (Some v)))
         = Some (ofInt z).
Proof.
  intros input v Hparse Hint.
  assert (Hrange : number_leb (ofInt 1) v = true /\ number_leb v (ofInt 5) = true).
  { destruct input as [| |n|s]; try discriminate Hparse.
    - unfold parsePriority, parsePriorityWith in Hparse.
      destruct (number_leb (ofInt 1) n) eqn:H1; [|discriminate Hparse].
      destruct (number_leb n (ofInt 5)) eqn:H5; [|discriminate Hparse].
      injection Hparse as <-. now split.
    - unfold parsePriority, parsePriorityWith in Hparse.
      assert (Hkw : forall r, matchKeywords PRIORITY_MAPPINGS
                                (JS.trim (JS.toLowerCase s)) = Some r ->
                              number_leb (ofInt 1) r = true
                              /\ number_leb r (ofInt 5) = true).
      { intros r Hr.
        destruct (matchKeywords_table (JS.trim (JS.toLowerCase s)))
          as [E|(z & Hz & E)]; rewrite E in Hr; [discriminate Hr|].
        injection Hr as <-. destruct (ofInt_in_range z Hz) as (? & ? & _). now split. }
      destruct (JS.parseInt (JS.trim (JS.toLowerCase s))) as [numericValue|];
        [|now apply Hkw].
      destruct ((1 <=? numericValue) && (numericValue <=? 5)) eqn:E; [|now apply Hkw].
      apply andb_true_iff in E as [E1 E2]. apply Z.leb_le in E1, E2.
      injection Hparse as <-.
      destruct (ofInt_in_range numericValue (conj E1 E2)) as (? & ? & _). now split. }
  destruct v as [q| | |]; try contradiction.
  destruct Hint as [z Hz]. destruct Hrange as [H1 H5].
  cbn [number_leb ofInt] in H1, H5.
  apply Qle_bool_iff in H1, H5. rewrite Hz in H1, H5.
  rewrite <- Zle_Qle in H1, H5.
  exists z. split; [lia|].
  assert (Heq : forall k, Qeq_bool (inject_Z k) q = (k =? z)).
  { intros k. destruct (Z.eqb_spec k z) as [->|Hne].
    - apply Qeq_bool_iff. now symmetry.
    - destruct (Qeq_bool (inject_Z k) q) eqn:E; [|reflexivity].
      apply Qeq_bool_iff in E. rewrite Hz in E. unfold Qeq in E. cbn in E. lia. }
  split.
  { cbn [number_eqb ofInt]. apply Qeq_bool_iff. exact Hz. }
  unfold formatPriority, PRIORITY_MAPPINGS.
  cbn [find value number_eqb ofInt label]. rewrite !Heq.
  assert (z = 1 \/ z = 2 \/ z = 3 \/ z = 4 \/ z = 5) as [-> | [-> | [-> | [-> | ->]]]]
    by lia; cbn [Z.eqb Pos.eqb]; cbv iota; (split; [simpl; tauto | reflexivity]).
Qed.

End PriorityMore.

(* ================================================================== *)
(** * The cleanup script *)

Lemma eatLiteral_none pattern s :
  String.prefix pattern s = false -> Regex.eatLiteral pattern s = None.
Proof. intros H. unfold Regex.eatLiteral. now rewrite H. Qed.

(** Replacing a text that does not occur changes nothing. *)
Lemma replaceFirst_absent pattern replacement s :
  JS.includes s pattern = false -> replaceFirst pattern replacement s = s.
Proof.
  induction s as [|c s IH]; intros H.
  - cbn [JS.includes] in H. apply orb_false_iff in H as [H _].
    cbn [replaceFirst]. now rewrite (eatLiteral_none _ _ H).
  - cbn [JS.includes] in H. apply orb_false_iff in H as [H1 H2].
    cbn [replaceFirst]. rewrite (eatLiteral_none _ _ H1). now rewrite IH.
Qed.

Lemma replaceFirst_head pattern replacement rest :
  replaceFirst pattern replacement (pattern ++ rest) = replacement ++ rest.
Proof.
  destruct (pattern ++ rest) eqn:E; cbn [replaceFirst]; rewrite <- E;
    now rewrite eatLiteral_app.
Qed.

(** X25. The host the dispatch client is made for: a [wss://] address
    becomes the [https://] address of the same host and a [ws://] address
    the [http://] one, when the rest of the address holds neither scheme;
    an address that holds neither scheme anywhere is used as it is. *)
Theorem livekitHost_scheme :
  forall rest : string,
    JS.includes rest "wss://" = false ->
    JS.includes rest "ws://" = false ->
    livekitHost ("wss://" ++ rest) = "https://" ++ rest
    /\ livekitHost ("ws://" ++ rest) = "http://" ++ rest
    /\ livekitHost rest = rest.
Proof.
  intros rest Hwss Hws. unfold livekitHost. repeat split.
  - rewrite replaceFirst_head. apply replaceFirst_absent.
    cbn [append JS.includes String.prefix]. rewrite Hws.
    repeat match goal with
      | |- context [ascii_dec ?a ?b] => destruct (ascii_dec a b); try discriminate
      end; reflexivity.
  - rewrite (replaceFirst_absent "wss://").
    + apply replaceFirst_head.
    + cbn [append JS.includes String.prefix]. rewrite Hwss.
      repeat match goal with
        | |- context [ascii_dec ?a ?b] => destruct (ascii_dec a b); try discriminate
        end; reflexivity.
  - rewrite (replaceFirst_absent "wss://" _ _ Hwss).
    now apply replaceFirst_absent.
Qed.

Lemma deleteEach_spec service roomName dispatches :
  forall calls count,
    deleteEach service roomName dispatches calls count
    = ((calls ++ map dispatch_id dispatches)%list,
       (count
        + List.length
            (filter (fun '(n, dispatch) =>
                       succeeded (deleteDispatch service n (dispatch_id dispatch)
                                    roomName))
               (combine (seq (List.length calls) (List.length dispatches))
                  dispatches)))%nat).
Proof.
  induction dispatches as [|dispatch rest IH]; intros calls count.
  - cbn. now rewrite app_nil_r, Nat.add_0_r.
  - cbn [deleteEach map List.length seq combine filter].
    destruct (deleteDispatch service (List.length calls) (dispatch_id dispatch) roomName);
      rewrite IH; cbn [succeeded List.length]; rewrite <- app_assoc, List.length_app;
      cbn [List.length app]; rewrite Nat.add_1_r; f_equal; lia.
Qed.

(** X26. The cleanup script.  With the key, the secret and an address set
    and not empty, and the dispatches of the room listed, [deleteDispatch]
    is called once for every dispatch, in the order of the list, whether or
    not earlier deletions failed; the count reported is the number of
    deletions that succeeded; and the exit code is 0 even when every
    deletion failed.  When a credential is missing or empty, or the listing
    fails, the exit code is 1 and nothing is deleted; and the exit code is
    1 in these cases only. *)
Theorem cleanup_deletes_every_dispatch :
  forall (env : Env) (service : DispatchService),
    (forall key secret address dispatches,
        LIVEKIT_API_KEY env = Some key -> key <> "" ->
        LIVEKIT_API_SECRET env = Some secret -> secret <> "" ->
        orElse (LIVEKIT_URL env) (NEXT_PUBLIC_LIVEKIT_URL env) = Some address ->
        address <> "" ->
        listDispatch service (livekitHost address) key secret "voice-todo-room"
        = Ok dispatches ->
        exitCode (cleanup env service) = 0
        /\ deleteCalls (cleanup env service) = map dispatch_id dispatches
        /\ deletedCount (cleanup env service)
           = List.length
               (filter (fun '(n, dispatch) =>
                          succeeded (deleteDispatch service n (dispatch_id dispatch)
                                       "voice-todo-room"))
                  (combine (seq 0 (List.length dispatches)) dispatches))
        /\ (deletedCount (cleanup env service) <= List.length dispatches)%nat)
    /\ (exitCode (cleanup env service) = 0 \/ exitCode (cleanup env service) = 1)
    /\ (exitCode (cleanup env service) = 1 ->
        deleteCalls (cleanup env service) = []
        /\ (truthyEnv (LIVEKIT_API_KEY env) && truthyEnv (LIVEKIT_API_SECRET env)
            && truthyEnv (orElse (LIVEKIT_URL env) (NEXT_PUBLIC_LIVEKIT_URL env))
            = false
            \/ exists key secret address e,
                 LIVEKIT_API_KEY env = Some key
                 /\ LIVEKIT_API_SECRET env = Some secret
                 /\ orElse (LIVEKIT_URL env) (NEXT_PUBLIC_LIVEKIT_URL env)
                    = Some address
                 /\ listDispatch service (livekitHost address) key secret
                      "voice-todo-room" = Throw e))
    /\ (truthyEnv (LIVEKIT_API_KEY env) && truthyEnv (LIVEKIT_API_SECRET env)
        && truthyEnv (orElse (LIVEKIT_URL env) (NEXT_PUBLIC_LIVEKIT_URL env))
        = false ->
        exitCode (cleanup env service) = 1
        /\ deleteCalls (cleanup env service) = []
        /\ deletedCount (cleanup env service) = 0%nat)
    /\ (forall key secret address e,
           LIVEKIT_API_KEY env = Some key -> key <> "" ->
           LIVEKIT_API_SECRET env = Some secret -> secret <> "" ->
           orElse (LIVEKIT_URL env) (NEXT_PUBLIC_LIVEKIT_URL env) = Some address ->
           address <> "" ->
           listDispatch service (livekitHost address) key secret "voice-todo-room"
           = Throw e ->
           exitCode (cleanup env service) = 1
           /\ deleteCalls (cleanup env service) = []
           /\ deletedCount (cleanup env service) = 0%nat).
Proof.
  intros env service. split; [|split; [|split; [|split]]].
  - intros key secret address dispatches Hk Hkne Hs Hsne Hu Hune Hlist.
    unfold cleanup. cbv zeta. rewrite Hk, Hs, Hu.
    destruct key as [|k0 k]; [contradiction|].
    destruct secret as [|s0 s]; [contradiction|].
    destruct address as [|u0 u]; [contradiction|].
    rewrite Hlist, deleteEach_spec. cbn [exitCode deleteCalls deletedCount app List.length].
    repeat split. cbn [Nat.add].
    match goal with |- (List.length (filter ?f ?l) <= _)%nat =>
      pose proof (filter_length_le f l) as Hle end.
    rewrite length_combine, length_seq in Hle. lia.
  - unfold cleanup. cbv zeta.
    destruct (LIVEKIT_API_KEY env) as [[|k0 k]|]; auto.
    destruct (LIVEKIT_API_SECRET env) as [[|s0 s]|]; auto.
    destruct (orElse (LIVEKIT_URL env) (NEXT_PUBLIC_LIVEKIT_URL env)) as [[|u0 u]|]; auto.
    destruct (listDispatch _ _ _ _ _); [|auto].
    destruct (deleteEach _ _ _ _ _). auto.
  - unfold cleanup. cbv zeta.
    destruct (LIVEKIT_API_KEY env) as [[|k0 k]|];
      try (intros _; split; [reflexivity | left; reflexivity]).
    destruct (LIVEKIT_API_SECRET env) as [[|s0 s]|];
      try (intros _; split; [reflexivity | left; reflexivity]).
    destruct (orElse (LIVEKIT_URL env) (NEXT_PUBLIC_LIVEKIT_URL env)) as [[|u0 u]|];
      try (intros _; split; [reflexivity | left; reflexivity]).
    destruct (listDispatch _ _ _ _ _) as [dispatches|e] eqn:E.
    + destruct (deleteEach _ _ _ _ _). cbn [exitCode]. discriminate.
    + intros _. split; [reflexivity|]. right. now eexists _, _, _, e.
  - unfold cleanup. cbv zeta.
    destruct (LIVEKIT_API_KEY env) as [[|k0 k]|]; try (intros _; now repeat split).
    destruct (LIVEKIT_API_SECRET env) as [[|s0 s]|]; try (intros _; now repeat split).
    destruct (orElse (LIVEKIT_URL env) (NEXT_PUBLIC_LIVEKIT_URL env)) as [[|u0 u]|];
      try (intros _; now repeat split).
    cbn [truthyEnv andb]. discriminate.
  - intros key secret address e Hk Hkne Hs Hsne Hu Hune Hlist.
    unfold cleanup. cbv zeta. rewrite Hk, Hs, Hu.
    destruct key as [|k0 k]; [contradiction|].
    destruct secret as [|s0 s]; [contradiction|].
    destruct address as [|u0 u]; [contradiction|].
    rewrite Hlist. now repeat split.
Qed.

(* ================================================================== *)
(** * The greeting *)

Section GreetingFacts.

Variable greetingPlayedIn : string -> result bool.
Variable sayOutcome : nat -> result unit.

Lemma playGreeting_speaks ctx stage :
  (forall text, room_metadata ctx = Some text -> greetingPlayedIn text <> Ok true) ->
  sayCalls (playGreeting greetingPlayedIn sayOutcome ctx stage)
  = (sayCalls stage ++ [greetingMessage GREETING_CONFIG])%list.
Proof.
  intros Hmeta. unfold playGreeting.
  assert (Hguard : match room_metadata ctx with
                   | Some (String c m) =>
                       match greetingPlayedIn (String c m) with
                       | Ok played => played
                       | Throw _ => false
                       end
                   | _ => false
                   end = false).
  { destruct (room_metadata ctx) as [[|c m]|]; try reflexivity.
    specialize (Hmeta (String c m) eq_refl).
    destruct (greetingPlayedIn (String c m)) as [[|]|]; try reflexivity.
    now contradiction Hmeta. }
  cbv zeta. rewrite Hguard.
  destruct (sayOutcome _); [|reflexivity].
  now destruct (room_name ctx) as [[|c n]|].
Qed.

Lemma setHas_setAdd x s : setHas x (setAdd x s) = true.
Proof.
  unfold setAdd. destruct (setHas x s) eqn:E; [exact E|].
  unfold setHas. rewrite existsb_app. cbn [existsb].
  now rewrite String.eqb_refl, orb_true_r.
Qed.

(** X27. The greeting is guarded by the room's metadata and by nothing else.
    When the metadata carries [greetingPlayed: true], [playGreeting] does
    nothing.  Otherwise every call asks the session to say the greeting,
    also for a room the earlier call has recorded in [greetingPlayedRooms]:
    [n] calls in a row make [n] requests.  A call whose request succeeds
    records a room that has a name, so that [hasGreetingBeenPlayed] answers
    [true] for it afterwards. *)
Theorem playGreeting_guard :
  forall (ctx : GreetingRoom) (stage : Stage),
    (forall text,
        room_metadata ctx = Some text -> greetingPlayedIn text = Ok true ->
        text <> "" ->
        playGreeting greetingPlayedIn sayOutcome ctx stage = stage)
    /\ ((forall text, room_metadata ctx = Some text -> greetingPlayedIn text <> Ok true) ->
        (forall n,
            sayCalls (Nat.iter n (playGreeting greetingPlayedIn sayOutcome ctx) stage)
            = (sayCalls stage ++ repeat (greetingMessage GREETING_CONFIG) n)%list)
        /\ (forall name,
               room_name ctx = Some name -> name <> "" ->
               sayOutcome (List.length (sayCalls stage)) = Ok tt ->
               hasGreetingBeenPlayed name
                 (playGreeting greetingPlayedIn sayOutcome ctx stage) = true)).
Proof.
  intros ctx stage. split.
  - intros text Hm Hplayed Hne. unfold playGreeting. rewrite Hm.
    destruct text as [|c m]; [contradiction|]. now rewrite Hplayed.
  - intros Hmeta. split.
    + induction n as [|n IH]; [cbn; now rewrite app_nil_r|].
      change (Nat.iter (S n) (playGreeting greetingPlayedIn sayOutcome ctx) stage)
        with (playGreeting greetingPlayedIn sayOutcome ctx
                (Nat.iter n (playGreeting greetingPlayedIn sayOutcome ctx) stage)).
      rewrite (playGreeting_speaks ctx _ Hmeta), IH.
      rewrite <- app_assoc. f_equal.
      change [greetingMessage GREETING_CONFIG]
        with (repeat (greetingMessage GREETING_CONFIG) 1).
      rewrite <- repeat_app. now rewrite Nat.add_1_r.
    + intros name Hname Hne Hsay. unfold hasGreetingBeenPlayed, playGreeting.
      assert (Hguard : match room_metadata ctx with
                       | Some (String c m) =>
                           match greetingPlayedIn (String c m) with
                           | Ok played => played
                           | Throw _ => false
                           end
                       | _ => false
                       end = false).
      { destruct (room_metadata ctx) as [[|c m]|]; try reflexivity.
        specialize (Hmeta (String c m) eq_refl).
        destruct (greetingPlayedIn (String c m)) as [[|]|]; try reflexivity.
        now contradiction Hmeta. }
      cbv zeta. rewrite Hguard, Hsay, Hname.
      destruct name as [|c n]; [contradiction|].
      cbn [greetingPlayedRooms]. apply setHas_setAdd.
Qed.

End GreetingFacts.

(* ================================================================== *)
(** * Concrete instances *)

Lemma resolve_plain_number_witness :
  resolveTaskIdentifier sampleContext "2" sampleWorld
  = Some (Ok "b", worldAfter (getAllTasks sampleContext) sampleWorld)
  /\ resolveTaskIdentifier sampleContext "7" sampleWorld
     = Some (Throw (Error "Task number 7 doesn't exist. You have 3 tasks."),
             worldAfter (getAllTasks sampleContext) sampleWorld).
Proof.
  split.
  - apply (resolve_plain_number sampleContext sampleWorld
             (worldAfter (getAllTasks sampleContext) sampleWorld) sampleTasks 2);
      [simpl; lia | reflexivity].
  - apply (resolve_plain_number sampleContext sampleWorld
             (worldAfter (getAllTasks sampleContext) sampleWorld) sampleTasks 7);
      [simpl; lia | reflexivity].
Defined.

Lemma resolve_ordinal_as_plain_number_witness :
  resolveTaskIdentifier sampleContext "the 2ND one" sampleWorld
  = resolveTaskIdentifier sampleContext "2" sampleWorld.
Proof.
  apply (resolve_ordinal_as_plain_number sampleContext sampleWorld
           (worldAfter (getAllTasks sampleContext) sampleWorld) sampleTasks
           "the " "ND" " one" 2).
  - reflexivity.
  - simpl. tauto.
  - reflexivity.
Defined.

Lemma resolve_returns_a_listed_task_witness :
  exists task,
    In task sampleTasks /\ id task = "a"
    /\ (plainNumberPattern "milk" = false ->
        ordinalPattern "milk" = None ->
        filter (titleMatches (JS.toLowerCase "milk")) sampleTasks = [task]).
Proof.
  exact (resolve_returns_a_listed_task sampleContext "milk" sampleWorld
           (worldAfter (getAllTasks sampleContext) sampleWorld)
           (worldAfter (getAllTasks sampleContext) sampleWorld) sampleTasks "a"
           eq_refl eq_refl).
Defined.

Lemma resolve_empty_identifier_witness :
  resolveTaskIdentifier sampleContext "" sampleWorld
  = Some (Throw (Error ("Multiple tasks match " ++ JS.quoted ""
                        ++ ": 1. Buy milk, 2. 4, 3. buy eggs."
                        ++ " Please be more specific or use a task number.")),
          worldAfter (getAllTasks sampleContext) sampleWorld).
Proof.
  exact (resolve_empty_identifier sampleContext sampleWorld
           (worldAfter (getAllTasks sampleContext) sampleWorld) sampleTasks eq_refl).
Defined.

Lemma formatErrorForTTS_http_status_witness :
  formatErrorForTTS "API request failed with status 503" "create that task"
  = "The server encountered an error while trying to create that task. Please try again in a moment."
  /\ formatErrorForTTS "API request failed with status 404" "delete that task"
     = "I couldn't find that task. Please try a different description.".
Proof.
  split.
  - destruct (formatErrorForTTS_http_status 503 "create that task") as [H _].
    apply H. lia.
  - destruct (formatErrorForTTS_http_status 404 "delete that task") as [_ H].
    apply H. lia.
Defined.

Lemma timeout_is_not_retried_witness :
  withRetry sleepScripted alwaysFires (scripted failsTwice) noOptions 0%nat
  = Some (Throw (Error "Operation timed out after 10000ms"), 1%nat)
  /\ formatErrorForTTS "Operation timed out after 10000ms" "create that task"
     = "I couldn't create that task. Please try again.".
Proof.
  destruct (timeout_is_not_retried sleepScripted alwaysFires (scripted failsTwice)
              noOptions 0%nat "create that task")
    as (H1 & _ & H3); [reflexivity | simpl; lia | reflexivity |].
  split; [exact H1 | exact H3].
Defined.

Lemma withRetry_run_shape_witness :
  withRetryTraced sleepScripted neverFires (scripted failsTwice) 10000
    (mergeOptions noAttemptOptions) 0%nat
  = Some (Throw (NonError "undefined"), (0%nat, [], []))
  /\ exists r s' earlier final,
       withRetryTraced sleepScripted neverFires (scripted failsTwice) 8000
         (mergeOptions apiRetryOptions) 0%nat
       = Some (r, (s', (earlier ++ [final])%list,
                   map (fun k => calculateDelay (Z.of_nat k) 500 5000 2)
                     (seq 0 (List.length earlier))))
       /\ Z.of_nat (List.length earlier) <= 2.
Proof.
  split.
  - destruct (withRetry_run_shape sleepScripted neverFires (scripted failsTwice)
                (mergeOptions noAttemptOptions) 0%nat) as (_ & H & _).
    apply H. simpl. lia.
  - destruct (withRetry_run_shape sleepScripted neverFires (scripted failsTwice)
                (mergeOptions apiRetryOptions) 0%nat) as (_ & _ & H).
    destruct H as (r & s' & earlier & final & Hrun & Hlen & _); [simpl; lia|].
    exists r, s', earlier, final. split; [exact Hrun | exact Hlen].
Defined.

Lemma calculateDelay_capped_and_monotone_witness :
  calculateDelay 1 500 5000 2 <= calculateDelay 4 500 5000 2
  /\ calculateDelay 4 500 5000 2 <= 5000.
Proof.
  split.
  - destruct (calculateDelay_capped_and_monotone 1 4 500 5000 2) as (_ & _ & H & _);
      [lia | lia | lia | vm_compute; discriminate | vm_compute; discriminate
      | vm_compute; split; discriminate | exact H].
  - destruct (calculateDelay_capped_and_monotone 4 4 500 5000 2) as (H & _);
      [lia | lia | lia | vm_compute; discriminate | vm_compute; discriminate
      | vm_compute; split; discriminate | exact H].
Defined.

Lemma fetchWithErrorHandling_exchange_witness :
  exists (attempts : nat) (w' : World),
    fetchWithErrorHandling (listRequest sampleContext) sampleWorld
    = Some (settled (attemptOutcome sampleWorld (fetchCount sampleWorld + attempts - 1)
                       (listRequest sampleContext)), w')
    /\ (1 <= attempts <= 3)%nat
    /\ requests w' = (repeat (listRequest sampleContext) attempts ++ [])%list.
Proof.
  destruct (fetchWithErrorHandling_exchange (listRequest sampleContext) sampleWorld)
    as (attempts & w' & Hrun & Hrange & _ & _ & _ & Hreq & _).
  exists attempts, w'. split; [exact Hrun | split; [exact Hrange | exact Hreq]].
Defined.

Lemma api_failures_and_retries_witness :
  fetchWithErrorHandling (deleteRequest sampleContext "b") (refusingWorld 404)
  = Some (Throw (Error "API request failed with status 404"),
          worldAfterAttempts (refusingWorld 404) (deleteRequest sampleContext "b") 1)
  /\ fetchWithErrorHandling (listRequest sampleContext) stalledWorld
     = Some (Throw (Error "Operation timed out after 8000ms"),
             worldAfterAttempts stalledWorld (listRequest sampleContext) 1).
Proof.
  split.
  - destruct (api_failures_and_retries (deleteRequest sampleContext "b")
                (refusingWorld 404)) as (H & _).
    apply (H 404); [|lia].
    split; [reflexivity|]. exists (refusedResponse 404), "refused".
    repeat split; reflexivity.
  - destruct (api_failures_and_retries (listRequest sampleContext) stalledWorld)
      as (_ & H & _).
    apply H. reflexivity.
Defined.

Lemma delete_task_requests_witness :
  exists (reply : string) (w' : World) (r : result string) (listings deletes : nat),
    delete_task sampleContext "2" sampleWorld = Some (Ok reply, w')
    /\ resolveTaskIdentifier sampleContext "2" sampleWorld
       = Some (r, worldAfterAttempts sampleWorld (listRequest sampleContext) listings)
    /\ (1 <= listings <= 3)%nat.
Proof.
  destruct (delete_task_requests sampleContext "2" sampleWorld)
    as (reply & w' & r & listings & deletes & H1 & H2 & H3 & _).
  exists reply, w', r, listings, deletes. split; [exact H1 | split; [exact H2 | exact H3]].
Defined.



Lemma get_tasks_requests_witness :
  exists (reply : string) (w' : World),
    get_tasks sampleNumberToString sampleContext (Value "milk") (InString "later")
      (Value "all") sampleWorld
    = Some (Ok reply, w')
    /\ w' = sampleWorld.
Proof.
  destruct (get_tasks_requests sampleNumberToString sampleContext (Value "milk")
              (InString "later") (Value "all") sampleWorld)
    as (reply & w' & gets & H1 & H2).
  exists reply, w'. split; [exact H1 | exact H2].
Defined.

Lemma delete_task_http_errors_witness :
  delete_task sampleContext "2" (refusingWorld 404)
  = Some (Ok "I couldn't find that task. Please try a different description.",
          worldAfterAttempts (worldAfter (getAllTasks sampleContext) (refusingWorld 404))
            (deleteRequest sampleContext "b") 1).
Proof.
  destruct (delete_task_http_errors sampleContext "2" "b" (refusingWorld 404)
              (worldAfter (getAllTasks sampleContext) (refusingWorld 404)) eq_refl)
    as [H _].
  apply (H 404); [|lia].
  split; [reflexivity|]. exists (refusedResponse 404), "refused".
  repeat split; reflexivity.
Defined.

Lemma parseNaturalDate_never_in_the_past_witness :
  exists T,
    parseNaturalDateTarget sampleDateParse "tomorrow" testReferenceDate = Ok T
    /\ "2024-01-16T12:00:00.000Z" = JSDate.toISOString T
    /\ testReferenceDate <= T.
Proof.
  exact (parseNaturalDate_never_in_the_past sampleDateParse "tomorrow" testReferenceDate
           "2024-01-16T12:00:00.000Z" eq_refl).
Defined.

Lemma tomorrow_and_next_week_witness :
  parseNaturalDateTarget sampleDateParse " Tomorrow " testReferenceDate
  = Ok (JSDate.MakeDate (JSDate.Day testReferenceDate + 1) noonUTC)
  /\ parseNaturalDateTarget sampleDateParse "NEXT WEEK" JSDate.maxTime
     = Throw (Error "Invalid time value").
Proof.
  split.
  - destruct (tomorrow_and_next_week sampleDateParse " Tomorrow " testReferenceDate)
      as [H _]; [vm_compute; split; discriminate|].
    destruct (H eq_refl) as (_ & Hin & _). apply Hin. vm_compute. discriminate.
  - destruct (tomorrow_and_next_week sampleDateParse "NEXT WEEK" JSDate.maxTime)
      as [_ H]; [vm_compute; split; discriminate|].
    destruct (H eq_refl) as (_ & _ & Hout). apply Hout. reflexivity.
Defined.

Lemma tonight_is_20h_or_past_witness :
  parseNaturalDateTarget sampleDateParse "Tonight" testReferenceDate
  = Ok (JSDate.MakeDate (JSDate.Day testReferenceDate) (JSDate.MakeTime 20 0 0 0)).
Proof.
  destruct (tonight_is_20h_or_past sampleDateParse "Tonight" testReferenceDate)
    as (_ & H & _); [vm_compute; split; discriminate | reflexivity |].
  apply H; vm_compute; discriminate.
Defined.

Lemma toISOString_is_ISO8601_witness :
  isISO8601 (JSDate.toISOString testReferenceDate) = true
  /\ isoDateRegex (JSDate.toISOString testReferenceDate) = true.
Proof.
  apply (toISOString_is_ISO8601 testReferenceDate).
  vm_compute. split; discriminate.
Defined.

Lemma in_n_days_and_weeks_witness :
  parseNaturalDateTarget sampleDateParse "In 3 Days" testReferenceDate
  = Ok (JSDate.MakeDate (JSDate.Day testReferenceDate + 3) noonUTC)
  /\ parseNaturalDateTarget sampleDateParse "in 2 weeks" testReferenceDate
     = Ok (JSDate.MakeDate (JSDate.Day testReferenceDate + 14) noonUTC)
  /\ parseNaturalDateTarget sampleDateParse "in 3 days" JSDate.maxTime
     = Throw (Error "Invalid time value").
Proof.
  split; [|split].
  - destruct (in_n_days_and_weeks sampleDateParse "In 3 Days" testReferenceDate 3 "days")
      as (_ & H & _);
      [vm_compute; split; discriminate | simpl; tauto | reflexivity |].
    apply H; [lia | vm_compute; discriminate].
  - destruct (in_n_days_and_weeks sampleDateParse "in 2 weeks" testReferenceDate 2
                "weeks")
      as (_ & H & _);
      [vm_compute; split; discriminate | simpl; tauto | reflexivity |].
    apply H; [lia | vm_compute; discriminate].
  - destruct (in_n_days_and_weeks sampleDateParse "in 3 days" JSDate.maxTime 3 "days")
      as (_ & _ & H & _);
      [vm_compute; split; discriminate | simpl; tauto | reflexivity |].
    apply H. reflexivity.
Defined.

Lemma next_and_this_weekday_witness :
  exists (i k : Z),
    indexOf "friday" ["sunday"; "monday"; "tuesday"; "wednesday"; "thursday"; "friday";
                      "saturday"] = Some i
    /\ 1 <= k <= 7
    /\ parseNaturalDateTarget sampleDateParse "This Friday" testReferenceDate
       = parseNaturalDateTarget sampleDateParse "friday" testReferenceDate
    /\ (JSDate.MakeDate
          (JSDate.Day testReferenceDate
           + (if JSDate.WeekDay testReferenceDate <? i then k + 7 else k)) noonUTC
        <= JSDate.maxTime ->
        parseNaturalDateTarget sampleDateParse "Next Friday" testReferenceDate
        = Ok (JSDate.MakeDate
                (JSDate.Day testReferenceDate
                 + (if JSDate.WeekDay testReferenceDate <? i then k + 7 else k))
                noonUTC)).
Proof.
  destruct (next_and_this_weekday sampleDateParse testReferenceDate "friday")
    as (i & k & Hi & Hk & _ & _ & _ & _ & _ & Hthis & Hnext);
    [vm_compute; split; discriminate | simpl; tauto|].
  exists i, k. split; [exact Hi|]. split; [exact Hk|]. split.
  - apply (Hthis "This Friday"). reflexivity.
  - apply (Hnext "Next Friday"). reflexivity.
Defined.

Lemma digit_led_text_must_be_ISO8601_witness :
  parseNaturalDate sampleDateParse "15/01/2024" testReferenceDate
  = Throw (Error ("I couldn't understand the date " ++ JS.quoted "15/01/2024"
                  ++ ". Try phrases like " ++ JS.quoted "tomorrow" ++ ", "
                  ++ JS.quoted "next Monday" ++ ", " ++ JS.quoted "in 3 days"
                  ++ ", or a specific date.")).
Proof.
  exact (digit_led_text_must_be_ISO8601 sampleDateParse "15/01/2024" testReferenceDate
           eq_refl eq_refl).
Defined.

Lemma parsePriority_of_decimal_witness :
  parsePriority (InString "10") = None
  /\ parsePriority (InString "4") = Some (ofInt 4).
Proof.
  split; [exact (parsePriority_of_decimal 10) | exact (parsePriority_of_decimal 4)].
Defined.

Lemma parsePriority_formatPriority_witness :
  exists z,
    1 <= z <= 5
    /\ number_eqb (ofInt 4) (ofInt z) = true
    /\ In (formatPriority sampleNumberToString (Some (ofInt 4)))
         ["Low"; "Normal"; "High"; "Urgent"; "Critical"]
    /\ parsePriority (InString (formatPriority sampleNumberToString (Some (ofInt 4))))
       = Some (ofInt z).
Proof.
  apply (parsePriority_formatPriority sampleNumberToString (InString "pressing")
           (ofInt 4)).
  - reflexivity.
  - exists 4. reflexivity.
Defined.

Lemma livekitHost_scheme_witness :
  livekitHost "wss://todo.livekit.cloud" = "https://todo.livekit.cloud"
  /\ livekitHost "ws://localhost:7880" = "http://localhost:7880".
Proof.
  split.
  - destruct (livekitHost_scheme "todo.livekit.cloud") as (H & _);
      [reflexivity | reflexivity | exact H].
  - destruct (livekitHost_scheme "localhost:7880") as (_ & H & _);
      [reflexivity | reflexivity | exact H].
Defined.

Lemma cleanup_deletes_every_dispatch_witness :
  exitCode (cleanup sampleEnv sampleService) = 0
  /\ deleteCalls (cleanup sampleEnv sampleService) = ["AD_1"; "AD_2"; "AD_3"]
  /\ deletedCount (cleanup sampleEnv sampleService) = 2%nat
  /\ exitCode (cleanup {| LIVEKIT_API_KEY := Some "key"; LIVEKIT_API_SECRET := Some "";
                          LIVEKIT_URL := Some "wss://todo.livekit.cloud";
                          NEXT_PUBLIC_LIVEKIT_URL := None |} sampleService) = 1
     /\ deleteCalls
          (cleanup {| LIVEKIT_API_KEY := Some "key"; LIVEKIT_API_SECRET := Some "";
                      LIVEKIT_URL := Some "wss://todo.livekit.cloud";
                      NEXT_PUBLIC_LIVEKIT_URL := None |} sampleService) = []
     /\ deletedCount
          (cleanup {| LIVEKIT_API_KEY := Some "key"; LIVEKIT_API_SECRET := Some "";
                      LIVEKIT_URL := Some "wss://todo.livekit.cloud";
                      NEXT_PUBLIC_LIVEKIT_URL := None |} sampleService) = 0%nat.
Proof.
  destruct (cleanup_deletes_every_dispatch sampleEnv sampleService) as [H _].
  destruct (H "key" "secret" "wss://todo.livekit.cloud" sampleDispatches)
    as (H1 & H2 & H3 & _);
    try reflexivity; try discriminate.
  split; [exact H1 | split; [exact H2 | split; [exact H3|]]].
  destruct (cleanup_deletes_every_dispatch
              {| LIVEKIT_API_KEY := Some "key"; LIVEKIT_API_SECRET := Some "";
                 LIVEKIT_URL := Some "wss://todo.livekit.cloud";
                 NEXT_PUBLIC_LIVEKIT_URL := None |} sampleService)
    as (_ & _ & _ & Hmissing & _).
  apply Hmissing. reflexivity.
Defined.

Lemma playGreeting_guard_witness :
  sayCalls (Nat.iter 2 (playGreeting sampleGreetingPlayedIn sampleSay sampleRoom)
              emptyStage)
  = [greetingMessage GREETING_CONFIG; greetingMessage GREETING_CONFIG]
  /\ hasGreetingBeenPlayed "voice-todo-room"
       (playGreeting sampleGreetingPlayedIn sampleSay sampleRoom emptyStage) = true.
Proof.
  destruct (playGreeting_guard sampleGreetingPlayedIn sampleSay sampleRoom emptyStage)
    as [_ H].
  destruct H as [Hn Hhas].
  - intros text E. injection E as <-. discriminate.
  - split.
    + exact (Hn 2%nat).
    + apply Hhas; [reflexivity | discriminate | reflexivity].
Defined.
